(** * Release reconciliation scripts of go-lynx/lynx

    A shallow embedding of [release_plugins.py] and [release_main.py]:
    the two scripts that bring a local tag, a remote tag and a hosted
    release to a target version, for a list of plugin repositories and for
    the main project.

    The scripts are sequences of calls to external collaborators (the git
    command line through [subprocess], the GitHub REST API through
    [requests], the file system, the terminal).  The embedding keeps the
    control flow of the source and threads an explicit world through every
    collaborator call; each call, with the answer it received, and each line
    printed are recorded in an event log, so that statements about what a
    run did (or did not do) are statements about its log. *)

From Stdlib Require Import String Ascii List ZArith Bool Lia DecimalString.
Import ListNotations.

Local Open Scope string_scope.
Local Open Scope list_scope.
Local Open Scope Z_scope.

(** String concatenation, as in f-strings and [+] on [str]. *)
Notation "a +++ b" := (String.append a b) (right associativity, at level 60).

(* ================================================================== *)
(** ** Python strings *)
(* ================================================================== *)

Module Py.

Definition nl : string := String (ascii_of_nat 10) EmptyString.
Definition esc : string := String (ascii_of_nat 27) EmptyString.

(** [s.startswith(p)] *)
Definition startswith (s p : string) : bool := String.prefix p s.

(** Truth value of a [str]: non-empty. *)
Definition nonempty (s : string) : bool :=
  match s with EmptyString => false | String _ _ => true end.

(** Truth value of an optional [str] ([None] or a string). *)
Definition truthy_opt (o : option string) : bool :=
  match o with Some s => nonempty s | None => false end.

(** [a or b] on optional strings. *)
Definition or_else (a b : option string) : option string :=
  if truthy_opt a then a else b.

(** White space in the sense of [str.strip()] (byte strings: the ASCII
    part of it). *)
Definition isspace (c : ascii) : bool :=
  let n := nat_of_ascii c in
  (Nat.eqb n 32 || (Nat.leb 9 n && Nat.leb n 13)
   || (Nat.leb 28 n && Nat.leb n 31))%bool.

Fixpoint lstrip (s : string) : string :=
  match s with
  | EmptyString => EmptyString
  | String c t => if isspace c then lstrip t else s
  end.

Fixpoint rstrip (s : string) : string :=
  match s with
  | EmptyString => EmptyString
  | String c t =>
      match rstrip t with
      | EmptyString => if isspace c then EmptyString else String c EmptyString
      | t' => String c t'
      end
  end.

Definition strip (s : string) : string := rstrip (lstrip s).

(** [s.lower()] on ASCII letters. *)
Definition lower_ascii (c : ascii) : ascii :=
  let n := nat_of_ascii c in
  if (Nat.leb 65 n && Nat.leb n 90)%bool then ascii_of_nat (n + 32) else c.

Fixpoint lower (s : string) : string :=
  match s with
  | EmptyString => EmptyString
  | String c t => String (lower_ascii c) (lower t)
  end.

(** [s.split(sep, 1)]: at most one split, at the first separator. *)
Fixpoint split1 (sep : ascii) (s : string) : list string :=
  match s with
  | EmptyString => [EmptyString]
  | String c t =>
      if Ascii.eqb c sep then [EmptyString; t]
      else match split1 sep t with
           | h :: r => String c h :: r
           | [] => [String c EmptyString]
           end
  end.

(** [str(n)] for a length. *)
Definition str_nat (n : nat) : string := NilZero.string_of_uint (Nat.to_uint n).

(** [s * n] *)
Fixpoint repeat (s : string) (n : nat) : string :=
  match n with O => EmptyString | S k => s +++ repeat s k end.

(** [sep.join(l)] *)
Definition join (sep : string) (l : list string) : string := String.concat sep l.

(** [s[:n]] *)
Definition take (n : nat) (s : string) : string := String.substring 0 n s.

End Py.

(* ================================================================== *)
(** ** Exceptions and the ways a computation ends *)
(* ================================================================== *)

(** The exceptions that occur in the two scripts; all of them are
    subclasses of Python's [Exception]. *)
Inductive exc : Type :=
| CalledProcessError (returncode : Z) (out err : option string)
| HTTPError (status : Z)
| RequestException
| JSONDecodeError
| KeyError (key : string)
| TypeError
| ValueError
| OSError
| EOFError.

(** [except ValueError]: [json.JSONDecodeError] is a subclass. *)
Definition is_ValueError (e : exc) : bool :=
  match e with ValueError | JSONDecodeError => true | _ => false end.

(** A computation returns, raises an [Exception], is interrupted from the
    keyboard, or leaves through [sys.exit].  [KeyboardInterrupt] and
    [SystemExit] are not [Exception]s: [except Exception] lets them pass. *)
Inductive Outcome (A : Type) : Type :=
| Return (a : A)
| Raise (e : exc)
| KeyboardInterrupt
| SystemExit (code : Z).

Arguments Return {A} a.
Arguments Raise {A} e.
Arguments KeyboardInterrupt {A}.
Arguments SystemExit {A} code.

(** The exit status of the interpreter when [main()] ends that way. *)
Definition exit_status {A : Type} (o : Outcome A) : Z :=
  match o with
  | Return _ => 0
  | Raise _ => 1
  | KeyboardInterrupt => 130
  | SystemExit code => code
  end.

(* ================================================================== *)
(** ** Collaborators *)
(* ================================================================== *)

(** What [subprocess.run] learns from the child process. *)
Record CompletedProcess : Type := mkProc {
  returncode : Z;
  stdout : string;
  stderr : string
}.

(** A value in the [json=] payload of a request. *)
Inductive payload_val : Type :=
| PStr (s : string)
| PBool (b : bool).

(** [requests.Response], with the result of [response.json()]: [None]
    when the body is not JSON. *)
Record Response (J : Type) : Type := mkResp {
  status_code : Z;
  text : string;
  json : option J
}.

Arguments mkResp {J} _ _ _.
Arguments status_code {J} _.
Arguments text {J} _.
Arguments json {J} _.

(** What [input()] yields. *)
Inductive Stdin : Type :=
| Line (s : string)
| Eof
| CtrlC.

(** One entry of [plugins.json], as the script reads it: a dictionary with
    string values under ['name'] and ['repo']. *)
Record PluginConfig : Type := mkPlugin {
  p_name : string;      (* [p['name']] *)
  p_repo : string;      (* [p['repo']] *)
  p_enabled : bool      (* truth value of [p.get('enabled', True)] *)
}.

(** The external world: the state the collaborators act on, and what the
    libraries the scripts call compute.  Nothing is assumed of it. *)
Record Collab : Type := mkCollab {
  World : Type;
  (* decoded JSON and the object protocol the scripts use on it *)
  Json : Type;
  truthy : Json -> bool;
  getitem : Json -> string -> exc + Json;
  format : Json -> string;
  (* str(e) *)
  exc_str : exc -> string;
  (* the child process of subprocess.run(cmd, capture_output=, cwd=);
     None: it could not be started (OSError) *)
  spawn : list string -> bool -> option string -> World ->
          option CompletedProcess * World;
  (* requests.request(method, url, headers=, json=);
     None: no answer (a RequestException: connection error, timeout) *)
  request : string -> string -> list (string * string) ->
            option (list (string * payload_val)) -> World ->
            option (Response Json) * World;
  (* pathlib / os.path *)
  script_dir : string;
  joinpath : string -> string -> string;
  parent : string -> string;
  path_exists : string -> World -> bool;
  path_isfile : string -> World -> bool;
  (* open(path).read(), open(path, "w").write(text); None: OSError *)
  read_text : string -> World -> option string;
  write_text : string -> string -> World -> option unit * World;
  (* json.load(open(path)).get('plugins', []) *)
  load_plugins : string -> World -> exc + list PluginConfig;
  (* input(), os.getenv, os.chdir *)
  readline : World -> Stdin * World;
  getenv : string -> World -> option string;
  chdir : string -> World -> option unit * World;
  (* re.search(r'github\.com[:/]([^/]+)/([^/]+?)(?:\.git)?/?$', url) *)
  re_search_repo : string -> option (string * string);
  (* re.sub(r"\s+v[\d.]+\s*$", repl, content, count=1) *)
  re_sub_version : string -> string -> string
}.

(** Everything a run does that is visible outside: lines printed and
    collaborator calls, each with the answer it got. *)
Inductive Event (C : Collab) : Type :=
| EPrint (line : string)
| ESpawn (cmd : list string) (capture : bool) (cwd : option string)
         (res : option CompletedProcess)
| ERequest (method url : string) (headers : list (string * string))
           (data : option (list (string * payload_val)))
           (res : option (Response (Json C)))
| EExists (path : string) (res : bool)
| EIsFile (path : string) (res : bool)
| ERead (path : string) (res : option string)
| EWrite (path content : string) (res : option unit)
| ELoadPlugins (path : string) (res : exc + list PluginConfig)
| EInput (prompt : string) (res : Stdin)
| EGetenv (var : string) (res : option string)
| EChdir (path : string) (res : option unit).

Arguments EPrint {C} line.
Arguments ESpawn {C} cmd capture cwd res.
Arguments ERequest {C} method url headers data res.
Arguments EExists {C} path res.
Arguments EIsFile {C} path res.
Arguments ERead {C} path res.
Arguments EWrite {C} path content res.
Arguments ELoadPlugins {C} path res.
Arguments EInput {C} prompt res.
Arguments EGetenv {C} var res.
Arguments EChdir {C} path res.


(* ================================================================== *)
(** ** Computations *)
(* ================================================================== *)

(** What a computation leaves behind: the events it produced, in order,
    the world after it, and the way it ended. *)
Record Run (C : Collab) (A : Type) : Type := mkRun {
  log : list (Event C);
  world : World C;
  outcome : Outcome A
}.

Arguments mkRun {C A} _ _ _.
Arguments log {C A} _.
Arguments world {C A} _.
Arguments outcome {C A} _.

Definition M (C : Collab) (A : Type) : Type := World C -> Run C A.

Section Runtime.
Context {C : Collab}.

Definition ret {A : Type} (a : A) : M C A :=
  fun w => mkRun [] w (Return a).

(** The events [l], then the run [r]. *)
Definition prepend {A : Type} (l : list (Event C)) (r : Run C A) : Run C A :=
  match r with
  | mkRun l' w o => mkRun (l ++ l') w o
  end.

Definition bind {A B : Type} (m : M C A) (f : A -> M C B) : M C B :=
  fun w =>
    match m w with
    | mkRun l w1 (Return a) => prepend l (f a w1)
    | mkRun l w1 (Raise e) => mkRun l w1 (Raise e)
    | mkRun l w1 KeyboardInterrupt => mkRun l w1 KeyboardInterrupt
    | mkRun l w1 (SystemExit code) => mkRun l w1 (SystemExit code)
    end.

(** [raise e] and [sys.exit(code)] *)
Definition raise {A : Type} (e : exc) : M C A :=
  fun w => mkRun [] w (Raise e).

Definition sys_exit {A : Type} (code : Z) : M C A :=
  fun w => mkRun [] w (SystemExit code).

(** [try: m except <the exceptions h handles>: h e]; an exception for which
    [h] gives [None] passes through. *)
Definition try_except {A : Type} (m : M C A) (h : exc -> option (M C A)) : M C A :=
  fun w =>
    match m w with
    | mkRun l w1 (Raise e) =>
        match h e with
        | Some k => prepend l (k w1)
        | None => mkRun l w1 (Raise e)
        end
    | r => r
    end.

(** [try: m except KeyboardInterrupt: k] *)
Definition try_except_interrupt {A : Type} (m : M C A) (k : M C A) : M C A :=
  fun w =>
    match m w with
    | mkRun l w1 KeyboardInterrupt => prepend l (k w1)
    | r => r
    end.

Definition of_result {A : Type} (r : exc + A) : Outcome A :=
  match r with inl e => Raise e | inr a => Return a end.

(** A collaborator call that changes the world: ask, record, continue;
    [e] is the exception of a call that fails. *)
Definition call {A : Type} (ask : World C -> option A * World C)
  (ev : option A -> Event C) (e : exc) : M C A :=
  fun w => match ask w with
           | (Some a, w') => mkRun [ev (Some a)] w' (Return a)
           | (None, w') => mkRun [ev None] w' (Raise e)
           end.

(** A collaborator call that only reads the world. *)
Definition query {A : Type} (ask : World C -> A) (ev : A -> Event C) : M C A :=
  fun w => mkRun [ev (ask w)] w (Return (ask w)).

Definition print (line : string) : M C unit :=
  fun w => mkRun [EPrint line] w (Return tt).

Definition subprocess_spawn (cmd : list string) (capture : bool)
  (cwd : option string) : M C CompletedProcess :=
  call (spawn C cmd capture cwd) (ESpawn cmd capture cwd) OSError.

Definition requests_request (method url : string)
  (headers : list (string * string))
  (data : option (list (string * payload_val))) : M C (Response (Json C)) :=
  call (request C method url headers data) (ERequest method url headers data)
       RequestException.

Definition exists_ (path : string) : M C bool :=
  query (path_exists C path) (EExists path).

Definition isfile (path : string) : M C bool :=
  query (path_isfile C path) (EIsFile path).

Definition read_file (path : string) : M C string :=
  fun w => match read_text C path w with
           | Some t => mkRun [ERead path (Some t)] w (Return t)
           | None => mkRun [ERead path None] w (Raise OSError)
           end.

Definition write_file (path content : string) : M C unit :=
  call (write_text C path content) (EWrite path content) OSError.

Definition json_load_plugins (path : string) : M C (list PluginConfig) :=
  fun w => match load_plugins C path w with
           | inr l => mkRun [ELoadPlugins path (inr l)] w (Return l)
           | inl e => mkRun [ELoadPlugins path (inl e)] w (Raise e)
           end.

Definition os_getenv (var : string) : M C (option string) :=
  query (getenv C var) (EGetenv var).

Definition os_chdir (path : string) : M C unit :=
  call (chdir C path) (EChdir path) OSError.

(** [input(prompt)]: a line, [EOFError], or [KeyboardInterrupt]. *)
Definition input (prompt : string) : M C string :=
  fun w =>
    match readline C w with
    | (Line s, w') => mkRun [EInput prompt (Line s)] w' (Return s)
    | (Eof, w') => mkRun [EInput prompt Eof] w' (Raise EOFError)
    | (CtrlC, w') => mkRun [EInput prompt CtrlC] w' KeyboardInterrupt
    end.

End Runtime.

Declare Scope py_scope.
Delimit Scope py_scope with py.
Notation "x <- m ;; k" := (bind m (fun x => k))
  (at level 100, m at next level, right associativity) : py_scope.
Notation "m ;; k" := (bind m (fun _ => k))
  (at level 100, right associativity) : py_scope.
Local Open Scope py_scope.

(* ================================================================== *)
(** ** What the two scripts share *)
(* ================================================================== *)

(** The definitions of this section are the same, character for
    character, in [release_plugins.py] and [release_main.py]. *)

Module Colors.
Definition HEADER : string := Py.esc +++ "[95m".
Definition OKBLUE : string := Py.esc +++ "[94m".
Definition OKCYAN : string := Py.esc +++ "[96m".
Definition OKGREEN : string := Py.esc +++ "[92m".
Definition WARNING : string := Py.esc +++ "[93m".
Definition FAIL : string := Py.esc +++ "[91m".
Definition ENDC : string := Py.esc +++ "[0m".
Definition BOLD : string := Py.esc +++ "[1m".
End Colors.

(** [str(n)] for an [int]. *)
Definition str_int (z : Z) : string := NilZero.string_of_int (Z.to_int z).

(** [GitHubAPI]: the attributes set by [__init__]. *)
Record GitHubAPI : Type := mkGitHubAPI {
  token : string;
  owner : string;
  repo : string;
  base_url : string;
  headers : list (string * string)
}.

(** [GitHubAPI.__init__] *)
Definition GitHubAPI_init (token owner repo : string) : GitHubAPI :=
  let auth_header :=
    if Py.startswith token "github_pat_"
    then "Bearer " +++ token
    else "token " +++ token in
  mkGitHubAPI token owner repo "https://api.github.com"
    [("Authorization", auth_header);
     ("Accept", "application/vnd.github.v3+json")].

Section Shared.
Context {C : Collab}.

Definition print_info (msg : string) : M C unit :=
  print (Colors.OKCYAN +++ "ℹ️  " +++ msg +++ Colors.ENDC).

Definition print_success (msg : string) : M C unit :=
  print (Colors.OKGREEN +++ "✅ " +++ msg +++ Colors.ENDC).

Definition print_warning (msg : string) : M C unit :=
  print (Colors.WARNING +++ "⚠️  " +++ msg +++ Colors.ENDC).

Definition print_error (msg : string) : M C unit :=
  print (Colors.FAIL +++ "❌ " +++ msg +++ Colors.ENDC).

(** [subprocess.run(cmd, check=, capture_output=, text=True, cwd=)]: with
    [check], a non-zero return code raises [CalledProcessError]. *)
Definition subprocess_run (cmd : list string) (check capture_output : bool)
  (cwd : option string) : M C CompletedProcess :=
  result <- subprocess_spawn cmd capture_output cwd ;;
  if (check && negb (returncode result =? 0))%bool
  then raise (CalledProcessError (returncode result)
                (if capture_output then Some (stdout result) else None)
                (if capture_output then Some (stderr result) else None))
  else ret result.

(** [e.stdout.strip() if e.stdout else ''] *)
Definition strip_or_empty (o : option string) : string :=
  match o with
  | Some s => if Py.nonempty s then Py.strip s else EmptyString
  | None => EmptyString
  end.

(** [run_cmd]: the return code with the stripped outputs; a failing command
    is never an exception, whatever [check] is. *)
Definition run_cmd (cmd : list string) (check capture_output : bool)
  (cwd : option string) : M C (Z * string * string) :=
  try_except
    (result <- subprocess_run cmd check capture_output cwd ;;
     let stdout := if capture_output then Py.strip (stdout result) else EmptyString in
     let stderr := if capture_output then Py.strip (stderr result) else EmptyString in
     ret (returncode result, stdout, stderr))
    (fun e =>
       match e with
       | CalledProcessError code out err =>
           Some (if capture_output
                 then ret (code, strip_or_empty out, strip_or_empty err)
                 else ret (code, EmptyString, EmptyString))
       | _ => None
       end).

(** [GitHubAPI._request] *)
Definition _request (self : GitHubAPI) (method endpoint : string)
  (data : option (list (string * payload_val))) : M C (Response (Json C)) :=
  let url := base_url self +++ "/repos/" +++ owner self +++ "/"
             +++ repo self +++ "/" +++ endpoint in
  requests_request method url (headers self) data.

(** [response.json()] *)
Definition response_json (response : Response (Json C)) : M C (Json C) :=
  match json response with
  | None => raise JSONDecodeError
  | Some j => ret j
  end.

(** [j[key]] *)
Definition subscript (j : Json C) (key : string) : M C (Json C) :=
  fun w => mkRun [] w (of_result (getitem C j key)).

(** [response.raise_for_status()] of the requests library: [HTTPError] for
    a client error (4xx) or server error (5xx) status, nothing otherwise. *)
Definition raise_for_status (response : Response (Json C)) : M C unit :=
  if ((400 <=? status_code response) && (status_code response <? 600))%bool
  then raise (HTTPError (status_code response))
  else ret tt.

(** [GitHubAPI.get_release_by_tag]: [None] is Python's [None]. *)
Definition get_release_by_tag (self : GitHubAPI) (tag : string)
  : M C (option (Json C)) :=
  response <- _request self "GET" ("releases/tags/" +++ tag) None ;;
  if status_code response =? 200 then
    j <- response_json response ;; ret (Some j)
  else if status_code response =? 404 then
    ret None
  else
    (raise_for_status response ;;
     ret None).

(** [GitHubAPI.delete_release] *)
Definition delete_release (self : GitHubAPI) (release_id : Json C)
  (dry_run : bool) : M C bool :=
  if dry_run then
    (print_info ("[DRY-RUN] Would delete GitHub release (ID: "
                 +++ format C release_id +++ ")") ;;
     ret true)
  else
    (response <- _request self "DELETE" ("releases/" +++ format C release_id) None ;;
     if status_code response =? 204 then
       (print_success ("Deleted GitHub release (ID: " +++ format C release_id +++ ")") ;;
        ret true)
     else
       (print_error ("Failed to delete GitHub release: "
                     +++ str_int (status_code response) +++ " - " +++ text response) ;;
        ret false)).

(** The part of [GitHubAPI.create_release] the two files agree on: all of
    it but the list of possible causes printed after a 403 answer, which
    is [causes] here. *)
Definition create_release_with (causes : list string) (self : GitHubAPI)
  (tag name body : string) (dry_run : bool) : M C bool :=
  if dry_run then
    (print_info ("[DRY-RUN] Would create GitHub release: " +++ tag) ;;
     print_info ("  Name: " +++ name) ;;
     print_info (if (100 <? String.length body)%nat
                 then "  Body: " +++ Py.take 100 body +++ "..."
                 else "  Body: " +++ body) ;;
     ret true)
  else
    (let data :=
       [("tag_name", PStr tag);
        ("name", PStr name);
        ("body", PStr (if Py.nonempty body then body else "Release " +++ tag));
        ("draft", PBool false);
        ("prerelease", PBool false)] in
     response <- _request self "POST" "releases" (Some data) ;;
     if status_code response =? 201 then
       (print_success ("Created GitHub release: " +++ tag) ;;
        ret true)
     else
       (let error_msg := text response in
        (if status_code response =? 403 then
           (print_error "Failed to create GitHub release: 403 Forbidden" ;;
            print_error ("  Repository: " +++ owner self +++ "/" +++ repo self) ;;
            print_error ("  Error: " +++ error_msg) ;;
            print_warning "  Possible causes:" ;;
            fold_right (fun line k => print_warning line ;; k) (ret tt) causes ;;
            print_warning "  Solution: Create a new token with 'repo' scope at:" ;;
            print_warning "    https://github.com/settings/tokens")
         else
           print_error ("Failed to create GitHub release: "
                        +++ str_int (status_code response) +++ " - " +++ error_msg)) ;;
        ret false)).

End Shared.

(** [for x in l: s = body x s], the loop state [s] holding the variables
    the body assigns. *)
Fixpoint for_each {C : Collab} {A S : Type} (l : list A)
  (body : A -> S -> M C S) (s : S) : M C S :=
  match l with
  | [] => ret s
  | x :: rest => s' <- body x s ;; for_each rest body s'
  end.

(* ================================================================== *)
(** ** release_plugins.py *)
(* ================================================================== *)

Module ReleasePlugins.

(** The parsed command line ([argparse.Namespace]). *)
Record Args : Type := mkArgs {
  args_version : string;
  args_token : option string;
  args_config : string;          (* default "plugins.json" *)
  args_plugin : option string;
  args_dry_run : bool
}.

(** Lines 400-403: the value of [version] once the leading ['v'] has been
    seen to. *)
Definition normalize_version (version : string) : string :=
  if negb (Py.startswith version "v") then "v" +++ version else version.

Section Script.
Context {C : Collab}.

Definition delete_local_tag (tag plugin_dir : string) (dry_run : bool) : M C bool :=
  if dry_run then
    (print_info ("[DRY-RUN] Would delete local tag: " +++ tag) ;;
     ret true)
  else
    (r <- run_cmd ["git"; "tag"; "-d"; tag] false false (Some plugin_dir) ;;
     let '(code, _, _) := r in
     if code =? 0 then
       (print_success ("Deleted local tag: " +++ tag) ;;
        ret true)
     else
       (print_warning ("Local tag does not exist or deletion failed: " +++ tag) ;;
        ret false)).

Definition create_local_tag (tag plugin_dir : string) (dry_run : bool) : M C bool :=
  if dry_run then
    (print_info ("[DRY-RUN] Would create local tag: " +++ tag) ;;
     ret true)
  else
    (r <- run_cmd ["git"; "tag"; tag] false false (Some plugin_dir) ;;
     let '(code, _, _) := r in
     if code =? 0 then
       (print_success ("Created local tag: " +++ tag) ;;
        ret true)
     else
       (print_error ("Failed to create local tag: " +++ tag) ;;
        ret false)).

Definition push_tag (tag plugin_dir : string) (dry_run : bool) : M C bool :=
  if dry_run then
    (print_info ("[DRY-RUN] Would push tag to remote: " +++ tag) ;;
     ret true)
  else
    (r <- run_cmd ["git"; "push"; "origin"; tag] false false (Some plugin_dir) ;;
     let '(code, _, _) := r in
     if code =? 0 then
       (print_success ("Pushed tag to remote: " +++ tag) ;;
        ret true)
     else
       (print_error ("Failed to push tag: " +++ tag) ;;
        ret false)).

Definition delete_remote_tag (tag plugin_dir : string) (dry_run : bool) : M C bool :=
  if dry_run then
    (print_info ("[DRY-RUN] Would delete remote tag: " +++ tag) ;;
     ret true)
  else
    (r <- run_cmd ["git"; "push"; "origin"; "--delete"; tag] false false (Some plugin_dir) ;;
     let '(code, _, _) := r in
     if code =? 0 then
       (print_success ("Deleted remote tag: " +++ tag) ;;
        ret true)
     else
       (print_warning ("Remote tag does not exist or deletion failed: " +++ tag) ;;
        ret false)).

(** [GitHubAPI.create_release] of this file. *)
Definition create_release : GitHubAPI -> string -> string -> string -> bool -> M C bool :=
  create_release_with
    ["    1. Token does not have 'repo' permission";
     "    2. Token does not have access to this repository";
     "    3. Repository is private and token lacks private repo access"].

(** Steps 2 to 6 of [process_plugin]: what follows step 1 when step 1 has
    not returned. *)
Definition process_plugin_from_step_2 (plugin_name version plugin_dir : string)
  (github_api : option GitHubAPI) (dry_run : bool) : M C bool :=
  let tag := version in
  (* 2. Delete remote tag (if exists) *)
  print_info "Step 2: Deleting remote tag (if exists)..." ;;
  _ <- delete_remote_tag tag plugin_dir dry_run ;;
  (* 3. Delete local tag (if exists) *)
  print_info "Step 3: Deleting local tag (if exists)..." ;;
  _ <- delete_local_tag tag plugin_dir dry_run ;;
  (* 4. Create local tag *)
  print_info "Step 4: Creating local tag..." ;;
  created <- create_local_tag tag plugin_dir dry_run ;;
  if negb created then ret false else
  (* 5. Push tag to remote *)
  print_info "Step 5: Pushing tag to remote..." ;;
  pushed <- push_tag tag plugin_dir dry_run ;;
  if negb pushed then ret false else
  (* 6. Create GitHub release *)
  released <-
    match github_api with
    | Some api =>
        print_info "Step 6: Creating GitHub release..." ;;
        let release_name := version in
        let release_body := "Release " +++ version +++ " for " +++ plugin_name in
        create_release api tag release_name release_body dry_run
    | None =>
        print_warning "Step 6: Skipped (no GitHub API - provide token to create releases)" ;;
        ret true
    end ;;
  if negb released then ret false else
  print_success ("✅ Plugin " +++ plugin_name +++ " processed successfully") ;;
  ret true.

(** [process_plugin]: tag and release one plugin in its own repository. *)
Definition process_plugin (plugin_name plugin_repo version plugin_dir : string)
  (github_api : option GitHubAPI) (dry_run : bool) : M C bool :=
  let tag := version in
  print_info (Py.nl +++ "Processing plugin: " +++ plugin_name) ;;
  print_info ("Repository: " +++ plugin_repo) ;;
  print_info ("Plugin directory: " +++ plugin_dir) ;;
  print_info ("Tag: " +++ tag) ;;
  dir_exists <- exists_ plugin_dir ;;
  if negb dir_exists then
    (print_error ("Plugin directory does not exist: " +++ plugin_dir) ;;
     ret false)
  else
  git_exists <- exists_ (joinpath C plugin_dir ".git") ;;
  if negb git_exists then
    (print_error ("Plugin directory is not a git repository: " +++ plugin_dir) ;;
     ret false)
  else
  match github_api with
  | None =>
      print_warning "⚠️  GitHub API not available - will skip release operations" ;;
      print_warning "   (Only tag operations will be performed)"
  | Some _ => ret tt
  end ;;
  (* 1. Check and delete existing release *)
  match github_api with
  | Some api =>
      print_info "Step 1: Checking for existing GitHub release..." ;;
      release <- get_release_by_tag api tag ;;
      match release with
      | Some r =>
          if truthy C r then
            (print_warning ("Found existing GitHub release: " +++ tag) ;;
             release_id <- subscript r "id" ;;
             deleted <- delete_release api release_id dry_run ;;
             if negb deleted then ret false
             else process_plugin_from_step_2 plugin_name version plugin_dir github_api dry_run)
          else
            (print_info "No existing release found" ;;
             process_plugin_from_step_2 plugin_name version plugin_dir github_api dry_run)
      | None =>
          print_info "No existing release found" ;;
          process_plugin_from_step_2 plugin_name version plugin_dir github_api dry_run
      end
  | None =>
      print_info "Step 1: Skipped (no GitHub API)" ;;
      process_plugin_from_step_2 plugin_name version plugin_dir github_api dry_run
  end.

(** [load_plugins_config]: the enabled entries of the configuration file;
    the run ends with status 1 when there is no file, no enabled entry, or
    the file cannot be read. *)
Definition load_plugins_config (config_path : string) : M C (list PluginConfig) :=
  found <- exists_ config_path ;;
  if negb found then
    (print_error ("Configuration file not found: " +++ config_path) ;;
     print_info "Please create plugins.json with plugin information" ;;
     sys_exit 1)
  else
    try_except
      (plugins <- json_load_plugins config_path ;;
       (* Filter only enabled plugins *)
       let enabled_plugins := filter p_enabled plugins in
       match enabled_plugins with
       | [] =>
           print_error "No enabled plugins found in configuration" ;;
           sys_exit 1
       | _ => ret enabled_plugins
       end)
      (fun e =>
         match e with
         | JSONDecodeError =>
             Some (print_error ("Failed to parse JSON configuration: " +++ exc_str C e) ;;
                   sys_exit 1)
         | _ =>
             Some (print_error ("Failed to load configuration: " +++ exc_str C e) ;;
                   sys_exit 1)
         end).

(** The body of the loop of [main] (lines 452-481) for one entry of the
    configuration; the loop state is [(success_count, failed_plugins)]. *)
Definition main_loop_body (root_dir version : string) (token : option string)
  (dry_run : bool) (plugin_config : PluginConfig)
  (st : nat * list string) : M C (nat * list string) :=
  let '(success_count, failed_plugins) := st in
  let plugin_name := p_name plugin_config in
  let plugin_repo := p_repo plugin_config in
  (* Get plugin directory (parent directory of lynx folder) *)
  let plugin_dir := joinpath C (parent C root_dir) plugin_name in
  dir_exists <- exists_ plugin_dir ;;
  if negb dir_exists then
    (print_error ("Plugin directory not found: " +++ plugin_dir) ;;
     ret (success_count, failed_plugins ++ [plugin_name]))
  else
  (* Create GitHub API for this plugin's repository; [None] stands for the
     [continue] of the handler *)
  api <-
    match token with
    | Some tok =>
        if Py.nonempty tok then
          try_except
            (match Py.split1 "/" plugin_repo with
             | [owner; repo_name] =>
                 ret (Some (Some (GitHubAPI_init tok owner repo_name)))
             | _ => raise ValueError
             end)
            (fun e =>
               if is_ValueError e then
                 Some (print_error ("Invalid repository format for " +++ plugin_name
                                    +++ ": " +++ plugin_repo) ;;
                       ret None)
               else None)
        else ret (Some None)
    | None => ret (Some None)
    end ;;
  match api with
  | None => ret (success_count, failed_plugins ++ [plugin_name])
  | Some github_api =>
      try_except
        (ok <- process_plugin plugin_name plugin_repo version plugin_dir github_api dry_run ;;
         if ok then ret (S success_count, failed_plugins)
         else ret (success_count, failed_plugins ++ [plugin_name]))
        (fun e =>
           Some (print_error ("Error processing plugin " +++ plugin_name +++ ": "
                              +++ exc_str C e) ;;
                 ret (success_count, failed_plugins ++ [plugin_name])))
  end.

(** The loop of [main]: every entry in turn, from [success_count = 0] and
    [failed_plugins = []]. *)
Definition process_plugins (root_dir version : string) (token : option string)
  (dry_run : bool) (plugins_config : list PluginConfig) : M C (nat * list string) :=
  for_each plugins_config (main_loop_body root_dir version token dry_run) (O, []).

(** [main].  It returns nothing in the source; here it returns the two
    variables its summary prints, [(success_count, failed_plugins)]. *)
Definition main (args : Args) : M C (nat * list string) :=
  (* Validate version format *)
  let version := args_version args in
  (if negb (Py.startswith version "v")
   then print_warning ("Version should start with 'v', e.g.: v" +++ version)
   else ret tt) ;;
  let version := normalize_version version in
  (* Get GitHub token *)
  token <- (if Py.truthy_opt (args_token args) then ret (args_token args)
            else os_getenv "GITHUB_TOKEN") ;;
  (if (negb (Py.truthy_opt token) && negb (args_dry_run args))%bool then
     (print_warning "GitHub token not provided, will skip GitHub release creation" ;;
      print_info "You can provide it via --token argument or GITHUB_TOKEN environment variable")
   else ret tt) ;;
  (if args_dry_run args then
     print_warning "⚠️  DRY-RUN mode: No actual operations will be performed"
   else ret tt) ;;
  (* Load plugins configuration *)
  let root_dir := script_dir C in
  let config_path := joinpath C root_dir (args_config args) in
  plugins_config <- load_plugins_config config_path ;;
  (* Filter to single plugin if specified *)
  plugins_config <-
    (if Py.truthy_opt (args_plugin args) then
       let plugin_name := match args_plugin args with Some n => n | None => EmptyString end in
       let matching_plugins :=
         filter (fun p => String.eqb (p_name p) plugin_name) plugins_config in
       match matching_plugins with
       | [] =>
           print_error ("Plugin '" +++ plugin_name +++ "' not found in configuration") ;;
           print_info "Available plugins:" ;;
           for_each plugins_config
             (fun plugin (_ : unit) => print ("  - " +++ p_name plugin)) tt ;;
           sys_exit 1
       | _ =>
           print_info (Py.nl +++ "Filtered to single plugin: " +++ plugin_name) ;;
           ret matching_plugins
       end
     else ret plugins_config) ;;
  print_info (Py.nl +++ "Loaded " +++ Py.str_nat (length plugins_config)
              +++ " plugin(s) from configuration:") ;;
  for_each plugins_config
    (fun plugin (_ : unit) =>
       let status := if p_enabled plugin then "✅" else "❌" in
       print ("  " +++ status +++ " " +++ p_name plugin +++ " -> " +++ p_repo plugin)) tt ;;
  (* Confirmation *)
  (if negb (args_dry_run args) then
     (let plugin_text := if (length plugins_config =? 1)%nat then "plugin" else "plugins" in
      print (Py.nl +++ Colors.WARNING +++ "About to create tag " +++ version +++ " for "
             +++ Py.str_nat (length plugins_config) +++ " " +++ plugin_text
             +++ " and release on GitHub") ;;
      print (Colors.WARNING +++ "Press Enter to continue, or Ctrl+C to cancel..."
             +++ Colors.ENDC) ;;
      try_except_interrupt
        (_ <- input EmptyString ;; ret tt)
        (print (Py.nl +++ "Cancelled") ;;
         sys_exit 0))
   else ret tt) ;;
  (* Process each plugin *)
  report <- process_plugins root_dir version token (args_dry_run args) plugins_config ;;
  let '(success_count, failed_plugins) := report in
  (* Summary *)
  print (Py.nl +++ Colors.BOLD +++ Py.repeat "=" 60 +++ Colors.ENDC) ;;
  print (Colors.BOLD +++ "Processing complete" +++ Colors.ENDC) ;;
  print ("Success: " +++ Colors.OKGREEN +++ Py.str_nat success_count +++ "/"
         +++ Py.str_nat (length plugins_config) +++ Colors.ENDC) ;;
  match failed_plugins with
  | [] => ret tt
  | _ =>
      print ("Failed: " +++ Colors.FAIL +++ Py.str_nat (length failed_plugins)
             +++ Colors.ENDC) ;;
      print ("Failed plugins: " +++ Py.join ", " failed_plugins)
  end ;;
  print (Colors.BOLD +++ Py.repeat "=" 60 +++ Colors.ENDC) ;;
  ret (success_count, failed_plugins).

End Script.
End ReleasePlugins.

(* ================================================================== *)
(** ** release_main.py *)
(* ================================================================== *)

Module ReleaseMain.

(** The parsed command line ([argparse.Namespace]). *)
Record Args : Type := mkArgs {
  args_version : string;
  args_token : option string;
  args_dry_run : bool
}.

(** Lines 233-236: the value of [version] once the leading ['v'] has been
    seen to. *)
Definition normalize_version (version : string) : string :=
  if negb (Py.startswith version "v") then "v" +++ version else version.

Section Script.
Context {C : Collab}.

(** [get_git_remote_url]: the empty string when the command fails. *)
Definition get_git_remote_url : M C string :=
  r <- run_cmd ["git"; "remote"; "get-url"; "origin"] false true None ;;
  let '(code, output, _) := r in
  if negb (code =? 0) then ret EmptyString
  else ret (Py.strip output).

(** [parse_github_repo]: [(None, None)] when the pattern does not match. *)
Definition parse_github_repo (url : string) : option string * option string :=
  match re_search_repo C url with
  | Some (owner, repo) => (Some owner, Some repo)
  | None => (None, None)
  end.

(** [sync_banner_version] *)
Definition sync_banner_version (version : string) (dry_run : bool) : M C bool :=
  let banner_path :=
    joinpath C (joinpath C (joinpath C (script_dir C) "internal") "banner") "banner.txt" in
  is_file <- isfile banner_path ;;
  if negb is_file then
    (print_warning ("Banner file not found: " +++ banner_path +++ ", skipping version sync") ;;
     ret false)
  else
  content <- read_file banner_path ;;
  let new_content := re_sub_version C (" " +++ version +++ Py.nl) content in
  if String.eqb new_content content then
    (print_info "Banner version already matches, no change needed" ;;
     ret false)
  else
  if dry_run then
    (print_info ("[DRY-RUN] Would update banner version to " +++ version
                 +++ " in internal/banner/banner.txt") ;;
     ret true)
  else
  write_file banner_path new_content ;;
  print_success ("Updated banner version to " +++ version
                 +++ " in internal/banner/banner.txt") ;;
  ret true.

(** [GitHubAPI.create_release] of this file. *)
Definition create_release : GitHubAPI -> string -> string -> string -> bool -> M C bool :=
  create_release_with
    ["    1. Token does not have 'repo' permission";
     "    2. Token does not have access to this repository"].

(** [response.lower() == 'y'] *)
Definition says_yes (response : string) : bool := String.eqb (Py.lower response) "y".

(** Lines 350-392 of [main]: create the tag, push it, create the release. *)
Definition main_create (version owner repo : string)
  (github_api : option GitHubAPI) (dry_run : bool) : M C unit :=
  (* Create local tag *)
  print_info ("Creating local tag " +++ version +++ "...") ;;
  (if dry_run then
     print_info ("[DRY-RUN] Would create local tag: " +++ version)
   else
     (r <- run_cmd ["git"; "tag"; "-a"; version; "-m"; "Release " +++ version]
                   false false None ;;
      let '(code, _, _) := r in
      if negb (code =? 0) then
        (print_error ("Failed to create local tag: " +++ version) ;;
         sys_exit 1)
      else
        print_success ("Created local tag: " +++ version))) ;;
  (* Push tag to remote *)
  print_info ("Pushing tag " +++ version +++ " to remote...") ;;
  (if dry_run then
     print_info ("[DRY-RUN] Would push tag to remote: " +++ version)
   else
     (r <- run_cmd ["git"; "push"; "origin"; version] false false None ;;
      let '(code, _, _) := r in
      if negb (code =? 0) then
        (print_error ("Failed to push tag: " +++ version) ;;
         sys_exit 1)
      else
        print_success ("Pushed tag to remote: " +++ version))) ;;
  (* Create GitHub release *)
  match github_api with
  | Some api =>
      print_info "Creating GitHub release..." ;;
      let release_name := version in
      let release_body := "Release " +++ version +++ " of lynx framework" in
      created <- create_release api version release_name release_body dry_run ;;
      if negb created then sys_exit 1
      else print_success "GitHub release created successfully!"
  | None =>
      print_warning "⚠️  Skipped GitHub release creation (no token provided)" ;;
      print_info "📋 To create GitHub release manually:" ;;
      print_info ("   1. Visit: https://github.com/" +++ owner +++ "/" +++ repo
                  +++ "/releases/new") ;;
      print_info ("   2. Select tag: " +++ version) ;;
      print_info "   3. Fill in release notes and publish" ;;
      print_info EmptyString ;;
      print_info "   Or run this script again with --token to create release automatically" ;;
      print_info "   GitHub Actions may also automatically create a release when it detects the tag"
  end ;;
  print_success ("✅ Release " +++ version +++ " completed successfully!") ;;
  print_info "📋 Next steps:" ;;
  print_info ("   - If you want to release plugins, run: python3 release_plugins.py "
              +++ version).

(** Lines 298-308 of [main]: the banner. *)
Definition main_banner (version : string) (dry_run : bool) : M C unit :=
  (* Sync banner version so that startup banner matches the release version *)
  print_info "Syncing banner version..." ;;
  banner_updated <- sync_banner_version version dry_run ;;
  if (banner_updated && negb dry_run)%bool then
    (_ <- run_cmd ["git"; "add"; "internal/banner/banner.txt"] true false None ;;
     _ <- run_cmd ["git"; "commit"; "-m"; "chore: bump banner version to " +++ version]
                  true false None ;;
     print_success "Committed banner version update (tag will point to this commit)")
  else ret tt.

(** Lines 310-348 of [main]: what exists already is looked for and, once
    the user has agreed, deleted. *)
Definition main_cleanup (version : string) (github_api : option GitHubAPI)
  (dry_run : bool) : M C unit :=
  (* Check if tag exists locally *)
  r <- run_cmd ["git"; "rev-parse"; version] false true None ;;
  let '(code, _, _) := r in
  (if code =? 0 then
     (print_warning ("Tag " +++ version +++ " already exists locally") ;;
      if negb dry_run then
        (response <- input "Delete and recreate it? (y/N): " ;;
         if says_yes response then
           (print_info ("Deleting local tag " +++ version +++ "...") ;;
            _ <- run_cmd ["git"; "tag"; "-d"; version] false false None ;;
            ret tt)
         else
           (print "Release cancelled" ;;
            sys_exit 0))
      else
        print_info ("[DRY-RUN] Would delete local tag " +++ version))
   else ret tt) ;;
  (* Check if tag exists on remote *)
  r <- run_cmd ["git"; "ls-remote"; "--tags"; "origin"; version] false true None ;;
  let '(code, output, _) := r in
  (if ((code =? 0) && Py.nonempty output)%bool then
     (print_warning ("Tag " +++ version +++ " already exists on remote") ;;
      if negb dry_run then
        (response <- input "Delete and recreate it? (y/N): " ;;
         if says_yes response then
           (print_info ("Deleting remote tag " +++ version +++ "...") ;;
            _ <- run_cmd ["git"; "push"; "origin"; "--delete"; version] false false None ;;
            ret tt)
         else
           (print "Release cancelled" ;;
            sys_exit 0))
      else
        print_info ("[DRY-RUN] Would delete remote tag " +++ version))
   else ret tt) ;;
  (* Check and delete existing GitHub release *)
  match github_api with
  | Some api =>
      print_info "Checking for existing GitHub release..." ;;
      release <- get_release_by_tag api version ;;
      match release with
      | Some r =>
          if truthy C r then
            (print_warning ("Found existing GitHub release: " +++ version) ;;
             release_id <- subscript r "id" ;;
             deleted <- delete_release api release_id dry_run ;;
             if negb deleted then sys_exit 1 else ret tt)
          else
            print_info "No existing release found"
      | None =>
          print_info "No existing release found"
      end
  | None => ret tt
  end.

(** Lines 283-392 of [main]: the two checks of the working tree, then
    [main_banner], [main_cleanup] and [main_create]. *)
Definition main_in_repo (version owner repo : string)
  (github_api : option GitHubAPI) (dry_run : bool) : M C unit :=
  (* Check if we're in a git repository *)
  r <- run_cmd ["git"; "rev-parse"; "--git-dir"] false false None ;;
  let '(code, _, _) := r in
  if negb (code =? 0) then
    (print_error "Not in a git repository" ;;
     sys_exit 1)
  else
  (* Check for uncommitted changes *)
  r <- run_cmd ["git"; "diff-index"; "--quiet"; "HEAD"; "--"] false false None ;;
  let '(code, _, _) := r in
  (if negb (code =? 0) then
     (print_warning "You have uncommitted changes" ;;
      if negb dry_run then
        (response <- input "Continue anyway? (y/N): " ;;
         if negb (says_yes response) then
           (print "Release cancelled" ;;
            sys_exit 0)
         else ret tt)
      else ret tt)
   else ret tt) ;;
  main_banner version dry_run ;;
  main_cleanup version github_api dry_run ;;
  main_create version owner repo github_api dry_run.

(** Lines 265-392 of [main], [token] being the value of
    [args.token or os.getenv("GITHUB_TOKEN")]: the API object, and without a
    token the question whether to go on. *)
Definition main_with_token (version owner repo : string) (token : option string)
  (dry_run : bool) : M C unit :=
  github_api <-
    match token with
    | Some tok =>
        if Py.nonempty tok then ret (Some (GitHubAPI_init tok owner repo))
        else ret None
    | None => ret None
    end ;;
  (if (negb (Py.truthy_opt token) && negb dry_run)%bool then
     (print_warning "⚠️  GitHub token not provided!" ;;
      print_warning "   Without token, only tag will be created, GitHub release will be skipped" ;;
      print_info "   To create GitHub release, provide token via:" ;;
      print_info "     - --token argument: python3 release_main.py v1.5.1 --token ghp_xxxxx" ;;
      print_info "     - GITHUB_TOKEN environment variable: export GITHUB_TOKEN=ghp_xxxxx" ;;
      print_info EmptyString ;;
      response <- input "Continue without creating GitHub release? (y/N): " ;;
      if negb (says_yes response) then
        (print "Release cancelled" ;;
         sys_exit 0)
      else ret tt)
   else ret tt) ;;
  main_in_repo version owner repo github_api dry_run.

(** [main] *)
Definition main (args : Args) : M C unit :=
  (* Validate version format *)
  let version := args_version args in
  (if negb (Py.startswith version "v")
   then print_warning ("Version should start with 'v', e.g.: v" +++ version)
   else ret tt) ;;
  let version := normalize_version version in
  (if args_dry_run args then
     print_warning "⚠️  DRY-RUN mode: No actual operations will be performed"
   else ret tt) ;;
  (* Ensure we run from repository root *)
  r <- run_cmd ["git"; "rev-parse"; "--show-toplevel"] false true None ;;
  let '(code, git_root, _) := r in
  (if ((code =? 0) && Py.nonempty git_root)%bool then
     (os_chdir git_root ;;
      print_info ("Working directory: " +++ git_root))
   else ret tt) ;;
  (* Get git repository info *)
  print_info "Checking git repository..." ;;
  remote_url <- get_git_remote_url ;;
  if negb (Py.nonempty remote_url) then
    (print_error "Failed to get git remote URL. Are you in a git repository?" ;;
     sys_exit 1)
  else
  match parse_github_repo remote_url with
  | (Some owner, Some repo) =>
  if (negb (Py.nonempty owner) || negb (Py.nonempty repo))%bool then
    (print_error ("Failed to parse GitHub repository from: " +++ remote_url) ;;
     sys_exit 1)
  else
  print_info ("Repository: " +++ owner +++ "/" +++ repo) ;;
  (* Get GitHub token *)
  token <- (if Py.truthy_opt (args_token args) then ret (args_token args)
            else os_getenv "GITHUB_TOKEN") ;;
  main_with_token version owner repo token (args_dry_run args)
  | _ =>
    print_error ("Failed to parse GitHub repository from: " +++ remote_url) ;;
    sys_exit 1
  end.

End Script.
End ReleaseMain.

(* ================================================================== *)
(** ** A simulated world *)
(* ================================================================== *)

(** A small model of what the collaborators do, to run the scripts on:
    tags per working directory, tags per remote, releases per repository,
    and faults to inject. *)
Module Sim.

(** Decoded JSON: an object with integer fields, or a number. *)
Inductive SJson : Type :=
| SObj (fields : list (string * Z))
| SNum (z : Z).

Definition s_truthy (j : SJson) : bool :=
  match j with
  | SObj [] => false
  | SObj _ => true
  | SNum z => negb (z =? 0)
  end.

Fixpoint assoc (k : string) (l : list (string * Z)) : option Z :=
  match l with
  | [] => None
  | (k', v) :: t => if String.eqb k k' then Some v else assoc k t
  end.

Definition s_getitem (j : SJson) (k : string) : exc + SJson :=
  match j with
  | SObj l => match assoc k l with Some v => inr (SNum v) | None => inl (KeyError k) end
  | SNum _ => inl TypeError
  end.

Definition s_format (j : SJson) : string :=
  match j with
  | SNum z => str_int z
  | SObj _ => "{...}"
  end.

Definition s_exc_str (e : exc) : string :=
  match e with
  | CalledProcessError _ _ _ => "CalledProcessError"
  | HTTPError status => str_int status +++ " Error"
  | RequestException => "RequestException"
  | JSONDecodeError => "JSONDecodeError"
  | KeyError k => "'" +++ k +++ "'"
  | TypeError => "TypeError"
  | ValueError => "not enough values to unpack (expected 2, got 1)"
  | OSError => "OSError"
  | EOFError => "EOF when reading a line"
  end.

(** A hosted repository: its API address and its releases (tag, id). *)
Record Hosted : Type := mkHosted {
  api : string;
  releases : list (string * Z)
}.

Record State : Type := mkState {
  paths : list string;                              (* paths that exist *)
  files : list (string * string);                   (* regular files and their text *)
  local_tags : list (option string * string);       (* (cwd, tag) *)
  remote_tags : list (option string * string);      (* (cwd, tag) on origin *)
  hosted : list Hosted;
  next_id : Z;
  origin_url : string;                              (* of the current directory *)
  plugins_json : exc + list PluginConfig;
  environ : list (string * string);
  stdin : list Stdin;
  git_faults : list (list string);                  (* commands that fail, code 1 *)
  http_faults : list (string * string * Z)          (* (method, url) answered with a status *)
}.

Definition eq_cwd (a b : option string) : bool :=
  match a, b with
  | Some x, Some y => String.eqb x y
  | None, None => true
  | _, _ => false
  end.

Definition eq_tag (k1 k2 : option string * string) : bool :=
  (eq_cwd (fst k1) (fst k2) && String.eqb (snd k1) (snd k2))%bool.

Definition has_tag (k : option string * string) (l : list (option string * string)) : bool :=
  existsb (eq_tag k) l.

Definition drop_tag (k : option string * string) (l : list (option string * string)) :=
  filter (fun k' => negb (eq_tag k k')) l.

Fixpoint eq_cmd (a b : list string) : bool :=
  match a, b with
  | [], [] => true
  | x :: a', y :: b' => (String.eqb x y && eq_cmd a' b')%bool
  | _, _ => false
  end.

Definition with_local (s : State) (l : list (option string * string)) : State :=
  mkState (paths s) (files s) l (remote_tags s) (hosted s) (next_id s) (origin_url s)
          (plugins_json s) (environ s) (stdin s) (git_faults s) (http_faults s).

Definition with_remote (s : State) (l : list (option string * string)) : State :=
  mkState (paths s) (files s) (local_tags s) l (hosted s) (next_id s) (origin_url s)
          (plugins_json s) (environ s) (stdin s) (git_faults s) (http_faults s).

Definition with_hosted (s : State) (h : list Hosted) (n : Z) : State :=
  mkState (paths s) (files s) (local_tags s) (remote_tags s) h n (origin_url s)
          (plugins_json s) (environ s) (stdin s) (git_faults s) (http_faults s).

Definition with_stdin (s : State) (i : list Stdin) : State :=
  mkState (paths s) (files s) (local_tags s) (remote_tags s) (hosted s) (next_id s)
          (origin_url s) (plugins_json s) (environ s) i (git_faults s) (http_faults s).

Definition with_files (s : State) (f : list (string * string)) : State :=
  mkState (paths s) f (local_tags s) (remote_tags s) (hosted s) (next_id s)
          (origin_url s) (plugins_json s) (environ s) (stdin s) (git_faults s) (http_faults s).

Definition done (code : Z) (out : string) (s : State) : option CompletedProcess * State :=
  (Some (mkProc code out EmptyString), s).

(** The git command line, as far as the scripts use it. *)
Definition s_spawn (cmd : list string) (capture : bool) (cwd : option string)
  (s : State) : option CompletedProcess * State :=
  if existsb (eq_cmd cmd) (git_faults s) then done 1 EmptyString s else
  match cmd with
  | [g; sub; a] =>
      if String.eqb sub "tag" then
        if has_tag (cwd, a) (local_tags s) then done 128 EmptyString s
        else done 0 EmptyString (with_local s ((cwd, a) :: local_tags s))
      else if String.eqb sub "rev-parse" then
        if String.eqb a "--show-toplevel" then done 0 ("/work/lynx" +++ Py.nl) s
        else if String.eqb a "--git-dir" then done 0 EmptyString s
        else if has_tag (cwd, a) (local_tags s) then done 0 ("abc123" +++ Py.nl) s
        else done 128 EmptyString s
      else done 0 EmptyString s
  | [g; sub; a; b] =>
      if (String.eqb sub "tag" && String.eqb a "-d")%bool then
        if has_tag (cwd, b) (local_tags s)
        then done 0 EmptyString (with_local s (drop_tag (cwd, b) (local_tags s)))
        else done 1 EmptyString s
      else if String.eqb sub "push" then
        if negb (has_tag (cwd, b) (local_tags s)) then done 1 EmptyString s
        else if has_tag (cwd, b) (remote_tags s) then done 1 EmptyString s
        else done 0 EmptyString (with_remote s ((cwd, b) :: remote_tags s))
      else if String.eqb sub "remote" then done 0 (origin_url s +++ Py.nl) s
      else done 0 EmptyString s
  | [g; sub; a; b; c] =>
      if (String.eqb sub "push" && String.eqb b "--delete")%bool then
        if has_tag (cwd, c) (remote_tags s)
        then done 0 EmptyString (with_remote s (drop_tag (cwd, c) (remote_tags s)))
        else done 1 EmptyString s
      else if String.eqb sub "ls-remote" then
        if has_tag (cwd, c) (remote_tags s)
        then done 0 ("abc123 refs/tags/" +++ c +++ Py.nl) s
        else done 0 EmptyString s
      else done 0 EmptyString s
  | [g; sub; a; b; c; d] =>
      if (String.eqb sub "tag" && String.eqb a "-a")%bool then
        if has_tag (cwd, b) (local_tags s) then done 128 EmptyString s
        else done 0 EmptyString (with_local s ((cwd, b) :: local_tags s))
      else done 0 EmptyString s
  | _ => done 0 EmptyString s
  end.

Fixpoint find_fault (method url : string) (l : list (string * string * Z)) : option Z :=
  match l with
  | [] => None
  | (m, u, status) :: t =>
      if (String.eqb m method && String.eqb u url)%bool then Some status
      else find_fault method url t
  end.

Definition answer (status : Z) (body : string) (j : option SJson) (s : State)
  : option (Response SJson) * State :=
  (Some (mkResp status body j), s).

(** The release whose lookup address is [url], if any. *)
Definition release_at (url : string) (h : Hosted) : option Z :=
  match filter (fun r => String.eqb url (api h +++ "/releases/tags/" +++ fst r)) (releases h) with
  | r :: _ => Some (snd r)
  | [] => None
  end.

Fixpoint lookup_release (url : string) (l : list Hosted) : option Z :=
  match l with
  | [] => None
  | h :: t => match release_at url h with
              | Some id => Some id
              | None => lookup_release url t
              end
  end.

(** Deleting by address: the repositories after it, and whether one had it. *)
Definition deletes (url : string) (h : Hosted) (r : string * Z) : bool :=
  String.eqb url (api h +++ "/releases/" +++ str_int (snd r)).

Definition delete_at (url : string) (h : Hosted) : Hosted :=
  mkHosted (api h) (filter (fun r => negb (deletes url h r)) (releases h)).

Definition has_release_id (url : string) (l : list Hosted) : bool :=
  existsb (fun h => existsb (deletes url h) (releases h)) l.

Definition payload_tag (data : option (list (string * payload_val))) : string :=
  match data with
  | Some ((_, PStr t) :: _) => t
  | _ => EmptyString
  end.

Definition create_at (url tag : string) (id : Z) (h : Hosted) : Hosted :=
  if String.eqb url (api h +++ "/releases")
  then mkHosted (api h) ((tag, id) :: releases h)
  else h.

Definition tagged (url tag : string) (l : list Hosted) : bool :=
  existsb (fun h => (String.eqb url (api h +++ "/releases")
                     && existsb (fun r => String.eqb tag (fst r)) (releases h))%bool) l.

Definition known (url : string) (l : list Hosted) : bool :=
  existsb (fun h => String.eqb url (api h +++ "/releases")) l.

(** The release API, as far as the scripts use it.  A fault with status 0
    stands for a connection that fails. *)
Definition s_request (method url : string) (headers : list (string * string))
  (data : option (list (string * payload_val))) (s : State)
  : option (Response SJson) * State :=
  match find_fault method url (http_faults s) with
  | Some status =>
      if status =? 0 then (None, s)
      else answer status "fault" None s
  | None =>
      if String.eqb method "GET" then
        match lookup_release url (hosted s) with
        | Some id => answer 200 "release" (Some (SObj [("id", id)])) s
        | None => answer 404 "Not Found" (Some (SObj [("status", 404)])) s
        end
      else if String.eqb method "DELETE" then
        if has_release_id url (hosted s)
        then answer 204 EmptyString None
               (with_hosted s (map (delete_at url) (hosted s)) (next_id s))
        else answer 404 "Not Found" (Some (SObj [("status", 404)])) s
      else if String.eqb method "POST" then
        if negb (known url (hosted s)) then
          answer 404 "Not Found" (Some (SObj [("status", 404)])) s
        else if tagged url (payload_tag data) (hosted s) then
          answer 422 "already_exists" (Some (SObj [("status", 422)])) s
        else
          answer 201 "created" (Some (SObj [("id", next_id s)]))
            (with_hosted s (map (create_at url (payload_tag data) (next_id s)) (hosted s))
                         (next_id s + 1))
      else answer 405 "Method Not Allowed" None s
  end.

Fixpoint lookup (k : string) (l : list (string * string)) : option string :=
  match l with
  | [] => None
  | (k', v) :: t => if String.eqb k k' then Some v else lookup k t
  end.

Definition s_exists (path : string) (s : State) : bool :=
  (existsb (String.eqb path) (paths s)
   || match lookup path (files s) with Some _ => true | None => false end)%bool.

Definition s_isfile (path : string) (s : State) : bool :=
  match lookup path (files s) with Some _ => true | None => false end.

Definition s_read (path : string) (s : State) : option string :=
  lookup path (files s).

Definition s_write (path content : string) (s : State) : option unit * State :=
  (Some tt, with_files s ((path, content) :: files s)).

Definition s_readline (s : State) : Stdin * State :=
  match stdin s with
  | [] => (Eof, s)
  | a :: t => (a, with_stdin s t)
  end.

(** [Path / name], [Path.parent]: paths are strings with ["/"] between
    the components. *)
Definition s_join (a b : string) : string := a +++ "/" +++ b.

Fixpoint s_parent_aux (s : string) : option string :=
  match s with
  | EmptyString => None
  | String c t =>
      match s_parent_aux t with
      | Some p => Some (String c p)
      | None => if Ascii.eqb c "/" then Some EmptyString else None
      end
  end.

Definition s_parent (s : string) : string :=
  match s_parent_aux s with Some p => p | None => "." end.

(** The repository of ["https://github.com/<owner>/<repo>.git"] addresses
    with this fixed owner, enough for the runs below. *)
Definition s_search_repo (url : string) : option (string * string) :=
  if String.eqb url "https://github.com/go-lynx/lynx.git"
  then Some ("go-lynx", "lynx") else None.

(** The banner ends in a version: replace the text by its first line and
    the new version. *)
Definition s_sub_version (repl content : string) : string :=
  match content with
  | EmptyString => content
  | _ => "lynx" +++ repl
  end.

Definition collab : Collab :=
  mkCollab State SJson s_truthy s_getitem s_format s_exc_str
    s_spawn s_request
    "/work/lynx" s_join s_parent s_exists s_isfile
    s_read s_write
    (fun _ s => plugins_json s)
    s_readline
    (fun var s => lookup var (environ s))
    (fun _ s => (Some tt, s))
    s_search_repo s_sub_version.

End Sim.

(* ================================================================== *)
(** ** Reading a log *)
(* ================================================================== *)

(** The actions of a reconciliation. *)
Inductive Action : Type :=
| DeleteRelease
| DeleteRemoteTag
| DeleteLocalTag
| CreateLocalTag
| PushTag
| CreateRelease.

(** A git command that changes a repository: [git tag ...], [git push ...],
    [git add ...], [git commit ...]. *)
Definition git_mutating (cmd : list string) : bool :=
  match cmd with
  | _ :: sub :: _ => existsb (String.eqb sub) ["tag"; "push"; "add"; "commit"]
  | _ => false
  end.

(** A collaborator call that changes external state: a mutating git
    command, a request that is not a GET, a file write. *)
Definition mutating {C : Collab} (e : Event C) : bool :=
  match e with
  | ESpawn cmd _ _ _ => git_mutating cmd
  | ERequest method _ _ _ _ => negb (String.eqb method "GET")
  | EWrite _ _ _ => true
  | _ => false
  end.

(** Any collaborator call at all (everything but a printed line). *)
Definition is_call {C : Collab} (e : Event C) : bool :=
  match e with
  | EPrint _ => false
  | _ => true
  end.

(** The action a git command performs, by its shape:
    [git tag <t>], [git tag -a <t> -m <msg>], [git tag -d <t>],
    [git push origin <t>], [git push origin --delete <t>]. *)
Definition git_action (cmd : list string) : option Action :=
  match cmd with
  | [_; sub; _] =>
      if String.eqb sub "tag" then Some CreateLocalTag else None
  | [_; sub; a; _] =>
      if (String.eqb sub "tag" && String.eqb a "-d")%bool then Some DeleteLocalTag
      else if (String.eqb sub "push" && String.eqb a "origin")%bool then Some PushTag
      else None
  | [_; sub; a; b; _] =>
      if (String.eqb sub "push" && String.eqb a "origin" && String.eqb b "--delete")%bool
      then Some DeleteRemoteTag else None
  | [_; sub; a; _; c; _] =>
      if (String.eqb sub "tag" && String.eqb a "-a" && String.eqb c "-m")%bool
      then Some CreateLocalTag else None
  | _ => None
  end.

(** The action a collaborator call performs, if it is one of the six. *)
Definition performs {C : Collab} (e : Event C) : option Action :=
  match e with
  | ESpawn cmd _ _ _ => git_action cmd
  | ERequest method _ _ _ _ =>
      if String.eqb method "DELETE" then Some DeleteRelease
      else if String.eqb method "POST" then Some CreateRelease
      else None
  | _ => None
  end.

(** The action a dry run announces in place of performing it: the
    ["[DRY-RUN] Would ..."] lines of [print_info]. *)
Definition dry_run_notice (what : string) (line : string) : bool :=
  String.prefix (Colors.OKCYAN +++ "ℹ️  " +++ "[DRY-RUN] Would " +++ what) line.

Definition announces {C : Collab} (e : Event C) : option Action :=
  match e with
  | EPrint line =>
      if dry_run_notice "delete GitHub release" line then Some DeleteRelease
      else if dry_run_notice "delete remote tag" line then Some DeleteRemoteTag
      else if dry_run_notice "delete local tag" line then Some DeleteLocalTag
      else if dry_run_notice "create local tag" line then Some CreateLocalTag
      else if dry_run_notice "push tag to remote" line then Some PushTag
      else if dry_run_notice "create GitHub release" line then Some CreateRelease
      else None
  | _ => None
  end.

Fixpoint pick {A B : Type} (f : A -> option B) (l : list A) : list B :=
  match l with
  | [] => []
  | x :: t => match f x with
              | Some y => y :: pick f t
              | None => pick f t
              end
  end.

(** The actions a run performed, in order. *)
Definition performed {C : Collab} (l : list (Event C)) : list Action := pick performs l.

(** The actions a run announced without performing them, in order: the
    plan a dry run shows. *)
Definition announced {C : Collab} (l : list (Event C)) : list Action := pick announces l.

(** [l1] is an initial segment of [l2]. *)
Fixpoint is_prefix (l1 l2 : list Action) : bool :=
  match l1, l2 with
  | [], _ => true
  | a :: t1, b :: t2 =>
      (match a, b with
       | DeleteRelease, DeleteRelease
       | DeleteRemoteTag, DeleteRemoteTag
       | DeleteLocalTag, DeleteLocalTag
       | CreateLocalTag, CreateLocalTag
       | PushTag, PushTag
       | CreateRelease, CreateRelease => true
       | _, _ => false
       end && is_prefix t1 t2)%bool
  | _ :: _, [] => false
  end.

(** [l1 ++ _ = l2] for some rest, as a proposition. *)
Definition Prefix (l1 l2 : list Action) : Prop := exists rest, l2 = l1 ++ rest.

(** A run that ends in success: [process_plugin] returned [True]. *)
Definition succeeded (o : Outcome bool) : bool :=
  match o with
  | Return true => true
  | _ => false
  end.

(** The command ran and returned 0. *)
Definition spawn_ok (res : option CompletedProcess) : bool :=
  match res with
  | Some p => returncode p =? 0
  | None => false
  end.

(** The request was answered with [status]. *)
Definition answered {J : Type} (status : Z) (res : option (Response J)) : bool :=
  match res with
  | Some r => status_code r =? status
  | None => false
  end.

(** The call of a required step (create the tag, push it, create the
    release) that did not succeed: a non-zero return code, a status other
    than 201, or no answer at all. *)
Definition required_failure {C : Collab} (e : Event C) : bool :=
  match e with
  | ESpawn cmd _ _ res =>
      match git_action cmd with
      | Some CreateLocalTag | Some PushTag => negb (spawn_ok res)
      | _ => false
      end
  | ERequest method _ _ _ res =>
      if String.eqb method "POST" then negb (answered 201 res) else false
  | _ => false
  end.

(** The request that deletes a release and did not succeed: a status other
    than 204, or no answer. *)
Definition release_delete_failure {C : Collab} (e : Event C) : bool :=
  match e with
  | ERequest method _ _ _ res =>
      if String.eqb method "DELETE" then negb (answered 204 res) else false
  | _ => false
  end.

(** A failure that ends the target. *)
Definition fatal_failure {C : Collab} (e : Event C) : bool :=
  (required_failure e || release_delete_failure e)%bool.

(** The command that deletes a tag (remote or local) and returned a
    non-zero code: the tag was absent, or the deletion failed. *)
Definition tag_delete_failure {C : Collab} (e : Event C) : bool :=
  match e with
  | ESpawn cmd _ _ (Some p) =>
      match git_action cmd with
      | Some DeleteRemoteTag | Some DeleteLocalTag => negb (returncode p =? 0)
      | _ => false
      end
  | _ => false
  end.

(** No collaborator call among the events. *)
Definition no_calls {C : Collab} (l : list (Event C)) : bool :=
  forallb (fun e => negb (is_call e)) l.

(** No mutating collaborator call among the events. *)
Definition no_mutation {C : Collab} (l : list (Event C)) : bool :=
  forallb (fun e => negb (mutating e)) l.

(** No request to the release API among the events. *)
Definition no_request {C : Collab} (l : list (Event C)) : bool :=
  forallb (fun e => match e with ERequest _ _ _ _ _ => false | _ => true end) l.

(** Every git command among the events returned 0. *)
Definition commands_ok {C : Collab} (l : list (Event C)) : bool :=
  forallb (fun e => match e with ESpawn _ _ _ res => spawn_ok res | _ => true end) l.

(** After an event that is [bad], no collaborator call follows. *)
Fixpoint halts_at {C : Collab} (bad : Event C -> bool) (l : list (Event C)) : bool :=
  match l with
  | [] => true
  | e :: t => ((if bad e then no_calls t else true) && halts_at bad t)%bool
  end.

(** The step that follows the deletion of a tag in the plugin script. *)
Definition follows (a b : Action) : bool :=
  match a, b with
  | DeleteRemoteTag, DeleteLocalTag => true
  | DeleteLocalTag, CreateLocalTag => true
  | _, _ => false
  end.

(** After a tag deletion that failed, the next step is performed. *)
Fixpoint goes_on {C : Collab} (l : list (Event C)) : bool :=
  match l with
  | [] => true
  | e :: t =>
      ((if tag_delete_failure e then
          match performs e, performed t with
          | Some a, b :: _ => follows a b
          | _, _ => false
          end
        else true) && goes_on t)%bool
  end.

(** *** What is observed, and the plan *)

(** What the lookup of a release by tag yields. *)
Inductive Lookup (J : Type) : Type :=
| NoRelease
| Release (id : J)
| LookupError (e : exc).

Arguments NoRelease {J}.
Arguments Release {J} id.
Arguments LookupError {J} e.

(** The address [GitHubAPI._request] builds. *)
Definition endpoint_url (api : GitHubAPI) (endpoint : string) : string :=
  base_url api +++ "/repos/" +++ owner api +++ "/" +++ repo api +++ "/" +++ endpoint.

(** What step 1 learns in world [w]: [get_release_by_tag], the truth value
    of its result, and the ["id"] of a release that is there. *)
Definition observe_release (C : Collab) (api : GitHubAPI) (tag : string)
  (w : World C) : Lookup (Json C) :=
  match fst (request C "GET" (endpoint_url api ("releases/tags/" +++ tag))
                     (headers api) None w) with
  | None => LookupError RequestException
  | Some response =>
      if status_code response =? 200 then
        match json response with
        | None => LookupError JSONDecodeError
        | Some j =>
            if truthy C j then
              match getitem C j "id" with
              | inr id => Release id
              | inl e => LookupError e
              end
            else NoRelease
        end
      else if status_code response =? 404 then NoRelease
      else if ((400 <=? status_code response) && (status_code response <? 600))%bool
      then LookupError (HTTPError (status_code response))
      else NoRelease
  end.

(** The plan of [process_plugin], as its steps 1 to 6 lay it out: the
    release is deleted when one was found, both tags are deleted without
    asking whether they exist, then tag, push and (with an API) release. *)
Definition plugin_plan {J : Type} (has_api : bool) (seen : Lookup J) : list Action :=
  match seen with
  | LookupError _ => []
  | Release _ =>
      DeleteRelease :: DeleteRemoteTag :: DeleteLocalTag :: CreateLocalTag :: PushTag
      :: (if has_api then [CreateRelease] else [])
  | NoRelease =>
      DeleteRemoteTag :: DeleteLocalTag :: CreateLocalTag :: PushTag
      :: (if has_api then [CreateRelease] else [])
  end.

(** The state a probe observes, in the words of the specification. *)
Record ObservedState : Type := mkObserved {
  localTagExists : bool;
  remoteTagExists : bool;
  releaseExists : bool
}.

(** The plan of the specification (its section 4.3): a resource is
    scheduled for deletion only if it exists. *)
Definition spec_plan (o : ObservedState) : list Action :=
  (if releaseExists o then [DeleteRelease] else [])
  ++ (if remoteTagExists o then [DeleteRemoteTag] else [])
  ++ (if localTagExists o then [DeleteLocalTag] else [])
  ++ [CreateLocalTag; PushTag; CreateRelease].

(** Whether an API object is there ([if github_api:]). *)
Definition has_api (a : option GitHubAPI) : bool :=
  match a with Some _ => true | None => false end.

(** Steps 2 to 6 of the plan. *)
Definition tail_plan (api : bool) : list Action :=
  DeleteRemoteTag :: DeleteLocalTag :: CreateLocalTag :: PushTag
  :: (if api then [CreateRelease] else []).

(** The plan of [process_plugin] for a target in world [w]: nothing when
    the directory is not a checkout, and without an API no lookup and no
    release step. *)
Definition target_plan (C : Collab) (plugin_dir : string) (a : option GitHubAPI)
  (tag : string) (w : World C) : list Action :=
  if (path_exists C plugin_dir w && path_exists C (joinpath C plugin_dir ".git") w)%bool
  then match a with
       | Some api => plugin_plan true (observe_release C api tag w)
       | None => plugin_plan (J := Json C) false NoRelease
       end
  else [].

(** Equality of two lists of actions. *)
Fixpoint same_actions (l1 l2 : list Action) : bool :=
  match l1, l2 with
  | [], [] => true
  | a :: t1, b :: t2 => (is_prefix [a] [b] && same_actions t1 t2)%bool
  | _, _ => false
  end.

(** The computation came back to its caller: it returned or raised an
    [Exception]; it neither left through [sys.exit] nor was interrupted. *)
Definition came_back {A : Type} (o : Outcome A) : bool :=
  match o with
  | Return _ | Raise _ => true
  | _ => false
  end.

(** The API object the loop of [main] builds for a plugin (lines 464-472):
    [None] when the repository is not of the form [owner/name], which ends
    the iteration; [Some None] when there is no token. *)
Definition github_api_for (token : option string) (plugin_repo : string)
  : option (option GitHubAPI) :=
  match token with
  | Some tok =>
      if Py.nonempty tok then
        match Py.split1 "/" plugin_repo with
        | [owner; repo_name] => Some (Some (GitHubAPI_init tok owner repo_name))
        | _ => None
        end
      else Some None
  | None => Some None
  end.

(** The version without its leading ['v'], if it has one. *)
Definition strip_v (version : string) : string :=
  match version with
  | String "v" rest => rest
  | _ => version
  end.

(** A character that is neither a digit nor a dot. *)
Definition invalid_char (c : ascii) : bool :=
  let n := nat_of_ascii c in
  negb ((Nat.leb 48 n && Nat.leb n 57) || Nat.eqb n 46)%bool.

Fixpoint has_invalid_char (s : string) : bool :=
  match s with
  | EmptyString => false
  | String c t => (invalid_char c || has_invalid_char t)%bool
  end.

(** *** The report of a run over several targets *)

(** Whether the iteration of the loop of [main] for one entry counted it as
    a success: [success_count] went up. *)
Definition target_ok {C : Collab} (root_dir version : string) (token : option string)
  (dry_run : bool) (p : PluginConfig) (w : World C) : bool :=
  match outcome (ReleasePlugins.main_loop_body root_dir version token dry_run p (O, []) w) with
  | Return (S _, _) => true
  | _ => false
  end.





(** The directory of a plugin: next to the directory of the script. *)
Definition plugin_dir_of (C : Collab) (root_dir : string) (p : PluginConfig) : string :=
  joinpath C (parent C root_dir) (p_name p).



(** *** Properties of all the events of a run, and what else the claims
    speak of *)

(** Every event of every run of [m] satisfies [P]. *)
Definition every {C : Collab} {A : Type} (P : Event C -> bool) (m : M C A) : Prop :=
  forall w, forallb P (log (m w)) = true.


(** An event that is not a request to the release API. *)
Definition not_request {C : Collab} (e : Event C) : bool :=
  match e with ERequest _ _ _ _ _ => false | _ => true end.

(** The run came to its end: it returned. *)
Definition finished {A : Type} (o : Outcome A) : bool :=
  match o with
  | Return _ => true
  | _ => false
  end.

(** The plan of lines 350-392 of [release_main.py]. *)
Definition create_plan (api : bool) : list Action :=
  CreateLocalTag :: PushTag :: (if api then [CreateRelease] else []).

(** The answer that lets [release_main.py] go on without a token. *)
Definition agrees_without_release {C : Collab} (e : Event C) : bool :=
  match e with
  | EInput prompt (Line s) =>
      (String.eqb prompt "Continue without creating GitHub release? (y/N): "
       && ReleaseMain.says_yes s)%bool
  | _ => false
  end.

(** None of the six actions was performed. *)
Definition nothing_performed {C : Collab} (l : list (Event C)) : bool :=
  match performed l with
  | [] => true
  | _ :: _ => false
  end.

(** What the check of the version prints: the warning of lines 401-402
    (233-234 in [release_main.py]) for a version without its ['v']. *)
Definition version_notice {C : Collab} (v : string) : list (Event C) :=
  if Py.startswith v "v" then []
  else [EPrint (Colors.WARNING +++ "⚠️  "
                +++ ("Version should start with 'v', e.g.: v" +++ v) +++ Colors.ENDC)].

(** A probe of [main_cleanup] that found what it looked for: the local tag
    ([git rev-parse <tag>] returned 0), the remote tag
    ([git ls-remote --tags origin <tag>] returned 0 and printed something),
    or the release (the lookup was answered with a JSON value that is
    true). *)
Definition probe_found {C : Collab} (e : Event C) : bool :=
  match e with
  | ESpawn [_; sub; _] _ _ (Some p) =>
      (String.eqb sub "rev-parse" && (returncode p =? 0))%bool
  | ESpawn [_; sub; _; _; _] _ _ (Some p) =>
      (String.eqb sub "ls-remote" && (returncode p =? 0)
       && Py.nonempty (Py.strip (stdout p)))%bool
  | ERequest method _ _ _ (Some resp) =>
      (String.eqb method "GET" && (status_code resp =? 200)
       && match json resp with Some j => truthy C j | None => false end)%bool
  | _ => false
  end.

(** No probe found anything. *)
Definition nothing_found {C : Collab} (l : list (Event C)) : bool :=
  forallb (fun e => negb (probe_found e)) l.

(* ================================================================== *)
(** ** Scenarios *)
(* ================================================================== *)

(** Worlds of the simulation the examples below run in. *)
Module Scenario.

Definition redis : PluginConfig := mkPlugin "lynx-redis" "go-lynx/lynx-redis" true.
Definition kafka : PluginConfig := mkPlugin "lynx-kafka" "go-lynx/lynx-kafka" true.

Definition redis_dir : string := "/work/lynx-redis".
Definition redis_api : GitHubAPI := GitHubAPI_init "ghp_x" "go-lynx" "lynx-redis".
Definition redis_url : string := "https://api.github.com/repos/go-lynx/lynx-redis".
Definition kafka_url : string := "https://api.github.com/repos/go-lynx/lynx-kafka".
Definition lynx_url : string := "https://api.github.com/repos/go-lynx/lynx".

Definition checkouts : list string :=
  ["/work/lynx/plugins.json"; "/work/lynx-redis"; "/work/lynx-redis/.git";
   "/work/lynx-kafka"; "/work/lynx-kafka/.git"].

(** Nothing released yet: no tag anywhere, no release; a token in the
    environment; the user presses Enter. *)
Definition fresh : Sim.State :=
  Sim.mkState checkouts [] [] []
    [Sim.mkHosted redis_url []; Sim.mkHosted kafka_url []; Sim.mkHosted lynx_url []]
    100 "https://github.com/go-lynx/lynx.git"
    (inr [redis]) [("GITHUB_TOKEN", "ghp_x")] [Line EmptyString] [] [].

(** Version v1.0.0 of lynx-redis is out: both tags and release 7 exist. *)
Definition released : Sim.State :=
  Sim.mkState checkouts []
    [(Some redis_dir, "v1.0.0")] [(Some redis_dir, "v1.0.0")]
    [Sim.mkHosted redis_url [("v1.0.0", 7)]; Sim.mkHosted kafka_url [];
     Sim.mkHosted lynx_url []]
    100 "https://github.com/go-lynx/lynx.git"
    (inr [redis]) [("GITHUB_TOKEN", "ghp_x")] [Line EmptyString] [] [].

(** As [fresh], but [git tag v1.0.0] fails in lynx-redis. *)
Definition tag_fails : Sim.State :=
  Sim.mkState checkouts [] [] []
    [Sim.mkHosted redis_url []; Sim.mkHosted kafka_url []; Sim.mkHosted lynx_url []]
    100 "https://github.com/go-lynx/lynx.git"
    (inr [redis]) [("GITHUB_TOKEN", "ghp_x")] [Line EmptyString]
    [["git"; "tag"; "v1.0.0"]] [].

(** As [released], but the API answers 403 to the deletion of release 7. *)
Definition delete_forbidden : Sim.State :=
  Sim.mkState checkouts []
    [(Some redis_dir, "v1.0.0")] [(Some redis_dir, "v1.0.0")]
    [Sim.mkHosted redis_url [("v1.0.0", 7)]; Sim.mkHosted kafka_url [];
     Sim.mkHosted lynx_url []]
    100 "https://github.com/go-lynx/lynx.git"
    (inr [redis]) [("GITHUB_TOKEN", "ghp_x")] [Line EmptyString] []
    [("DELETE", redis_url +++ "/releases/7", 403)].


(** As [fresh], with two plugins, and the checkout of lynx-redis is not
    there. *)
Definition missing_checkout : Sim.State :=
  Sim.mkState ["/work/lynx/plugins.json"; "/work/lynx-kafka"; "/work/lynx-kafka/.git"]
    [] [] []
    [Sim.mkHosted redis_url []; Sim.mkHosted kafka_url []; Sim.mkHosted lynx_url []]
    100 "https://github.com/go-lynx/lynx.git"
    (inr [redis; kafka]) [("GITHUB_TOKEN", "ghp_x")] [Line EmptyString] [] [].

(** As [fresh], without a token; the user answers the questions of
    [release_main.py] with [answers]. *)
Definition no_token (answers : list Stdin) : Sim.State :=
  Sim.mkState checkouts [] [] []
    [Sim.mkHosted redis_url []; Sim.mkHosted kafka_url []; Sim.mkHosted lynx_url []]
    100 "https://github.com/go-lynx/lynx.git"
    (inr [redis]) [] answers [] [].

(** [process_plugin] for lynx-redis and v1.0.0, with its API object. *)
Definition plugin_run (dry_run : bool) (w : Sim.State) : Run Sim.collab bool :=
  ReleasePlugins.process_plugin (C := Sim.collab) "lynx-redis" "go-lynx/lynx-redis"
    "v1.0.0" redis_dir (Some redis_api) dry_run w.



Definition plugins_args (version : string) (dry_run : bool) : ReleasePlugins.Args :=
  ReleasePlugins.mkArgs version None "plugins.json" None dry_run.

Definition main_args (version : string) (dry_run : bool) : ReleaseMain.Args :=
  ReleaseMain.mkArgs version None dry_run.

End Scenario.

(* ================================================================== *)
(** ** More ways to read a log *)
(* ================================================================== *)

(** No command, no request, no write, no change of directory, nothing read
    from the terminal: only printed lines and look-ups. *)
Definition only_looks {C : Collab} (e : Event C) : bool :=
  match e with
  | ESpawn _ _ _ _ | ERequest _ _ _ _ _ | EWrite _ _ _ | EInput _ _ | EChdir _ _ => false
  | _ => true
  end.

(** A call that acts on something: a command, a request, a file write, a
    change of directory. *)
Definition acts {C : Collab} (e : Event C) : bool :=
  match e with
  | ESpawn _ _ _ _ | ERequest _ _ _ _ _ | EWrite _ _ _ | EChdir _ _ => true
  | _ => false
  end.

(** The events that are not [P]. *)
Definition non {C : Collab} (P : Event C -> bool) (e : Event C) : bool := negb (P e).

(** Nothing is read from the terminal. *)
Definition not_input {C : Collab} (e : Event C) : bool :=
  match e with EInput _ _ => false | _ => true end.


(** Equality of two command lines. *)
Fixpoint same_words (a b : list string) : bool :=
  match a, b with
  | [], [] => true
  | x :: a', y :: b' => (String.eqb x y && same_words a' b')%bool
  | _, _ => false
  end.

(** The four git commands of [release_plugins.py] on a tag (lines 158, 173,
    188 and 203). *)
Definition tag_command (tag : string) (cmd : list string) : bool :=
  existsb (same_words cmd)
    [["git"; "push"; "origin"; "--delete"; tag];
     ["git"; "tag"; "-d"; tag];
     ["git"; "tag"; tag];
     ["git"; "push"; "origin"; tag]].

(** Equality of two lists of headers. *)
Fixpoint same_headers (a b : list (string * string)) : bool :=
  match a, b with
  | [], [] => true
  | (k, v) :: a', (k', v') :: b' =>
      (String.eqb k k' && String.eqb v v' && same_headers a' b')%bool
  | _, _ => false
  end.

(** The [Authorization] header of [GitHubAPI.__init__] for a token:
    [Bearer] for a fine-grained token, [token] otherwise. *)
Definition authorization (tok : string) : string :=
  if Py.startswith tok "github_pat_" then "Bearer " +++ tok else "token " +++ tok.

(** A request goes to the repository [owner/repo], with the two headers of
    the token. *)
Definition asks_repository (own rp tok : string) {C : Collab} (e : Event C) : bool :=
  match e with
  | ERequest _ url hd _ _ =>
      (String.prefix ("https://api.github.com/repos/" +++ own +++ "/" +++ rp +++ "/") url
       && same_headers hd [("Authorization", authorization tok);
                           ("Accept", "application/vnd.github.v3+json")])%bool
  | _ => true
  end.

(** An event of the iteration of the loop of [release_plugins.py] for a
    plugin that stays with that plugin: a command is one of the four tag
    commands on [version], run without capture in the directory [dir]; a
    request goes to an address below [repo_url], with the two headers of the
    token; no file is read or written, no directory is changed, nothing is
    read from the terminal or from the environment. *)
Definition stays_with (dir version repo_url tok : string) {C : Collab} (e : Event C) : bool :=
  match e with
  | ESpawn cmd capture (Some d) _ =>
      (negb capture && String.eqb d dir && tag_command version cmd)%bool
  | ESpawn _ _ None _ => false
  | ERequest _ url hd _ _ =>
      (String.prefix repo_url url
       && same_headers hd [("Authorization", authorization tok);
                           ("Accept", "application/vnd.github.v3+json")])%bool
  | EWrite _ _ _ | EInput _ _ | EChdir _ _ | ERead _ _ | ELoadPlugins _ _
  | EGetenv _ _ | EIsFile _ _ => false
  | EPrint _ | EExists _ _ => true
  end.

(** A command runs in the directory [dir]. *)
Definition runs_in (dir : string) {C : Collab} (e : Event C) : bool :=
  match e with
  | ESpawn _ _ (Some d) _ => String.eqb d dir
  | ESpawn _ _ None _ => false
  | _ => true
  end.

(** The string has a ['/']. *)
Fixpoint has_slash (s : string) : bool :=
  match s with
  | EmptyString => false
  | String c t => (Ascii.eqb c "/" || has_slash t)%bool
  end.

(** The footprint of [release_plugins.py] outside the checkouts of the
    plugins: it reads no file but its configuration, writes none, does not
    change directory, and runs no command in its own directory. *)
Definition plugins_footprint {C : Collab} (e : Event C) : bool :=
  match e with
  | EWrite _ _ _ | EChdir _ _ | ERead _ _ | EIsFile _ _ => false
  | ESpawn _ _ None _ => false
  | _ => true
  end.

(** The path of the banner (lines 99-100 of [release_main.py]). *)
Definition banner_path (C : Collab) : string :=
  joinpath C (joinpath C (joinpath C (script_dir C) "internal") "banner") "banner.txt".

(** The footprint of [release_main.py]: the only file it looks at, reads or
    writes is the banner, it loads no configuration, and every command runs
    in the current directory. *)
Definition main_footprint {C : Collab} (e : Event C) : bool :=
  match e with
  | EWrite path _ _ | ERead path _ | EIsFile path _ => String.eqb path (banner_path C)
  | EExists _ _ | ELoadPlugins _ _ => false
  | ESpawn _ _ (Some _) _ => false
  | _ => true
  end.

(** The payload of a request that creates a release for [tag] (lines
    270-276 of [release_plugins.py], 181-187 of [release_main.py]): the
    tag, the tag as the name, a body that is not empty, neither a draft nor
    a prerelease. *)
Definition release_payload (tag : string) (data : option (list (string * payload_val)))
  : bool :=
  match data with
  | Some [(k1, PStr t); (k2, PStr n); (k3, PStr b); (k4, PBool d); (k5, PBool pre)] =>
      (String.eqb k1 "tag_name" && String.eqb t tag
       && String.eqb k2 "name" && String.eqb n tag
       && String.eqb k3 "body" && Py.nonempty b
       && String.eqb k4 "draft" && negb d
       && String.eqb k5 "prerelease" && negb pre)%bool
  | _ => false
  end.

(** A request of the scripts: a GET or a DELETE without payload, or a POST
    with the payload of a release for [tag]. *)
Definition well_formed_request (tag : string) {C : Collab} (e : Event C) : bool :=
  match e with
  | ERequest method _ _ data _ =>
      if String.eqb method "POST" then release_payload tag data
      else ((String.eqb method "GET" || String.eqb method "DELETE")
            && match data with None => true | Some _ => false end)%bool
  | _ => true
  end.

(** A request that deletes: only at the address of release [id] of the
    repository of [api]. *)
Definition deletes_only (C : Collab) (api : GitHubAPI) (id : option (Json C))
  (e : Event C) : bool :=
  match e with
  | ERequest method url _ _ _ =>
      if String.eqb method "DELETE" then
        match id with
        | Some i => String.eqb url (endpoint_url api ("releases/" +++ format C i))
        | None => false
        end
      else true
  | _ => true
  end.

(** The release a lookup found. *)
Definition found_release {J : Type} (seen : Lookup J) : option J :=
  match seen with
  | Release id => Some id
  | _ => None
  end.

(** *** What comes before what *)

(** [guarded G P opened l]: in [l], every event that satisfies [P] comes
    after an event that satisfies [G] (or [opened] holds at the start). *)
Fixpoint guarded {C : Collab} (G P : Event C -> bool) (opened : bool)
  (l : list (Event C)) : bool :=
  match l with
  | [] => true
  | e :: t => ((opened || negb (P e)) && guarded G P (opened || G e) t)%bool
  end.

(** In every run of [m], what satisfies [P] comes after something that
    satisfies [G]. *)
Definition gated {C : Collab} {A : Type} (G P : Event C -> bool) (m : M C A) : Prop :=
  forall w, guarded G P false (log (m w)) = true.



(** A line was read from the terminal. *)
Definition line_read {C : Collab} (e : Event C) : bool :=
  match e with
  | EInput _ (Line _) => true
  | _ => false
  end.

(** The command deletes a tag, here or on the remote. *)
Definition deletes_tag {C : Collab} (e : Event C) : bool :=
  match performs e with
  | Some DeleteLocalTag | Some DeleteRemoteTag => true
  | _ => false
  end.

(** The answer "y" to the question whether to delete and recreate a tag
    (lines 314 and 329 of [release_main.py]). *)
Definition agrees_to_delete {C : Collab} (e : Event C) : bool :=
  match e with
  | EInput prompt (Line s) =>
      (String.eqb prompt "Delete and recreate it? (y/N): " && ReleaseMain.says_yes s)%bool
  | _ => false
  end.

(** The request that creates a release. *)
Definition creates_release {C : Collab} (e : Event C) : bool :=
  match performs e with
  | Some CreateRelease => true
  | _ => false
  end.

(** The command that pushes a tag, and returned 0. *)
Definition pushed {C : Collab} (e : Event C) : bool :=
  match e with
  | ESpawn cmd _ _ (Some p) =>
      match git_action cmd with
      | Some PushTag => returncode p =? 0
      | _ => false
      end
  | _ => false
  end.

(** The command that pushes a tag. *)
Definition pushes {C : Collab} (e : Event C) : bool :=
  match performs e with
  | Some PushTag => true
  | _ => false
  end.

(** The command that creates a tag, and returned 0. *)
Definition tagged {C : Collab} (e : Event C) : bool :=
  match e with
  | ESpawn cmd _ _ (Some p) =>
      match git_action cmd with
      | Some CreateLocalTag => returncode p =? 0
      | _ => false
      end
  | _ => false
  end.

(** [git rev-parse --git-dir] returned 0: the current directory is in a
    git repository (line 283 of [release_main.py]). *)
Definition in_repository {C : Collab} (e : Event C) : bool :=
  match e with
  | ESpawn cmd _ _ (Some p) =>
      (same_words cmd ["git"; "rev-parse"; "--git-dir"] && (returncode p =? 0))%bool
  | _ => false
  end.

(** [git diff-index --quiet HEAD --] returned 0, or the answer "y" to the
    question whether to continue with uncommitted changes (lines 289-296 of
    [release_main.py]). *)
Definition clean_or_agreed {C : Collab} (e : Event C) : bool :=
  match e with
  | ESpawn cmd _ _ (Some p) =>
      (same_words cmd ["git"; "diff-index"; "--quiet"; "HEAD"; "--"]
       && (returncode p =? 0))%bool
  | EInput prompt (Line s) =>
      (String.eqb prompt "Continue anyway? (y/N): " && ReleaseMain.says_yes s)%bool
  | _ => false
  end.

(* ================================================================== *)
(** ** Regular expressions *)
(* ================================================================== *)

(** The two patterns of [release_main.py] and the part of Python's [re]
    that runs them: a backtracking matcher that tries the alternatives of
    every item in the order of [re] (a greedy item the longest first, a lazy
    one the shortest first), and a search for the leftmost match.  Strings
    are byte strings, as everywhere here; [\s] is [Py.isspace] and [\d] the
    ASCII digits. *)
Module Re.

(** The items of a pattern, [cls] being a set of characters:
    a character, [cls], [cls+] or [cls+?] (in a capturing group or not),
    [cls*], [(?:s)?] for a string [s], and [$]. *)
Inductive item : Type :=
| Lit (c : ascii)
| One (cls : ascii -> bool)
| Plus (greedy : bool) (cls : ascii -> bool) (capture : bool)
| Star (cls : ascii -> bool)
| Opt (s : string)
| Eos.

(** What a match gives: the text of its groups, and what follows it. *)
Definition found : Type := (list string * string)%type.

(** [s] without the prefix [p], if it has that prefix. *)
Fixpoint drop_prefix (p s : string) : option string :=
  match p, s with
  | EmptyString, _ => Some s
  | String a p', String b s' => if Ascii.eqb a b then drop_prefix p' s' else None
  | String _ _, EmptyString => None
  end.

(** [$] (without [re.MULTILINE]): at the end of the string, or just before
    a newline that ends it. *)
Definition at_end (s : string) : bool :=
  match s with
  | EmptyString => true
  | String c EmptyString => Ascii.eqb c (ascii_of_nat 10)
  | _ => false
  end.

(** [cls*], greedy: one more character if it can be had and the rest then
    matches; [k got rest] is the rest of the pattern, run on what is left
    of the string once [got] has been consumed. *)
Fixpoint star (cls : ascii -> bool) (k : string -> string -> option found)
  (got s : string) : option found :=
  match s with
  | String c t =>
      if cls c then
        match star cls k (got +++ String c EmptyString) t with
        | Some r => Some r
        | None => k got s
        end
      else k got s
  | EmptyString => k got s
  end.

(** [cls*?], lazy: the rest of the pattern first, one more character only
    if that fails. *)
Fixpoint lazy_star (cls : ascii -> bool) (k : string -> string -> option found)
  (got s : string) : option found :=
  match k got s with
  | Some r => Some r
  | None =>
      match s with
      | String c t =>
          if cls c then lazy_star cls k (got +++ String c EmptyString) t else None
      | EmptyString => None
      end
  end.

(** A match of the pattern at the start of [s]. *)
Fixpoint exec (p : list item) (s : string) : option found :=
  match p with
  | [] => Some ([], s)
  | Lit c :: p' =>
      match s with
      | String d t => if Ascii.eqb c d then exec p' t else None
      | EmptyString => None
      end
  | One cls :: p' =>
      match s with
      | String d t => if cls d then exec p' t else None
      | EmptyString => None
      end
  | Plus greedy cls capture :: p' =>
      match s with
      | String d t =>
          if cls d then
            (if greedy then star else lazy_star) cls
              (fun got rest =>
                 match exec p' rest with
                 | Some (groups, after) =>
                     Some (if capture then got :: groups else groups, after)
                 | None => None
                 end)
              (String d EmptyString) t
          else None
      | EmptyString => None
      end
  | Star cls :: p' => star cls (fun _ rest => exec p' rest) EmptyString s
  | Opt l :: p' =>
      match drop_prefix l s with
      | Some t =>
          match exec p' t with
          | Some r => Some r
          | None => exec p' s
          end
      | None => exec p' s
      end
  | Eos :: p' => if at_end s then exec p' s else None
  end.

(** [re.search]: the leftmost match, with the text before it. *)
Fixpoint search (p : list item) (s : string) : option (string * found) :=
  match exec p s with
  | Some r => Some (EmptyString, r)
  | None =>
      match s with
      | String c t =>
          match search p t with
          | Some (before, r) => Some (String c before, r)
          | None => None
          end
      | EmptyString => None
      end
  end.

(** [re.sub(p, repl, s, count=1)] for a replacement without backslash and
    a pattern that matches no empty string: the leftmost match is replaced
    by [repl]. *)
Definition sub1 (p : list item) (repl s : string) : string :=
  match search p s with
  | Some (before, (_, after)) => before +++ repl +++ after
  | None => s
  end.

Definition not_slash (c : ascii) : bool := negb (Ascii.eqb c "/").

Definition colon_or_slash (c : ascii) : bool := (Ascii.eqb c ":" || Ascii.eqb c "/")%bool.

Definition not_newline (c : ascii) : bool := negb (Ascii.eqb c (ascii_of_nat 10)).

(** [[\d.]] *)
Definition digit_or_dot (c : ascii) : bool :=
  let n := nat_of_ascii c in
  ((Nat.leb 48 n && Nat.leb n 57) || Ascii.eqb c ".")%bool.

(** [r'github\.com[:/]([^/]+)/([^/]+?)(?:\.git)?/?$'] (line 80) *)
Definition repo_pattern : list item :=
  [Lit "g"; Lit "i"; Lit "t"; Lit "h"; Lit "u"; Lit "b"; Lit "."; Lit "c"; Lit "o"; Lit "m";
   One colon_or_slash;
   Plus true not_slash true;
   Lit "/";
   Plus false not_slash true;
   Opt ".git";
   Opt "/";
   Eos].

(** [r"\s+v[\d.]+\s*$"] (line 110) *)
Definition version_pattern : list item :=
  [Plus true Py.isspace false;
   Lit "v";
   Plus true digit_or_dot false;
   Star Py.isspace;
   Eos].

(** [re.search(r'github\.com[:/]([^/]+)/([^/]+?)(?:\.git)?/?$', url)], with
    [match.group(1)] and [match.group(2)]. *)
Definition search_repo (url : string) : option (string * string) :=
  match search repo_pattern url with
  | Some (_, ([owner; repo], _)) => Some (owner, repo)
  | _ => None
  end.

(** [re.sub(r"\s+v[\d.]+\s*$", repl, content, count=1)] *)
Definition sub_version (repl content : string) : string :=
  sub1 version_pattern repl content.

End Re.

(** The collaborators of [C], with the regular expressions of [Re]. *)
Definition with_re (C : Collab) : Collab :=
  mkCollab (World C) (Json C) (truthy C) (getitem C) (format C) (exc_str C)
    (spawn C) (request C)
    (script_dir C) (joinpath C) (parent C) (path_exists C) (path_isfile C)
    (read_text C) (write_text C)
    (load_plugins C)
    (readline C) (getenv C) (chdir C)
    Re.search_repo Re.sub_version.

(** Every character of [s] is in [cls]. *)
Fixpoint all_in (cls : ascii -> bool) (s : string) : bool :=
  match s with
  | EmptyString => true
  | String c t => (cls c && all_in cls t)%bool
  end.

(** [sub in s] *)
Fixpoint mentions (sub s : string) : bool :=
  (String.prefix sub s
   || match s with
      | EmptyString => false
      | String _ t => mentions sub t
      end)%bool.

(** [s.endswith(suffix)] *)
Fixpoint endswith (s suffix : string) : bool :=
  (String.eqb s suffix
   || match s with
      | EmptyString => false
      | String _ t => endswith t suffix
      end)%bool.


(** The text [ws ++ "v" ++ digits ++ trail] is a version at the end of a
    banner: white space, ['v'], digits and dots, and white space to the
    end. *)
Definition is_version_text (ws digits trail : string) : bool :=
  (Py.nonempty ws && all_in Py.isspace ws
   && Py.nonempty digits && all_in Re.digit_or_dot digits
   && all_in Py.isspace trail)%bool.

(** A name of an owner or a repository: not empty, without ['/']. *)
Definition is_name (s : string) : bool := (Py.nonempty s && negb (has_slash s))%bool.

(** The URL [get_git_remote_url] makes of the output of git: stripped by
    [run_cmd] (line 60), and once more (line 74). *)
Definition remote_url_of (output : string) : string := Py.strip (Py.strip output).

(** [git remote get-url origin] returned 0 and the URL it printed mentions
    [github.com]. *)
Definition github_remote {C : Collab} (e : Event C) : bool :=
  match e with
  | ESpawn cmd _ _ (Some p) =>
      (same_words cmd ["git"; "remote"; "get-url"; "origin"]
       && (returncode p =? 0)
       && mentions "github.com" (remote_url_of (stdout p)))%bool
  | _ => false
  end.

(** What [release_main.py] does only once it knows its repository:
    everything but a printed line, a git command that changes nothing, and
    a change of directory. *)
Definition needs_repository {C : Collab} (e : Event C) : bool :=
  match e with
  | EPrint _ | EChdir _ _ => false
  | ESpawn cmd _ _ _ => git_mutating cmd
  | _ => true
  end.


(** The token [tok] is the one in use: every request carries its
    [Authorization], and the environment is not read. *)
Definition uses_token (tok : string) {C : Collab} (e : Event C) : bool :=
  match e with
  | ERequest _ _ hd _ _ =>
      same_headers hd [("Authorization", authorization tok);
                       ("Accept", "application/vnd.github.v3+json")]
  | EGetenv _ _ => false
  | _ => true
  end.

(** *** More worlds *)

Module Cases.


(** A plugin whose repository is not of the form [owner/name]. *)
Definition unscoped : PluginConfig := mkPlugin "lynx-redis" "lynx-redis" true.

(** [release_plugins.py v1.0.0 --plugin <name>] *)
Definition single (name : string) (dry_run : bool) : ReleasePlugins.Args :=
  ReleasePlugins.mkArgs "v1.0.0" None "plugins.json" (Some name) dry_run.

(** The banner once it carries version v1.0.0. *)
Definition synced_banner : Sim.State :=
  Sim.mkState Scenario.checkouts
    [("/work/lynx/internal/banner/banner.txt", "lynx v1.0.0" +++ Py.nl)]
    [] []
    [Sim.mkHosted Scenario.lynx_url []]
    100 "https://github.com/go-lynx/lynx.git"
    (inr [Scenario.redis]) [("GITHUB_TOKEN", "ghp_x")] [] [] [].

(** [release_plugins.py v1.0.0 --token <tok>] *)
Definition with_token (tok : string) (dry_run : bool) : ReleasePlugins.Args :=
  ReleasePlugins.mkArgs "v1.0.0" (Some tok) "plugins.json" None dry_run.

End Cases.

(* ================================================================== *)
(** * Properties *)
(* ================================================================== *)

(** ** Lists of events *)

Section Logs.
Context {C : Collab}.


Lemma no_calls_app (l1 l2 : list (Event C)) :
  no_calls (l1 ++ l2) = (no_calls l1 && no_calls l2)%bool.
Proof. apply forallb_app. Qed.


Lemma no_calls_no_mutation (l : list (Event C)) :
  no_calls l = true -> no_mutation l = true.
Proof.
  unfold no_calls, no_mutation. induction l as [|e t IH]; simpl; [reflexivity|].
  intros H. apply andb_true_iff in H. destruct H as [He Ht].
  rewrite (IH Ht). destruct e; simpl in *; try discriminate; reflexivity.
Qed.


Lemma halts_at_split (bad : Event C -> bool) (l pre post : list (Event C)) (e : Event C) :
  halts_at bad l = true -> l = pre ++ e :: post -> bad e = true ->
  no_calls post = true.
Proof.
  revert l. induction pre as [|x pre IH]; intros l H -> He; simpl in H.
  - rewrite He in H. apply andb_true_iff in H. tauto.
  - apply andb_true_iff in H. destruct H as [_ H]. exact (IH _ H eq_refl He).
Qed.

Lemma existsb_split (bad : Event C -> bool) (l pre post : list (Event C)) (e : Event C) :
  l = pre ++ e :: post -> bad e = true -> existsb bad l = true.
Proof.
  intros -> He. rewrite existsb_app. simpl. rewrite He.
  rewrite orb_true_r. reflexivity.
Qed.

Lemma goes_on_split (l pre post : list (Event C)) (e : Event C) :
  goes_on l = true -> l = pre ++ e :: post -> tag_delete_failure e = true ->
  exists a b rest,
    performs e = Some a /\ performed post = b :: rest /\ follows a b = true.
Proof.
  revert l. induction pre as [|x pre IH]; intros l H -> He; simpl in H.
  - rewrite He in H. apply andb_true_iff in H. destruct H as [H _].
    destruct (performs e) as [a|]; [|discriminate].
    destruct (performed post) as [|b rest]; [discriminate|].
    exists a, b, rest. auto.
  - apply andb_true_iff in H. destruct H as [_ H]. exact (IH _ H eq_refl He).
Qed.

Lemma is_prefix_Prefix (l1 l2 : list Action) :
  is_prefix l1 l2 = true -> Prefix l1 l2.
Proof.
  revert l2. induction l1 as [|a t IH]; intros l2 H.
  - exists l2. reflexivity.
  - destruct l2 as [|b t2]; simpl in H; [discriminate|].
    apply andb_true_iff in H. destruct H as [Hab Ht].
    destruct (IH _ Ht) as [rest ->].
    exists rest. destruct a, b; try discriminate; reflexivity.
Qed.

Lemma same_actions_eq (l1 l2 : list Action) :
  same_actions l1 l2 = true -> l1 = l2.
Proof.
  revert l2. induction l1 as [|a t IH]; intros [|b t2] H; simpl in H;
    try discriminate; [reflexivity|].
  apply andb_true_iff in H. destruct H as [Hab Ht].
  rewrite (IH _ Ht). destruct a, b; try discriminate; reflexivity.
Qed.

Lemma prepend_nil {A : Type} (r : Run C A) : prepend [] r = r.
Proof. destruct r; reflexivity. Qed.

End Logs.

(** ** Symbolic execution

    A run in an arbitrary world is followed call by call: the tactics below
    reduce the computation up to the next collaborator call, split on the
    answer of the world, and go on.  Two branches of a test that differ
    only in what they print and return are kept together. *)

Ltac run_reduce :=
  cbv beta iota zeta delta
    [bind prepend ret raise sys_exit try_except try_except_interrupt call query print
     of_result print_info print_success print_warning print_error
     subprocess_spawn requests_request exists_ isfile read_file write_file
     json_load_plugins os_getenv os_chdir input subscript raise_for_status
     response_json _request run_cmd subprocess_run strip_or_empty get_release_by_tag
     app negb andb orb fst snd status_code text json returncode stdout stderr
     base_url owner repo headers token is_ValueError for_each
     ReleasePlugins.args_version ReleasePlugins.args_token ReleasePlugins.args_config
     ReleasePlugins.args_plugin ReleasePlugins.args_dry_run
     ReleaseMain.args_version ReleaseMain.args_token ReleaseMain.args_dry_run
     Py.truthy_opt Py.or_else].

Ltac simp :=
  cbn -[Z.eqb Z.leb Z.ltb String.append str_int Py.nl Py.take Py.nonempty String.length
        World Json truthy getitem format exc_str spawn request script_dir joinpath parent
        path_exists path_isfile read_text write_text load_plugins readline getenv chdir
        re_search_repo re_sub_version Py.split1 Py.strip Py.lower Py.startswith
        Py.str_nat Py.repeat Py.join].

Ltac simp_in H :=
  cbn -[Z.eqb Z.leb Z.ltb String.append str_int Py.nl Py.take Py.nonempty String.length
        World Json truthy getitem format exc_str spawn request script_dir joinpath parent
        path_exists path_isfile read_text write_text load_plugins readline getenv chdir
        re_search_repo re_sub_version Py.split1 Py.strip Py.lower Py.startswith
        Py.str_nat Py.repeat Py.join] in H.

Ltac head_of t := lazymatch t with ?f _ => head_of f | _ => t end.

(** Unfold the function at the head of the call [t]. *)
Ltac unfold_call t :=
  let h := head_of t in
  let t' := eval cbv beta delta [h] in t in
  change t with t'.

(** Split on the test a condition hangs on. *)
Ltac split_on c :=
  lazymatch c with
  | (if ?c' then _ else _) => split_on c'
  | _ => destruct c eqn:?
  end.

Ltac settle c := let H := fresh in intro H; destruct c; exact H.

(** The functions of the script at hand, and the blocks whose properties
    are known already. *)
Ltac unfold_next := fail.
Ltac use_known_block := fail.

Ltac exec_step :=
  match goal with
  | |- context G [(if ?c then (fun w => mkRun [EPrint ?a] w (Return ?x))
                   else (fun w' => mkRun [EPrint ?b] w' (Return ?y))) ?w0] =>
      let g' := context G [mkRun [@EPrint _ (if c then a else b)] w0
                             (Return (if c then x else y))] in
      cut g'; [ settle c | ]
  | |- context G [(if ?c then (fun w => mkRun ?l1 w (Return ?x))
                   else (fun w' => mkRun ?l2 w' (Return ?y))) ?w0] =>
      let g' := context G [mkRun (if c then l1 else l2) w0
                             (Return (if c then x else y))] in
      cut g'; [ settle c | ]
  | |- context G [if ?c then mkRun [EPrint ?a] ?w (Return ?x)
                  else mkRun [EPrint ?b] ?w (Return ?y)] =>
      let g' := context G [mkRun [@EPrint _ (if c then a else b)] w
                             (Return (if c then x else y))] in
      cut g'; [ settle c | ]
  | |- context G [if ?c then mkRun ?l1 ?w (Return ?x)
                  else mkRun ?l2 ?w (Return ?y)] =>
      let g' := context G [mkRun (if c then l1 else l2) w
                             (Return (if c then x else y))] in
      cut g'; [ settle c | ]
  | |- context [(if ?c then _ else _) ?w] =>
      lazymatch type of w with
      | World _ => split_on c
      end
  | |- context [if ?c then ?a else ?b] =>
      lazymatch type of a with
      | Run _ _ => split_on c
      end
  | |- context [spawn ?C ?a ?b ?c ?w] =>
      destruct (spawn C a b c w) as [[[?code ?so ?se]|] ?w1] eqn:?
  | |- context [request ?C ?a ?b ?c ?d ?w] =>
      destruct (request C a b c d w) as [[[?st ?tx [?j|]]|] ?w1] eqn:?
  | |- context [getitem ?C ?j ?k] =>
      destruct (getitem C j k) as [?e|?v] eqn:?
  | |- context [readline ?C ?w] =>
      destruct (readline C w) as [[?s| |] ?w1] eqn:?
  | |- context [read_text ?C ?p ?w] =>
      destruct (read_text C p w) as [?content|] eqn:?
  | |- context [write_text ?C ?p ?t ?w] =>
      destruct (write_text C p t w) as [[[]|] ?w1] eqn:?
  | |- context [chdir ?C ?p ?w] =>
      destruct (chdir C p w) as [[[]|] ?w1] eqn:?
  | |- context [load_plugins ?C ?p ?w] =>
      destruct (load_plugins C p w) as [[]|?plugins] eqn:?
  | |- context [getenv ?C ?v ?w] =>
      destruct (getenv C v w) as [?tok|] eqn:?
  | |- context [re_search_repo ?C ?u] =>
      destruct (re_search_repo C u) as [[?own ?rp]|] eqn:?
  | |- context [Py.split1 ?c ?s] =>
      destruct (Py.split1 c s) as [|? [|? [|? ?]]] eqn:?
  | |- _ => use_known_block
  | |- _ => unfold_next
  end; run_reduce.

(** Rewrite with what the world answered on the way. *)
Ltac known :=
  repeat match goal with
  | H : request ?C ?a ?b ?c ?d ?w = _ |- context [request ?C ?a ?b ?c ?d ?w] => rewrite H
  | H : getitem ?C ?j ?k = _ |- context [getitem ?C ?j ?k] => rewrite H
  | H : ?x = true |- context [?x] => rewrite H
  | H : ?x = false |- context [?x] => rewrite H
  end.

(** Split on the tests that are still open, innermost first. *)
Ltac atoms_only :=
  repeat match goal with
         | |- context [if ?c then _ else _] =>
             lazymatch c with
             | (if _ then _ else _) => fail
             | true => fail
             | false => fail
             | _ => destruct c; simp
             end
         | |- context [Z.eqb ?a ?b] => destruct (Z.eqb a b); simp
         | |- context [Z.leb ?a ?b] => destruct (Z.leb a b); simp
         | |- context [Z.ltb ?a ?b] => destruct (Z.ltb a b); simp
         | |- context [path_exists ?C ?p ?w] => destruct (path_exists C p w); simp
         end.

Ltac unfold_checks :=
  unfold target_plan, observe_release, endpoint_url, tail_plan, has_api, plugin_plan,
    fatal_failure, required_failure, release_delete_failure, tag_delete_failure,
    spawn_ok, answered, no_calls, no_mutation, no_request, commands_ok,
    performed, announced, succeeded, came_back.

Ltac unfold_checks_in H :=
  unfold target_plan, observe_release, endpoint_url, tail_plan, has_api, plugin_plan,
    fatal_failure, required_failure, release_delete_failure, tag_delete_failure,
    spawn_ok, answered, no_calls, no_mutation, no_request, commands_ok,
    performed, announced, succeeded, came_back in H.

Ltac leaf :=
  intros; subst; repeat split; unfold_checks;
  simp; repeat (progress known; simp);
  first [ assumption | reflexivity | discriminate
        | atoms_only; first [assumption | reflexivity | discriminate] ].

(** Start the execution of the run [r := X] of a goal [let r := X in _]. *)
Ltac exec_run :=
  lazymatch goal with
  | |- let r := ?X in _ =>
      let r0 := fresh "r" in
      let E := fresh "E" in
      intros r0; pose proof (eq_refl : r0 = X) as E; clearbody r0; revert E;
      repeat exec_step
  end.

(** ** The plugin script: one target *)

Ltac unfold_next ::=
  match goal with
  | |- context [@ReleasePlugins.process_plugin ?C ?a ?b ?c ?d ?e ?f ?w] =>
      unfold_call (@ReleasePlugins.process_plugin C a b c d e f w)
  | |- context [@ReleasePlugins.process_plugin_from_step_2 ?C ?a ?b ?c ?d ?e ?w] =>
      unfold_call (@ReleasePlugins.process_plugin_from_step_2 C a b c d e w)
  | |- context [@ReleasePlugins.delete_remote_tag ?C ?a ?b ?c ?w] =>
      unfold_call (@ReleasePlugins.delete_remote_tag C a b c w)
  | |- context [@ReleasePlugins.delete_local_tag ?C ?a ?b ?c ?w] =>
      unfold_call (@ReleasePlugins.delete_local_tag C a b c w)
  | |- context [@ReleasePlugins.create_local_tag ?C ?a ?b ?c ?w] =>
      unfold_call (@ReleasePlugins.create_local_tag C a b c w)
  | |- context [@ReleasePlugins.push_tag ?C ?a ?b ?c ?w] =>
      unfold_call (@ReleasePlugins.push_tag C a b c w)
  | |- context [@delete_release ?C ?a ?b ?c ?w] =>
      unfold_call (@delete_release C a b c w)
  | |- context [@ReleasePlugins.create_release ?C ?a ?b ?c ?d ?e ?w] =>
      unfold_call (@ReleasePlugins.create_release C a b c d e w)
  | |- context [@ReleaseMain.create_release ?C ?a ?b ?c ?d ?e ?w] =>
      unfold_call (@ReleaseMain.create_release C a b c d e w)
  | |- context [@create_release_with ?C ?x ?a ?b ?c ?d ?e ?w] =>
      unfold_call (@create_release_with C x a b c d e w)
  | |- context [@ReleaseMain.main_create ?C ?a ?b ?c ?d ?e ?w] =>
      unfold_call (@ReleaseMain.main_create C a b c d e w)
  | |- context [@ReleaseMain.main_cleanup ?C ?a ?b ?c ?w] =>
      unfold_call (@ReleaseMain.main_cleanup C a b c w)
  | |- context [@ReleaseMain.main_banner ?C ?a ?b ?w] =>
      unfold_call (@ReleaseMain.main_banner C a b w)
  | |- context [@ReleaseMain.sync_banner_version ?C ?a ?b ?w] =>
      unfold_call (@ReleaseMain.sync_banner_version C a b w)
  | |- context [@ReleaseMain.get_git_remote_url ?C ?w] =>
      unfold_call (@ReleaseMain.get_git_remote_url C w)
  | |- context [@ReleaseMain.main_in_repo ?C ?a ?b ?c ?d ?e ?w] =>
      unfold_call (@ReleaseMain.main_in_repo C a b c d e w)
  | |- context [@ReleaseMain.main_with_token ?C ?a ?b ?c ?d ?e ?w] =>
      unfold_call (@ReleaseMain.main_with_token C a b c d e w)
  | |- context [@ReleaseMain.main ?C ?a ?w] =>
      unfold_call (@ReleaseMain.main C a w)
  end.

(** Steps 2 to 6, live. *)
Lemma from_step_2_live (C : Collab) (name version dir : string)
  (a : option GitHubAPI) (w : World C) :
  let r := ReleasePlugins.process_plugin_from_step_2 name version dir a false w in
  is_prefix (performed (log r)) (tail_plan (has_api a)) = true
  /\ implb (succeeded (outcome r))
           (same_actions (performed (log r)) (tail_plan (has_api a))) = true
  /\ halts_at fatal_failure (log r) = true
  /\ implb (existsb fatal_failure (log r)) (negb (succeeded (outcome r))) = true
  /\ halts_at required_failure (log r) = true
  /\ implb (existsb required_failure (log r)) (negb (succeeded (outcome r))) = true
  /\ goes_on (log r) = true
  /\ implb (negb (has_api a)) (no_request (log r)) = true
  /\ implb (negb (has_api a) && commands_ok (log r)) (succeeded (outcome r)) = true
  /\ came_back (outcome r) = true.
Proof.
  destruct a as [[tok own rp burl hdrs]|]; exec_run; leaf.
Qed.

(** Steps 2 to 6, dry run: they are announced, nothing is called. *)
Lemma from_step_2_dry (C : Collab) (name version dir : string)
  (a : option GitHubAPI) (w : World C) :
  let r := ReleasePlugins.process_plugin_from_step_2 name version dir a true w in
  no_calls (log r) = true
  /\ announced (log r) = tail_plan (has_api a)
  /\ outcome r = Return true
  /\ world r = w.
Proof.
  destruct a as [[tok own rp burl hdrs]|]; exec_run; intros ->; repeat split;
    try reflexivity;
    match goal with
    | |- context [Nat.ltb ?n ?m] => destruct (Nat.ltb n m); reflexivity
    end.
Qed.

Ltac use_known_block ::=
  match goal with
  | |- context [@ReleasePlugins.process_plugin_from_step_2 ?C ?a ?b ?c ?d false ?w] =>
      let F := fresh "F" in
      pose proof (from_step_2_live C a b c d w) as F;
      cbv zeta in F;
      destruct (@ReleasePlugins.process_plugin_from_step_2 C a b c d false w)
        as [?l ?w' ?o];
      unfold_checks_in F; simp_in F;
      destruct F as (?F & ?F & ?F & ?F & ?F & ?F & ?F & ?F & ?F & ?F)
  | |- context [@ReleasePlugins.process_plugin_from_step_2 ?C ?a ?b ?c ?d true ?w] =>
      let F := fresh "F" in
      pose proof (from_step_2_dry C a b c d w) as F;
      cbv zeta in F;
      destruct (@ReleasePlugins.process_plugin_from_step_2 C a b c d true w)
        as [?l ?w' ?o];
      unfold_checks_in F; cbn [log world outcome] in F;
      destruct F as (?F & ?F & -> & ->)
  end.

(** [process_plugin], live: what it performs is an initial segment of the
    plan of the target, all of it when it succeeds; a failure that is fatal
    is the last call; a tag deletion that fails is followed by the next
    step; without an API no request is made. *)
Lemma process_plugin_live (C : Collab) (name rp version dir : string)
  (a : option GitHubAPI) (w : World C) :
  let r := ReleasePlugins.process_plugin name rp version dir a false w in
  is_prefix (performed (log r)) (target_plan C dir a version w) = true
  /\ implb (succeeded (outcome r))
           (same_actions (performed (log r)) (target_plan C dir a version w)) = true
  /\ halts_at fatal_failure (log r) = true
  /\ implb (existsb fatal_failure (log r)) (negb (succeeded (outcome r))) = true
  /\ halts_at required_failure (log r) = true
  /\ implb (existsb required_failure (log r)) (negb (succeeded (outcome r))) = true
  /\ goes_on (log r) = true
  /\ implb (negb (has_api a)) (no_request (log r)) = true
  /\ implb (negb (has_api a) && path_exists C dir w
            && path_exists C (joinpath C dir ".git") w && commands_ok (log r))
           (succeeded (outcome r)) = true
  /\ came_back (outcome r) = true.
Proof.
  destruct a as [[tok own rp' burl hdrs]|]; exec_run; leaf.
Qed.

Ltac leaf_dry :=
  intros; subst; repeat split; unfold_checks;
  lazymatch goal with
  | |- pick announces ?l = _ =>
      let L := fresh "L" in
      set (L := pick announces l);
      cbn [fst snd status_code json text andb base_url owner repo headers token log];
      repeat (progress known;
              cbn [fst snd status_code json text andb base_url owner repo headers
                   token log]);
      subst L;
      try match goal with
          | F : pick announces ?l = _ |- _ => rewrite <- F
          end;
      vm_compute; reflexivity
  | |- _ =>
      simp; repeat (progress known; simp);
      first [ assumption | reflexivity | discriminate
            | apply no_calls_no_mutation; assumption ]
  end.

(** [process_plugin], dry run: nothing is changed, and what is announced is
    the plan of the target. *)
Lemma process_plugin_dry (C : Collab) (name rp version dir : string)
  (a : option GitHubAPI) (w : World C) :
  let r := ReleasePlugins.process_plugin name rp version dir a true w in
  no_mutation (log r) = true
  /\ announced (log r) = target_plan C dir a version w
  /\ came_back (outcome r) = true.
Proof.
  destruct a as [[tok own rp' burl hdrs]|]; exec_run; leaf_dry.
Qed.


(** The plan of a checkout, spelled out. *)
Lemma target_plan_checkout (C : Collab) (dir : string) (a : option GitHubAPI)
  (tag : string) (w : World C) :
  path_exists C dir w = true ->
  path_exists C (joinpath C dir ".git") w = true ->
  target_plan C dir a tag w =
  match a with
  | Some api => plugin_plan true (observe_release C api tag w)
  | None => plugin_plan (J := Json C) false NoRelease
  end.
Proof. intros H1 H2. unfold target_plan. rewrite H1, H2. reflexivity. Qed.

(** What a live run performs is an initial segment of the plan, and the
    whole plan when the run succeeds. *)
Lemma live_follows_plan (C : Collab) (name rp version dir : string)
  (a : option GitHubAPI) (w : World C) :
  let r := ReleasePlugins.process_plugin name rp version dir a false w in
  Prefix (performed (log r)) (target_plan C dir a version w)
  /\ (outcome r = Return true -> performed (log r) = target_plan C dir a version w).
Proof.
  intros r.
  destruct (process_plugin_live C name rp version dir a w) as (H1 & H2 & _).
  fold r in H1, H2. split.
  - apply is_prefix_Prefix. exact H1.
  - intros Ho. rewrite Ho in H2. simpl in H2. apply same_actions_eq. exact H2.
Qed.

(** ** The plugin script: the loop over the targets *)

(** [process_plugin] never leaves through [sys.exit] and is never
    interrupted: it returns or raises. *)
Lemma process_plugin_came_back (C : Collab) (name rp version dir : string)
  (a : option GitHubAPI) (dry_run : bool) (w : World C) :
  came_back (outcome (ReleasePlugins.process_plugin name rp version dir a dry_run w)) = true.
Proof.
  destruct dry_run.
  - apply (process_plugin_dry C name rp version dir a w).
  - apply (process_plugin_live C name rp version dir a w).
Qed.




(** [prepend] adds to the log and to nothing else. *)
Lemma log_prepend (C : Collab) (A : Type) (l : list (Event C)) (r : Run C A) :
  log (prepend l r) = l ++ log r.
Proof. destruct r; reflexivity. Qed.

Lemma outcome_prepend (C : Collab) (A : Type) (l : list (Event C)) (r : Run C A) :
  outcome (prepend l r) = outcome r.
Proof. destruct r; reflexivity. Qed.







(** The iteration for a plugin whose directory exists and whose API object
    could be built: it looks for the directory, runs [process_plugin], and
    then only prints; the target is a success exactly when
    [process_plugin] returned [True]. *)
Lemma main_loop_body_target (C : Collab) (root version : string) (token : option string)
  (dry_run : bool) (p : PluginConfig) (a : option GitHubAPI) (w : World C) :
  path_exists C (plugin_dir_of C root p) w = true ->
  github_api_for token (p_repo p) = Some a ->
  let r := ReleasePlugins.process_plugin (p_name p) (p_repo p) version
             (plugin_dir_of C root p) a dry_run w in
  let b := ReleasePlugins.main_loop_body root version token dry_run p (O, []) w in
  exists post,
    log b = EExists (plugin_dir_of C root p) true :: log r ++ post
    /\ no_calls post = true
    /\ target_ok root version token dry_run p w = succeeded (outcome r)
    /\ world b = world r.
Proof.
  intros E G r b. unfold plugin_dir_of, github_api_for, target_ok in *.
  pose proof (process_plugin_came_back C (p_name p) (p_repo p) version
                (joinpath C (parent C root) (p_name p)) a dry_run w) as B.
  subst r b. unfold ReleasePlugins.main_loop_body.
  destruct token as [tok|];
    [destruct (Py.nonempty tok) eqn:T;
     [destruct (Py.split1 "/" (p_repo p)) as [|o [|rn [|x rest]]] eqn:S;
      try discriminate G|]|];
    injection G as <-; run_reduce; rewrite E; run_reduce;
    destruct (ReleasePlugins.process_plugin _ _ _ _ _ _ _) as [l w' [[|]|e| |]];
    try discriminate B;
    eexists; (split; [cbn; reflexivity|]); repeat split.
Qed.

(** ** The main script: tag, push, release *)

(** The last part of [main], live: a required step that fails is the last
    call, and the process then ends with status 1; without an API object
    no request is made. *)
Lemma main_create_live (C : Collab) (version own rp : string)
  (a : option GitHubAPI) (w : World C) :
  let r := ReleaseMain.main_create version own rp a false w in
  is_prefix (performed (log r)) (CreateLocalTag :: PushTag
                                  :: (if has_api a then [CreateRelease] else [])) = true
  /\ halts_at required_failure (log r) = true
  /\ implb (existsb required_failure (log r)) (exit_status (outcome r) =? 1) = true
  /\ implb (negb (has_api a)) (no_request (log r)) = true.
Proof.
  destruct a as [[tok own' rp' burl hdrs]|]; exec_run.
  all: leaf.
Qed.

(** What [release_main.py] does about what exists already, live: a
    deletion of the release that fails is the last call, and the process
    then ends with status 1; when no probe finds anything, none of the six
    actions is performed. *)
Lemma main_cleanup_live (C : Collab) (version : string) (a : option GitHubAPI)
  (w : World C) :
  let r := ReleaseMain.main_cleanup version a false w in
  halts_at release_delete_failure (log r) = true
  /\ implb (existsb release_delete_failure (log r)) (exit_status (outcome r) =? 1) = true
  /\ implb (nothing_found (log r)) (nothing_performed (log r)) = true.
Proof.
  destruct a as [[tok own' rp' burl hdrs]|]; exec_run.
  all: unfold nothing_found, nothing_performed, probe_found; leaf.
Qed.

(** ** What holds of every event of a run *)

Section Every.
Context {C : Collab} (P : Event C -> bool).

(** The rules: one for each way of building a computation. *)
Lemma every_ret {A : Type} (a : A) : every P (ret a).
Proof. intros w. reflexivity. Qed.

Lemma every_raise {A : Type} (e : exc) : every P (raise (A := A) e).
Proof. intros w. reflexivity. Qed.

Lemma every_sys_exit {A : Type} (code : Z) : every P (sys_exit (A := A) code).
Proof. intros w. reflexivity. Qed.

Lemma every_print (line : string) : P (EPrint line) = true -> every P (print line).
Proof. intros H w. cbn. rewrite H. reflexivity. Qed.

Lemma every_bind {A B : Type} (m : M C A) (k : A -> M C B) :
  every P m -> (forall a, every P (k a)) -> every P (bind m k).
Proof.
  intros Hm Hk w. unfold bind. specialize (Hm w).
  destruct (m w) as [l w1 [a|e| |code]]; cbn [log] in *; try exact Hm.
  rewrite log_prepend, forallb_app, Hm. apply Hk.
Qed.

Lemma every_bind_ret {A B : Type} (a : A) (k : A -> M C B) :
  every P (k a) -> every P (bind (ret a) k).
Proof. intros Hk w. unfold bind, ret. rewrite prepend_nil. apply Hk. Qed.

Lemma every_try_except {A : Type} (m : M C A) (h : exc -> option (M C A)) :
  every P m ->
  (forall e, match h e with Some k => every P k | None => True end) ->
  every P (try_except m h).
Proof.
  intros Hm Hh w. unfold try_except. specialize (Hm w).
  destruct (m w) as [l w1 [a|e| |code]]; cbn [log] in *; try exact Hm.
  specialize (Hh e). destruct (h e) as [k|]; cbn [log]; [|exact Hm].
  rewrite log_prepend, forallb_app, Hm. apply Hh.
Qed.

Lemma every_try_except_interrupt {A : Type} (m k : M C A) :
  every P m -> every P k -> every P (try_except_interrupt m k).
Proof.
  intros Hm Hk w. unfold try_except_interrupt. specialize (Hm w).
  destruct (m w) as [l w1 [a|e| |code]]; cbn [log] in *; try exact Hm.
  rewrite log_prepend, forallb_app, Hm. apply Hk.
Qed.

Lemma every_call {A : Type} (ask : World C -> option A * World C)
  (ev : option A -> Event C) (e : exc) :
  (forall x, P (ev x) = true) -> every P (call ask ev e).
Proof.
  intros H w. unfold call. destruct (ask w) as [[a|] w']; cbn; rewrite H; reflexivity.
Qed.

Lemma every_query {A : Type} (ask : World C -> A) (ev : A -> Event C) :
  (forall x, P (ev x) = true) -> every P (query ask ev).
Proof. intros H w. cbn. rewrite H. reflexivity. Qed.

Lemma every_input (prompt : string) :
  (forall x, P (EInput prompt x) = true) -> every P (input prompt).
Proof.
  intros H w. unfold input. destruct (readline C w) as [[s| |] w']; cbn; rewrite H;
    reflexivity.
Qed.

Lemma every_read_file (path : string) :
  (forall x, P (ERead path x) = true) -> every P (read_file path).
Proof.
  intros H w. unfold read_file. destruct (read_text C path w); cbn; rewrite H;
    reflexivity.
Qed.

Lemma every_json_load_plugins (path : string) :
  (forall x, P (ELoadPlugins path x) = true) -> every P (json_load_plugins path).
Proof.
  intros H w. unfold json_load_plugins. destruct (load_plugins C path w); cbn;
    rewrite H; reflexivity.
Qed.

Lemma every_subscript (j : Json C) (key : string) : every P (subscript j key).
Proof. intros w. reflexivity. Qed.

Lemma every_for_each {A S : Type} (body : A -> S -> M C S) (l : list A) :
  (forall x s, every P (body x s)) -> forall s, every P (for_each l body s).
Proof.
  intros H. induction l as [|x rest IH]; intros s; cbn [for_each].
  - apply every_ret.
  - apply every_bind; [apply H | exact IH].
Qed.

End Every.

(** The rules applied along the structure of a script.  The flag of the
    dry run is a constant where this is used, so that the branches of a
    live run reduce away. *)
Ltac every_reduce :=
  cbv beta iota zeta delta
    [negb andb orb is_ValueError ReleasePlugins.args_version ReleasePlugins.args_token
     ReleasePlugins.args_config ReleasePlugins.args_plugin ReleasePlugins.args_dry_run
     ReleaseMain.args_version ReleaseMain.args_token ReleaseMain.args_dry_run].

Ltac unfold_head m :=
  let h := head_of m in unfold h.

Ltac every_step :=
  lazymatch goal with
  | |- every _ (bind (ret _) _) => apply every_bind_ret
  | |- every _ (bind _ _) => apply every_bind; [|intros ?]
  | |- every _ (ret _) => apply every_ret
  | |- every _ (raise _) => apply every_raise
  | |- every _ (sys_exit _) => apply every_sys_exit
  | |- every _ (print _) => apply every_print; reflexivity
  | |- every _ (call _ _ _) => apply every_call; intros ?; reflexivity
  | |- every _ (query _ _) => apply every_query; intros ?; reflexivity
  | |- every _ (input _) => apply every_input; intros ?; reflexivity
  | |- every _ (read_file _) => apply every_read_file; intros ?; reflexivity
  | |- every _ (json_load_plugins _) =>
      apply every_json_load_plugins; intros ?; reflexivity
  | |- every _ (subscript _ _) => apply every_subscript
  | |- every _ (try_except_interrupt _ _) => apply every_try_except_interrupt
  | |- every _ (try_except _ _) =>
      apply every_try_except;
      [| let e := fresh "e" in intros e; destruct e; every_reduce; try exact I]
  | |- every _ (for_each _ _ _) => apply every_for_each; intros ? ?
  | |- every _ (if ?c then _ else _) => split_on c
  | |- every _ (match ?x with _ => _ end) => destruct x
  | |- every _ ?m => unfold_head m
  end; every_reduce.

Ltac every_run := every_reduce; repeat every_step.



(** ** The main script: the plan of its last part *)

(** The last part of [main], live: what it performs is an initial segment
    of its plan, all of it when it comes to its end; without an API object
    it comes to its end when both commands return 0. *)
Lemma main_create_live_plan (C : Collab) (version own rp : string)
  (a : option GitHubAPI) (w : World C) :
  let r := ReleaseMain.main_create version own rp a false w in
  is_prefix (performed (log r)) (create_plan (has_api a)) = true
  /\ implb (finished (outcome r))
           (same_actions (performed (log r)) (create_plan (has_api a))) = true
  /\ implb (negb (has_api a) && commands_ok (log r)) (finished (outcome r)) = true.
Proof.
  destruct a as [[tok own' rp' burl hdrs]|]; exec_run.
  all: unfold create_plan, finished; leaf.
Qed.





(** ** The main script without a token *)

(** [every not_request] is [no_request] of every log. *)
Lemma every_not_request (C : Collab) (A : Type) (m : M C A) (w : World C) :
  every not_request m -> no_request (log (m w)) = true.
Proof. intros H. exact (H w). Qed.

(** Without a token [release_main.py] makes no request. *)
Lemma main_without_token_no_request (C : Collab) (version own rp : string)
  (token : option string) (dry_run : bool) :
  Py.truthy_opt token = false ->
  every not_request (ReleaseMain.main_with_token (C := C) version own rp token dry_run).
Proof.
  intros T. unfold ReleaseMain.main_with_token.
  destruct token as [tok|]; cbn [Py.truthy_opt] in *; rewrite ?T;
    destruct dry_run; every_run.
Qed.

(** Without a token a live run of [release_main.py] performs something
    only after the answer y to its question. *)
Lemma main_without_token_asks (C : Collab) (version own rp : string)
  (token : option string) (w : World C) :
  Py.truthy_opt token = false ->
  let r := ReleaseMain.main_with_token version own rp token false w in
  (existsb agrees_without_release (log r) || nothing_performed (log r))%bool = true.
Proof.
  intros T r. subst r. unfold ReleaseMain.main_with_token.
  destruct token as [tok|]; cbn [Py.truthy_opt] in *; rewrite ?T;
    run_reduce;
    (destruct (readline C w) as [[s| |] w']; [destruct (ReleaseMain.says_yes s) eqn:Y| |]);
    run_reduce;
    try destruct (ReleaseMain.main_in_repo _ _ _ _ _ _) as [l w'' o];
    unfold nothing_performed, performed; cbn; rewrite ?Y; reflexivity.
Qed.

(** ** The version *)

(** [version.startswith('v')], by cases on the first character. *)
Lemma startswith_v (v : string) :
  Py.startswith v "v" = match v with String "v" _ => true | _ => false end.
Proof.
  unfold Py.startswith. destruct v as [|c rest]; [reflexivity|].
  cbn [String.prefix]. destruct (ascii_dec "v" c) as [<-|N].
  - destruct rest; reflexivity.
  - destruct c as [[|] [|] [|] [|] [|] [|] [|] [|]]; try reflexivity.
    exfalso. apply N. reflexivity.
Qed.

(** The normalization puts a ['v'] in front of the version without its
    ['v']. *)
Lemma normalize_version_spec (v : string) :
  ReleasePlugins.normalize_version v = "v" +++ strip_v v.
Proof.
  unfold ReleasePlugins.normalize_version, strip_v. rewrite startswith_v.
  destruct v as [|c rest]; [reflexivity|].
  destruct c as [[|] [|] [|] [|] [|] [|] [|] [|]]; reflexivity.
Qed.

Lemma main_normalize_version_spec (v : string) :
  ReleaseMain.normalize_version v = "v" +++ strip_v v.
Proof. exact (normalize_version_spec v). Qed.

(** Two equations of [bind]. *)
Lemma bind_ret (C : Collab) (A B : Type) (a : A) (k : A -> M C B) (w : World C) :
  bind (ret a) k w = k a w.
Proof. unfold bind, ret. apply prepend_nil. Qed.

Lemma bind_print (C : Collab) (B : Type) (line : string) (k : unit -> M C B)
  (w : World C) :
  bind (print line) k w = prepend [EPrint line] (k tt w).
Proof. reflexivity. Qed.

(** ** The claims *)

(** C6 -- When a release exists (and whatever the state of the two tags,
    which [process_plugin] does not look at, so in particular when both
    exist), the plan is exactly the six steps DeleteRelease,
    DeleteRemoteTag, DeleteLocalTag, CreateLocalTag, PushTag,
    CreateRelease, in that order: it is the plan of the specification for
    the state with all three resources present, it is what a dry run
    announces, and what a live run performs, step by step, as far as it
    gets. *)
Theorem C6_all_present_full_plan (C : Collab) (name rp version dir : string)
  (api : GitHubAPI) (w : World C) (id : Json C) :
  path_exists C dir w = true ->
  path_exists C (joinpath C dir ".git") w = true ->
  observe_release C api version w = Release id ->
  let six := [DeleteRelease; DeleteRemoteTag; DeleteLocalTag;
              CreateLocalTag; PushTag; CreateRelease] in
  let dry := ReleasePlugins.process_plugin name rp version dir (Some api) true w in
  let live := ReleasePlugins.process_plugin name rp version dir (Some api) false w in
  spec_plan (mkObserved true true true) = six
  /\ announced (log dry) = six
  /\ Prefix (performed (log live)) six
  /\ (outcome live = Return true -> performed (log live) = six).
Proof.
  intros H1 H2 H3 six dry live.
  pose proof (target_plan_checkout C dir (Some api) version w H1 H2) as P.
  cbv beta iota in P. rewrite H3 in P. simpl in P. fold six in P.
  destruct (process_plugin_dry C name rp version dir (Some api) w) as (_ & D & _).
  destruct (live_follows_plan C name rp version dir (Some api) w) as (L1 & L2).
  fold dry in D. fold live in L1, L2. rewrite P in D, L1, L2.
  repeat split; assumption.
Qed.

(** C5 (as amended) -- When the lookup finds no release, the plan of
    [process_plugin] is DeleteRemoteTag, DeleteLocalTag, CreateLocalTag,
    PushTag, CreateRelease, whether the two tags exist or not: the plugin
    script does not probe the tags, it always schedules their deletion.
    [release_main.py] does probe them: when none of its probes finds
    anything it performs no deletion, and what it then performs is an
    initial segment of CreateLocalTag, PushTag, CreateRelease (the release
    only with a token), all of it when the run comes to its end. *)
Theorem C5_no_release_plan_keeps_tag_deletes :
  (forall (C : Collab) (name rp version dir : string) (api : GitHubAPI) (w : World C),
      path_exists C dir w = true ->
      path_exists C (joinpath C dir ".git") w = true ->
      observe_release C api version w = NoRelease ->
      let five := [DeleteRemoteTag; DeleteLocalTag; CreateLocalTag; PushTag;
                   CreateRelease] in
      let dry := ReleasePlugins.process_plugin name rp version dir (Some api) true w in
      let live := ReleasePlugins.process_plugin name rp version dir (Some api) false w in
      announced (log dry) = five
      /\ Prefix (performed (log live)) five
      /\ (outcome live = Return true -> performed (log live) = five))
  /\ (forall (C : Collab) (version own rp : string) (a : option GitHubAPI)
             (w w' : World C),
        let cleanup := ReleaseMain.main_cleanup version a false w in
        let create := ReleaseMain.main_create version own rp a false w' in
        (nothing_found (log cleanup) = true -> performed (log cleanup) = [])
        /\ Prefix (performed (log create)) (create_plan (has_api a))
        /\ (outcome create = Return tt ->
            performed (log create) = create_plan (has_api a)))
  /\ create_plan true = [CreateLocalTag; PushTag; CreateRelease].
Proof.
  split; [|split].
  - intros C name rp version dir api w H1 H2 H3 five dry live.
    pose proof (target_plan_checkout C dir (Some api) version w H1 H2) as P.
    cbv beta iota in P. rewrite H3 in P. simpl in P. fold five in P.
    destruct (process_plugin_dry C name rp version dir (Some api) w) as (_ & D & _).
    destruct (live_follows_plan C name rp version dir (Some api) w) as (L1 & L2).
    fold dry in D. fold live in L1, L2. rewrite P in D, L1, L2.
    repeat split; assumption.
  - intros C version own rp a w w' cleanup create.
    destruct (main_cleanup_live C version a w) as (_ & _ & F).
    destruct (main_create_live_plan C version own rp a w') as (P & S & _).
    fold cleanup in F. fold create in P, S.
    split; [|split].
    + intros N. rewrite N in F. cbn [implb] in F. unfold nothing_performed in F.
      destruct (performed (log cleanup)); [reflexivity|discriminate F].
    + apply is_prefix_Prefix. exact P.
    + intros Ho. rewrite Ho in S. apply same_actions_eq. exact S.
  - reflexivity.
Qed.

Lemma Prefix_In (l1 l2 : list Action) (x : Action) :
  Prefix l1 l2 -> In x l1 -> In x l2.
Proof. intros [rest ->] H. apply in_or_app. left. exact H. Qed.

(** C4 (as amended) -- In a live run of [process_plugin], a deletion of the
    remote or of the local tag that fails (the command returns a non-zero
    code, as it does when the tag is absent) does not end the plan: the
    next step is performed.  A release the lookup does not find is not
    scheduled for deletion.  The request that deletes a release is
    different: when it fails, no call follows and the target has not
    succeeded; in [release_main.py], no call follows and the process ends
    with status 1. *)
Theorem C4_cleanup_failures :
  (forall (C : Collab) (name rp version dir : string) (a : option GitHubAPI)
          (w : World C) (pre post : list (Event C)) (e : Event C),
      let r := ReleasePlugins.process_plugin name rp version dir a false w in
      log r = pre ++ e :: post ->
      (tag_delete_failure e = true ->
       exists x y rest,
         performs e = Some x /\ performed post = y :: rest /\ follows x y = true)
      /\ (release_delete_failure e = true ->
          no_calls post = true /\ succeeded (outcome r) = false)
      /\ (forall api, a = Some api -> observe_release C api version w = NoRelease ->
          ~ In DeleteRelease (performed (log r))))
  /\ (forall (C : Collab) (version : string) (a : option GitHubAPI) (w : World C)
             (pre post : list (Event C)) (e : Event C),
        let r := ReleaseMain.main_cleanup version a false w in
        log r = pre ++ e :: post ->
        release_delete_failure e = true ->
        no_calls post = true /\ exit_status (outcome r) = 1).
Proof.
  split.
  - intros C name rp version dir a w pre post e r Hlog.
    destruct (process_plugin_live C name rp version dir a w)
      as (P1 & _ & H3 & H4 & _ & _ & H5 & _).
    fold r in P1, H3, H4, H5.
    split; [|split].
    + intros He. exact (goes_on_split _ _ _ _ H5 Hlog He).
    + intros He.
      assert (Hf : fatal_failure e = true).
      { unfold fatal_failure. rewrite He. apply orb_true_r. }
      split.
      * exact (halts_at_split _ _ _ _ _ H3 Hlog Hf).
      * rewrite (existsb_split _ _ _ _ _ Hlog Hf) in H4. simpl in H4.
        destruct (succeeded (outcome r)); [discriminate|reflexivity].
    + intros api -> Hobs Hin.
      apply is_prefix_Prefix in P1.
      pose proof (Prefix_In _ _ _ P1 Hin) as Hp.
      unfold target_plan in Hp. rewrite Hobs in Hp.
      destruct (path_exists C dir w && path_exists C (joinpath C dir ".git") w)%bool;
        simpl in Hp; intuition discriminate.
  - intros C version a w pre post e r Hlog He.
    destruct (main_cleanup_live C version a w) as (H & X & _).
    fold r in H, X.
    split.
    + exact (halts_at_split _ _ _ _ _ H Hlog He).
    + rewrite (existsb_split _ _ _ _ _ Hlog He) in X. simpl in X.
      apply Z.eqb_eq. exact X.
Qed.

(** C6, on the simulated world in which v1.0.0 of lynx-redis is out. *)
Lemma C6_witness :
  (path_exists Sim.collab Scenario.redis_dir Scenario.released = true
   /\ path_exists Sim.collab (joinpath Sim.collab Scenario.redis_dir ".git")
        Scenario.released = true
   /\ observe_release Sim.collab Scenario.redis_api "v1.0.0" Scenario.released
      = Release (Sim.SNum 7))
  /\ announced
       (log (ReleasePlugins.process_plugin (C := Sim.collab) "lynx-redis"
               "go-lynx/lynx-redis" "v1.0.0" Scenario.redis_dir
               (Some Scenario.redis_api) true Scenario.released))
     = [DeleteRelease; DeleteRemoteTag; DeleteLocalTag;
        CreateLocalTag; PushTag; CreateRelease].
Proof.
  split.
  - repeat split; reflexivity.
  - exact (proj1 (proj2
      (C6_all_present_full_plan Sim.collab "lynx-redis" "go-lynx/lynx-redis" "v1.0.0"
         Scenario.redis_dir Scenario.redis_api Scenario.released (Sim.SNum 7)
         eq_refl eq_refl eq_refl))).
Defined.

(** C5 as stated fails: with no tag and no release at all, the plan of the
    plugin script still begins with the two tag deletions. *)
Lemma C5_counterexample :
  Sim.has_tag (Some Scenario.redis_dir, "v1.0.0") (Sim.local_tags Scenario.fresh) = false
  /\ Sim.has_tag (Some Scenario.redis_dir, "v1.0.0") (Sim.remote_tags Scenario.fresh) = false
  /\ observe_release Sim.collab Scenario.redis_api "v1.0.0" Scenario.fresh = NoRelease
  /\ spec_plan (mkObserved false false false) = [CreateLocalTag; PushTag; CreateRelease]
  /\ announced
       (log (ReleasePlugins.process_plugin (C := Sim.collab) "lynx-redis"
               "go-lynx/lynx-redis" "v1.0.0" Scenario.redis_dir
               (Some Scenario.redis_api) true Scenario.fresh))
     = [DeleteRemoteTag; DeleteLocalTag; CreateLocalTag; PushTag; CreateRelease]
  /\ performed
       (log (ReleasePlugins.process_plugin (C := Sim.collab) "lynx-redis"
               "go-lynx/lynx-redis" "v1.0.0" Scenario.redis_dir
               (Some Scenario.redis_api) false Scenario.fresh))
     = [DeleteRemoteTag; DeleteLocalTag; CreateLocalTag; PushTag; CreateRelease]
  /\ announced
       (log (ReleasePlugins.process_plugin (C := Sim.collab) "lynx-redis"
               "go-lynx/lynx-redis" "v1.0.0" Scenario.redis_dir
               (Some Scenario.redis_api) true Scenario.fresh))
     <> spec_plan (mkObserved false false false).
Proof.
  repeat split; try (vm_compute; reflexivity).
  vm_compute. discriminate.
Qed.

(** C5 as amended, on the same world. *)
Lemma C5_witness :
  (path_exists Sim.collab Scenario.redis_dir Scenario.fresh = true
   /\ path_exists Sim.collab (joinpath Sim.collab Scenario.redis_dir ".git")
        Scenario.fresh = true
   /\ observe_release Sim.collab Scenario.redis_api "v1.0.0" Scenario.fresh = NoRelease)
  /\ announced
       (log (ReleasePlugins.process_plugin (C := Sim.collab) "lynx-redis"
               "go-lynx/lynx-redis" "v1.0.0" Scenario.redis_dir
               (Some Scenario.redis_api) true Scenario.fresh))
     = [DeleteRemoteTag; DeleteLocalTag; CreateLocalTag; PushTag; CreateRelease].
Proof.
  split.
  - repeat split; reflexivity.
  - exact (proj1
      (proj1 C5_no_release_plan_keeps_tag_deletes Sim.collab "lynx-redis" "go-lynx/lynx-redis"
         "v1.0.0" Scenario.redis_dir Scenario.redis_api Scenario.fresh
         eq_refl eq_refl eq_refl)).
Defined.

(** C4 as stated fails: the release is there, the request that deletes it
    is refused, and with it the run ends; no tag step is performed. *)
Lemma C4_counterexample :
  observe_release Sim.collab Scenario.redis_api "v1.0.0" Scenario.delete_forbidden
  = Release (Sim.SNum 7)
  /\ existsb release_delete_failure
       (log (ReleasePlugins.process_plugin (C := Sim.collab) "lynx-redis"
               "go-lynx/lynx-redis" "v1.0.0" Scenario.redis_dir
               (Some Scenario.redis_api) false Scenario.delete_forbidden)) = true
  /\ performed
       (log (ReleasePlugins.process_plugin (C := Sim.collab) "lynx-redis"
               "go-lynx/lynx-redis" "v1.0.0" Scenario.redis_dir
               (Some Scenario.redis_api) false Scenario.delete_forbidden))
     = [DeleteRelease]
  /\ outcome
       (ReleasePlugins.process_plugin (C := Sim.collab) "lynx-redis"
          "go-lynx/lynx-redis" "v1.0.0" Scenario.redis_dir
          (Some Scenario.redis_api) false Scenario.delete_forbidden)
     = Return false.
Proof. repeat split; vm_compute; reflexivity. Qed.

(** C4 as amended, on the world without tags: the deletion of the remote
    tag fails (event 10 of the log), and the deletion of the local tag is
    performed next. *)
Lemma C4_witness :
  (log (Scenario.plugin_run false Scenario.fresh)
   = firstn 10 (log (Scenario.plugin_run false Scenario.fresh))
     ++ nth 10 (log (Scenario.plugin_run false Scenario.fresh)) (EPrint EmptyString)
     :: skipn 11 (log (Scenario.plugin_run false Scenario.fresh))
   /\ tag_delete_failure
        (nth 10 (log (Scenario.plugin_run false Scenario.fresh)) (EPrint EmptyString))
      = true)
  /\ exists x y rest,
       performs (nth 10 (log (Scenario.plugin_run false Scenario.fresh))
                   (EPrint EmptyString)) = Some x
       /\ performed (skipn 11 (log (Scenario.plugin_run false Scenario.fresh)))
          = y :: rest
       /\ follows x y = true.
Proof.
  split.
  - split; vm_compute; reflexivity.
  - refine (proj1 (proj1 C4_cleanup_failures Sim.collab "lynx-redis" "go-lynx/lynx-redis"
                     "v1.0.0" Scenario.redis_dir (Some Scenario.redis_api)
                     Scenario.fresh
                     (firstn 10 (log (Scenario.plugin_run false Scenario.fresh)))
                     (skipn 11 (log (Scenario.plugin_run false Scenario.fresh)))
                     (nth 10 (log (Scenario.plugin_run false Scenario.fresh))
                        (EPrint EmptyString)) _) _);
      vm_compute; reflexivity.
Defined.



(** C7 -- In a live run, when the call of a required step fails (the
    command that creates the tag or pushes it returns a non-zero code or
    cannot be started, the request that creates the release is not
    answered with 201), no collaborator call follows for that target, and
    the target has not succeeded.  In [release_plugins.py]:
    [process_plugin] does not return [True], the iteration of the loop
    counts the target as failed, and nothing is called in the rest of the
    iteration.  In [release_main.py]: nothing is called after the failure
    and the process ends with status 1. *)
Theorem C7_required_failure_halts :
  (forall (C : Collab) (root version : string) (token : option string)
          (p : PluginConfig) (a : option GitHubAPI) (w : World C)
          (pre post : list (Event C)) (e : Event C),
      let r := ReleasePlugins.process_plugin (p_name p) (p_repo p) version
                 (plugin_dir_of C root p) a false w in
      path_exists C (plugin_dir_of C root p) w = true ->
      github_api_for token (p_repo p) = Some a ->
      log r = pre ++ e :: post ->
      required_failure e = true ->
      no_calls post = true
      /\ succeeded (outcome r) = false
      /\ target_ok root version token false p w = false
      /\ exists post',
           log (ReleasePlugins.main_loop_body root version token false p (O, []) w)
           = EExists (plugin_dir_of C root p) true :: pre ++ e :: post ++ post'
           /\ no_calls (post ++ post') = true)
  /\ (forall (C : Collab) (version own rp : string) (a : option GitHubAPI) (w : World C)
             (pre post : list (Event C)) (e : Event C),
        let r := ReleaseMain.main_create version own rp a false w in
        log r = pre ++ e :: post ->
        required_failure e = true ->
        no_calls post = true /\ exit_status (outcome r) = 1).
Proof.
  split.
  - intros C root version token p a w pre post e r E G L B.
    destruct (process_plugin_live C (p_name p) (p_repo p) version (plugin_dir_of C root p)
                a w) as (_ & _ & _ & _ & H & X & _).
    fold r in H, X.
    pose proof (halts_at_split required_failure _ pre post e H L B) as N.
    rewrite (existsb_split required_failure _ pre post e L B) in X.
    simpl in X. apply negb_true_iff in X.
    destruct (main_loop_body_target C root version token false p a w E G)
      as (post' & Lb & Np & T & _).
    fold r in Lb, T.
    repeat split; try assumption.
    + rewrite T. exact X.
    + exists post'. split.
      * rewrite Lb, L, <- app_assoc. reflexivity.
      * rewrite no_calls_app, N, Np. reflexivity.
  - intros C version own rp a w pre post e r L B.
    destruct (main_create_live C version own rp a w) as (_ & H & X & _).
    fold r in H, X.
    pose proof (halts_at_split required_failure _ pre post e H L B) as N.
    rewrite (existsb_split required_failure _ pre post e L B) in X.
    simpl in X. apply Z.eqb_eq in X.
    split; assumption.
Qed.

(** C7 on the world in which [git tag v1.0.0] fails: it is event 16 of the
    log of [process_plugin]. *)
Lemma C7_witness :
  (path_exists Sim.collab (plugin_dir_of Sim.collab "/work/lynx" Scenario.redis)
     Scenario.tag_fails = true
   /\ github_api_for (Some "ghp_x") (p_repo Scenario.redis)
      = Some (Some Scenario.redis_api)
   /\ log (Scenario.plugin_run false Scenario.tag_fails)
      = firstn 16 (log (Scenario.plugin_run false Scenario.tag_fails))
        ++ nth 16 (log (Scenario.plugin_run false Scenario.tag_fails)) (EPrint EmptyString)
        :: skipn 17 (log (Scenario.plugin_run false Scenario.tag_fails))
   /\ required_failure
        (nth 16 (log (Scenario.plugin_run false Scenario.tag_fails)) (EPrint EmptyString))
      = true)
  /\ no_calls (skipn 17 (log (Scenario.plugin_run false Scenario.tag_fails))) = true
  /\ succeeded (outcome (Scenario.plugin_run false Scenario.tag_fails)) = false
  /\ target_ok (C := Sim.collab) "/work/lynx" "v1.0.0" (Some "ghp_x") false
       Scenario.redis Scenario.tag_fails = false.
Proof.
  split.
  - repeat split; vm_compute; reflexivity.
  - assert (H := proj1 C7_required_failure_halts Sim.collab "/work/lynx" "v1.0.0"
                   (Some "ghp_x") Scenario.redis (Some Scenario.redis_api)
                   Scenario.tag_fails
                   (firstn 16 (log (Scenario.plugin_run false Scenario.tag_fails)))
                   (skipn 17 (log (Scenario.plugin_run false Scenario.tag_fails)))
                   (nth 16 (log (Scenario.plugin_run false Scenario.tag_fails))
                      (EPrint EmptyString))).
    cbv zeta in H.
    assert (H1 : path_exists Sim.collab (plugin_dir_of Sim.collab "/work/lynx" Scenario.redis)
                   Scenario.tag_fails = true) by (vm_compute; reflexivity).
    assert (H2 : github_api_for (Some "ghp_x") (p_repo Scenario.redis)
                 = Some (Some Scenario.redis_api)) by (vm_compute; reflexivity).
    specialize (H H1 H2).
    destruct H as (N & S & T & _); [vm_compute; reflexivity ..|].
    repeat split; assumption.
Defined.






(** C10 as stated fails for [release_main.py]: without a token a live run
    asks whether to go on, and on the answer "n" it ends with status 0;
    no tag step is performed. *)
Lemma C10_counterexample :
  getenv Sim.collab "GITHUB_TOKEN" (Scenario.no_token [Line "n"]) = None
  /\ outcome (ReleaseMain.main (C := Sim.collab) (Scenario.main_args "v1.0.0" false)
                (Scenario.no_token [Line "n"]))
     = SystemExit 0
  /\ performed (log (ReleaseMain.main (C := Sim.collab) (Scenario.main_args "v1.0.0" false)
                       (Scenario.no_token [Line "n"])))
     = []
  /\ Sim.local_tags (world (ReleaseMain.main (C := Sim.collab)
                              (Scenario.main_args "v1.0.0" false)
                              (Scenario.no_token [Line "n"])))
     = [].
Proof. repeat split; vm_compute; reflexivity. Qed.

(** C10 (as amended) -- Without a token.  In [release_plugins.py] the loop
    builds no API object, and [process_plugin] then makes no request at
    all (no lookup, no deletion, no creation of a release), performs only
    tag steps, in the order delete remote tag, delete local tag, create
    local tag, push tag, and returns [True] when the directory is a
    checkout and every command returns 0.  In [release_main.py] no request
    is made either, but a live run performs something only after the user
    has answered "y" to the question whether to continue without a
    release; its last part then creates and pushes the tag and, when both
    commands return 0, ends normally. *)
Theorem C10_without_token (C : Collab) :
  (forall rp : string,
      github_api_for None rp = Some None /\ github_api_for (Some EmptyString) rp = Some None)
  /\ (forall (name rp version dir : string) (w : World C),
        let r := ReleasePlugins.process_plugin name rp version dir None false w in
        no_request (log r) = true
        /\ Prefix (performed (log r))
                  [DeleteRemoteTag; DeleteLocalTag; CreateLocalTag; PushTag]
        /\ (path_exists C dir w = true ->
            path_exists C (joinpath C dir ".git") w = true ->
            commands_ok (log r) = true ->
            outcome r = Return true
            /\ performed (log r)
               = [DeleteRemoteTag; DeleteLocalTag; CreateLocalTag; PushTag]))
  /\ (forall (version own rp : string) (token : option string) (w : World C),
        Py.truthy_opt token = false ->
        let r := ReleaseMain.main_with_token version own rp token false w in
        no_request (log r) = true
        /\ (nothing_performed (log r) = false ->
            existsb agrees_without_release (log r) = true))
  /\ (forall (version own rp : string) (w : World C),
        let r := ReleaseMain.main_create version own rp None false w in
        no_request (log r) = true
        /\ Prefix (performed (log r)) [CreateLocalTag; PushTag]
        /\ (commands_ok (log r) = true ->
            outcome r = Return tt /\ performed (log r) = [CreateLocalTag; PushTag])).
Proof.
  split; [|split; [|split]].
  - intros rp. split; reflexivity.
  - intros name rp version dir w r.
    destruct (process_plugin_live C name rp version dir None w)
      as (P & S & _ & _ & _ & _ & _ & N & K & _).
    fold r in P, S, N, K. cbn [has_api negb implb andb] in N, K.
    split; [exact N|]. split.
    + apply is_prefix_Prefix in P. unfold target_plan in P.
      destruct (path_exists C dir w && path_exists C (joinpath C dir ".git") w)%bool.
      * exact P.
      * destruct P as [rest P]. symmetry in P. apply app_eq_nil in P.
        destruct P as [-> _]. eexists. reflexivity.
    + intros H1 H2 Hc. rewrite H1, H2, Hc in K. cbn [andb implb] in K.
      destruct (outcome r) as [[|]| | |] eqn:Ho; try discriminate K.
      split; [reflexivity|].
      cbn [succeeded implb] in S. apply same_actions_eq in S. rewrite S.
      unfold target_plan. rewrite H1, H2. reflexivity.
  - intros version own rp token w T r. split.
    + apply every_not_request, main_without_token_no_request. exact T.
    + intros Hn.
      pose proof (main_without_token_asks C version own rp token w T) as A.
      cbv zeta in A. fold r in A. rewrite Hn, orb_false_r in A. exact A.
  - intros version own rp w r.
    destruct (main_create_live_plan C version own rp None w) as (P & S & K).
    destruct (main_create_live C version own rp None w) as (_ & _ & _ & N).
    fold r in P, S, K, N. cbn [has_api negb implb andb create_plan] in P, S, K, N.
    split; [exact N|]. split; [apply is_prefix_Prefix; exact P|].
    intros Hc. rewrite Hc in K. cbn [andb implb] in K.
    destruct (outcome r) as [[]| | |] eqn:Ho; try discriminate K.
    split; [reflexivity|].
    cbn [finished implb] in S. apply same_actions_eq in S. exact S.
Qed.

(** C10 as amended, on the world without a token where the user answers
    "y": something is performed, so the question was answered "y". *)
Lemma C10_witness :
  (Py.truthy_opt None = false
   /\ nothing_performed
        (log (ReleaseMain.main_with_token (C := Sim.collab) "v1.0.0" "go-lynx" "lynx"
                None false (Scenario.no_token [Line "y"]))) = false)
  /\ existsb agrees_without_release
       (log (ReleaseMain.main_with_token (C := Sim.collab) "v1.0.0" "go-lynx" "lynx"
               None false (Scenario.no_token [Line "y"]))) = true.
Proof.
  assert (H : nothing_performed
                (log (ReleaseMain.main_with_token (C := Sim.collab) "v1.0.0" "go-lynx"
                        "lynx" None false (Scenario.no_token [Line "y"]))) = false)
    by (vm_compute; reflexivity).
  split; [split; [reflexivity | exact H]|].
  destruct (C10_without_token Sim.collab) as (_ & _ & P & _).
  exact (proj2 (P "v1.0.0" "go-lynx" "lynx" None (Scenario.no_token [Line "y"]) eq_refl) H).
Defined.

(** C3 as stated fails: the version "1.2.x", whose body has a character
    that is neither a digit nor a dot, is not rejected; both scripts run to
    their end with it, create and push the tag "v1.2.x" and publish a
    release for it. *)
Lemma C3_counterexample :
  has_invalid_char (strip_v "1.2.x") = true
  /\ outcome (ReleasePlugins.main (C := Sim.collab) (Scenario.plugins_args "1.2.x" false)
                Scenario.fresh)
     = Return (1%nat, [])
  /\ Sim.remote_tags (world (ReleasePlugins.main (C := Sim.collab)
                               (Scenario.plugins_args "1.2.x" false) Scenario.fresh))
     = [(Some Scenario.redis_dir, "v1.2.x")]
  /\ outcome (ReleaseMain.main (C := Sim.collab) (Scenario.main_args "1.2.x" false)
                Scenario.fresh)
     = Return tt
  /\ performed (log (ReleaseMain.main (C := Sim.collab) (Scenario.main_args "1.2.x" false)
                       Scenario.fresh))
     = [CreateLocalTag; PushTag; CreateRelease]
  /\ Sim.remote_tags (world (ReleaseMain.main (C := Sim.collab)
                               (Scenario.main_args "1.2.x" false) Scenario.fresh))
     = [(None, "v1.2.x")].
Proof. repeat split; vm_compute; reflexivity. Qed.

(** C3 (as amended) -- No version is rejected.  What stands for the
    normalization in both scripts never fails: it puts a ['v'] in front of
    a version that does not start with one and leaves the others as they
    are, whatever characters follow.  The run for a version [v] is the run
    for the normalized version, after the warning for a missing ['v']:
    nothing else depends on the form of the version. *)
Theorem C3_version_is_prefixed_never_rejected (v : string) :
  ReleasePlugins.normalize_version v = "v" +++ strip_v v
  /\ ReleaseMain.normalize_version v = "v" +++ strip_v v
  /\ (forall (C : Collab) (t : option string) (cfg : string) (plg : option string)
             (dry_run : bool) (w : World C),
        ReleasePlugins.main (ReleasePlugins.mkArgs v t cfg plg dry_run) w
        = prepend (version_notice v)
            (ReleasePlugins.main
               (ReleasePlugins.mkArgs ("v" +++ strip_v v) t cfg plg dry_run) w))
  /\ (forall (C : Collab) (t : option string) (dry_run : bool) (w : World C),
        ReleaseMain.main (ReleaseMain.mkArgs v t dry_run) w
        = prepend (version_notice v)
            (ReleaseMain.main (ReleaseMain.mkArgs ("v" +++ strip_v v) t dry_run) w)).
Proof.
  assert (S : forall u, Py.startswith ("v" +++ u) "v" = true).
  { intros u. rewrite startswith_v. reflexivity. }
  assert (N : forall u, ReleasePlugins.normalize_version ("v" +++ u) = "v" +++ u).
  { intros u. unfold ReleasePlugins.normalize_version. rewrite S. reflexivity. }
  split; [apply normalize_version_spec|].
  assert (N' : forall u, ReleaseMain.normalize_version ("v" +++ u) = "v" +++ u).
  { intros u. unfold ReleaseMain.normalize_version. rewrite S. reflexivity. }
  split; [apply main_normalize_version_spec|].
  split.
  - intros C t cfg plg dry_run w. unfold ReleasePlugins.main, version_notice.
    cbn [ReleasePlugins.args_version ReleasePlugins.args_token ReleasePlugins.args_config
         ReleasePlugins.args_plugin ReleasePlugins.args_dry_run].
    rewrite N, S, (normalize_version_spec v). cbn [negb].
    rewrite (bind_ret C).
    destruct (Py.startswith v "v"); cbn [negb].
    + rewrite (bind_ret C), prepend_nil. reflexivity.
    + unfold print_warning. rewrite bind_print. reflexivity.
  - intros C t dry_run w. unfold ReleaseMain.main, version_notice.
    cbn [ReleaseMain.args_version ReleaseMain.args_token ReleaseMain.args_dry_run].
    rewrite N', S, (main_normalize_version_spec v). cbn [negb].
    rewrite (bind_ret C).
    destruct (Py.startswith v "v"); cbn [negb].
    + rewrite (bind_ret C), prepend_nil. reflexivity.
    + unfold print_warning. rewrite bind_print. reflexivity.
Qed.

(** C2 -- (the code departs from the claim) With two targets of which the
    first has no checkout, [main] of [release_plugins.py] reports one
    success and the failed plugin lynx-redis, and returns: the process
    ends with status 0. *)
Theorem C2_exit_status_with_failed_target :
  outcome (ReleasePlugins.main (C := Sim.collab) (Scenario.plugins_args "v1.0.0" false)
             Scenario.missing_checkout)
  = Return (1%nat, ["lynx-redis"])
  /\ exit_status (outcome (ReleasePlugins.main (C := Sim.collab)
                             (Scenario.plugins_args "v1.0.0" false)
                             Scenario.missing_checkout))
     = 0.
Proof. split; vm_compute; reflexivity. Qed.

(* ================================================================== *)
(** * Further properties *)
(* ================================================================== *)

(** ** run_cmd and the answers to the questions *)

Lemma strip_or_empty_strip (s : string) : strip_or_empty (Some s) = Py.strip s.
Proof. destruct s; reflexivity. Qed.

(** [check=True] makes [subprocess.run] raise [CalledProcessError], which
    [run_cmd] turns into the same triple. *)
Lemma run_cmd_unchecked (C : Collab) (cmd : list string) (check capture_output : bool)
  (cwd : option string) (w : World C) :
  run_cmd cmd check capture_output cwd w = run_cmd cmd false capture_output cwd w.
Proof.
  destruct check; [|reflexivity].
  unfold run_cmd, subprocess_run, subprocess_spawn, call, try_except, bind, ret, raise,
    prepend.
  destruct (spawn C cmd capture_output cwd w) as [[[code so se]|] w'];
    cbn [returncode stdout stderr andb negb fst]; [|reflexivity].
  destruct (code =? 0); cbn [negb app]; [reflexivity|].
  destruct capture_output; cbn [app]; rewrite ?strip_or_empty_strip; reflexivity.
Qed.

Lemma lower_ascii_y (c : ascii) :
  Py.lower_ascii c = "y"%char -> c = "y"%char \/ c = "Y"%char.
Proof.
  destruct c as [[|] [|] [|] [|] [|] [|] [|] [|]]; vm_compute; intros H;
    first [left; reflexivity | right; reflexivity | discriminate H].
Qed.

Lemma says_yes_cases (s : string) :
  ReleaseMain.says_yes s = true -> s = "y" \/ s = "Y".
Proof.
  unfold ReleaseMain.says_yes. intros H. apply String.eqb_eq in H.
  destruct s as [|c [|d t]]; cbn in H; try discriminate H.
  injection H as H. apply lower_ascii_y in H. destruct H as [-> | ->]; auto.
Qed.

(** ** More rules for [every] *)

Lemma bind_assoc (C : Collab) (A B D : Type) (m : M C A) (f : A -> M C B)
  (k : B -> M C D) (w : World C) :
  bind (bind m f) k w = bind m (fun x => bind (f x) k) w.
Proof.
  unfold bind. destruct (m w) as [l w1 [a| | |]]; cbn [prepend]; try reflexivity.
  destruct (f a w1) as [l' w2 [b| | |]]; cbn [prepend]; try reflexivity.
  destruct (k b w2) as [l'' w3 o]. cbn [prepend]. rewrite app_assoc. reflexivity.
Qed.

Lemma every_bind_assoc (C : Collab) (P : Event C -> bool) (A B D : Type) (m : M C A)
  (f : A -> M C B) (k : B -> M C D) :
  every P (bind m (fun x => bind (f x) k)) -> every P (bind (bind m f) k).
Proof. intros H w. rewrite bind_assoc. apply H. Qed.

Lemma every_bind_try_ret (C : Collab) (P : Event C -> bool) (A B : Type) (a : A)
  (h : exc -> option (M C A)) (k : A -> M C B) :
  every P (k a) -> every P (bind (try_except (ret a) h) k).
Proof. intros H w. unfold bind, try_except, ret. rewrite prepend_nil. apply H. Qed.

Lemma every_bind_try_raise (C : Collab) (P : Event C -> bool) (A B : Type) (e : exc)
  (h : exc -> option (M C A)) (hk : M C A) (k : A -> M C B) :
  h e = Some hk -> every P (bind hk k) ->
  every P (bind (try_except (raise e) h) k).
Proof.
  intros E H w. specialize (H w). unfold bind, try_except, raise in *. rewrite E.
  rewrite prepend_nil. exact H.
Qed.

Lemma every_weaken (C : Collab) (A : Type) (P Q : Event C -> bool) (m : M C A) :
  (forall e, P e = true -> Q e = true) -> every P m -> every Q m.
Proof.
  intros H Hm w. specialize (Hm w). induction (log (m w)) as [|e t IH]; [reflexivity|].
  cbn [forallb] in *. apply andb_true_iff in Hm. destruct Hm as [H1 H2].
  rewrite (H e H1), (IH H2). reflexivity.
Qed.

(** What the first computation returns may be used for the second. *)
Lemma every_bind_post (C : Collab) (A B : Type) (P : Event C -> bool) (Q : A -> Prop)
  (m : M C A) (k : A -> M C B) :
  every P m ->
  (forall w a, outcome (m w) = Return a -> Q a) ->
  (forall a, Q a -> every P (k a)) ->
  every P (bind m k).
Proof.
  intros Hm HQ Hk w. unfold bind. specialize (Hm w). specialize (HQ w).
  destruct (m w) as [l w1 [a|e| |code]]; cbn [log outcome] in *; try exact Hm.
  rewrite log_prepend, forallb_app, Hm. apply Hk. apply HQ. reflexivity.
Qed.

Lemma outcome_bind_return (C : Collab) (A B : Type) (m : M C A) (k : A -> M C B)
  (w : World C) (b : B) :
  outcome (bind m k w) = Return b ->
  exists a w1, outcome (m w) = Return a /\ outcome (k a w1) = Return b.
Proof.
  unfold bind. destruct (m w) as [l w1 [a|e| |code]]; cbn [outcome]; try discriminate.
  rewrite outcome_prepend. intros H. exists a, w1. split; [reflexivity | exact H].
Qed.

Lemma every_for_each_in (C : Collab) (A S : Type) (P : Event C -> bool)
  (body : A -> S -> M C S) (l : list A) :
  (forall x s, In x l -> every P (body x s)) -> forall s, every P (for_each l body s).
Proof.
  induction l as [|x rest IH]; intros H s; cbn [for_each].
  - apply every_ret.
  - apply every_bind.
    + apply H. left. reflexivity.
    + intros s'. apply IH. intros y t Hy. apply H. right. exact Hy.
Qed.

(** [every_run] with the tactic for the events as a parameter, and binds
    associated to the right so that a value that is returned reaches the
    computation that uses it. *)
Ltac every_step_by leaf :=
  lazymatch goal with
  | |- every _ (bind (ret _) _) => apply every_bind_ret
  | |- every _ (bind (bind _ _) _) => apply every_bind_assoc
  | |- every _ (bind _ _) => apply every_bind; [|intros ?]
  | |- every _ (ret _) => apply every_ret
  | |- every _ (raise _) => apply every_raise
  | |- every _ (sys_exit _) => apply every_sys_exit
  | |- every _ (print _) => apply every_print; leaf
  | |- every _ (call _ _ _) => apply every_call; intros ?; leaf
  | |- every _ (query _ _) => apply every_query; intros ?; leaf
  | |- every _ (input _) => apply every_input; intros ?; leaf
  | |- every _ (read_file _) => apply every_read_file; intros ?; leaf
  | |- every _ (json_load_plugins _) =>
      apply every_json_load_plugins; intros ?; leaf
  | |- every _ (subscript _ _) => apply every_subscript
  | |- every _ (try_except_interrupt _ _) => apply every_try_except_interrupt
  | |- every _ (try_except _ _) =>
      apply every_try_except;
      [| let e := fresh "e" in intros e; destruct e; every_reduce; try exact I]
  | |- every _ (for_each _ _ _) => apply every_for_each; intros ? ?
  | |- every _ (fold_right _ _ _) => cbn [fold_right]
  | |- every _ (if ?c then _ else _) => split_on c
  | |- every _ (match ?x with _ => _ end) => destruct x
  | |- every _ ?m => unfold_head m
  end; every_reduce.

Ltac every_run_by leaf := every_reduce; repeat every_step_by leaf.

(** ** Strings *)

Lemma prefix_append (a b c : string) :
  String.prefix (a +++ b) (a +++ c) = String.prefix b c.
Proof.
  induction a as [|x a IH]; [reflexivity|].
  cbn [String.append String.prefix]. destruct (ascii_dec x x) as [_|N]; [exact IH|].
  exfalso. apply N. reflexivity.
Qed.

Lemma prefix_empty (c : string) : String.prefix EmptyString c = true.
Proof. destruct c; reflexivity. Qed.

Lemma append_assoc (a b c : string) : (a +++ b) +++ c = a +++ (b +++ c).
Proof. induction a as [|x a IH]; [reflexivity|]. cbn. rewrite IH. reflexivity. Qed.

Lemma prefix_repo_url (own rn e : string) :
  String.prefix ("https://api.github.com/repos/" +++ own +++ "/" +++ rn +++ "/")
                ("https://api.github.com" +++ "/repos/" +++ own +++ "/" +++ rn +++ "/" +++ e)
  = true.
Proof.
  change ("https://api.github.com/repos/" +++ own +++ "/" +++ rn +++ "/")
    with ("https://api.github.com" +++ "/repos/" +++ own +++ "/" +++ rn +++ "/" +++ EmptyString).
  rewrite !prefix_append. apply prefix_empty.
Qed.

(** [s.split("/", 1)] gives two parts exactly when [s] has a ["/"]; the
    first part has none, and the two parts with a ["/"] between them are
    [s]. *)
Lemma split1_cases (s : string) :
  (has_slash s = false /\ Py.split1 "/" s = [s])
  \/ (exists o n, has_slash s = true /\ Py.split1 "/" s = [o; n]
                  /\ s = o +++ "/" +++ n /\ has_slash o = false).
Proof.
  induction s as [|c t IH].
  - left. split; reflexivity.
  - cbn [Py.split1 has_slash]. destruct (Ascii.eqb c "/") eqn:E.
    + right. exists EmptyString, t. apply Ascii.eqb_eq in E. subst c.
      repeat split; reflexivity.
    + destruct IH as [[H S] | (o & n & H & S & -> & Ho)].
      * left. rewrite S, H. split; reflexivity.
      * right. exists (String c o), n. rewrite S. cbn [has_slash]. rewrite E, Ho.
        repeat split; try reflexivity. exact H.
Qed.

(** ** What comes before what: the rules *)

Section Gates.
Context {C : Collab} (G P : Event C -> bool).

Lemma guarded_opened (l : list (Event C)) : guarded G P true l = true.
Proof. induction l as [|e t IH]; [reflexivity|]. cbn. exact IH. Qed.

Lemma guarded_app (o : bool) (l1 l2 : list (Event C)) :
  guarded G P o (l1 ++ l2)
  = (guarded G P o l1 && guarded G P (o || existsb G l1) l2)%bool.
Proof.
  revert o. induction l1 as [|e t IH]; intros o; cbn.
  - rewrite orb_false_r. reflexivity.
  - rewrite IH, orb_assoc, andb_assoc. reflexivity.
Qed.

Lemma guarded_weaken (o : bool) (l : list (Event C)) :
  guarded G P false l = true -> guarded G P o l = true.
Proof. destruct o; [intros _; apply guarded_opened | trivial]. Qed.

Lemma guarded_non (l : list (Event C)) (o : bool) :
  forallb (non P) l = true -> guarded G P o l = true.
Proof.
  revert o. induction l as [|e t IH]; intros o H; [reflexivity|].
  cbn in *. apply andb_true_iff in H. destruct H as [H1 H2]. unfold non in H1.
  rewrite H1, orb_true_r, (IH _ H2). reflexivity.
Qed.

Lemma gated_non {A : Type} (m : M C A) : every (non P) m -> gated G P m.
Proof. intros H w. apply guarded_non, H. Qed.

Lemma gated_bind {A B : Type} (m : M C A) (k : A -> M C B) :
  gated G P m -> (forall a, gated G P (k a)) -> gated G P (bind m k).
Proof.
  intros Hm Hk w. unfold bind. specialize (Hm w).
  destruct (m w) as [l w1 [a|e| |code]]; cbn [log] in *; try exact Hm.
  rewrite log_prepend, guarded_app, Hm. apply guarded_weaken, Hk.
Qed.

(** A computation that, when it returns, has produced an event that
    satisfies [G]: what follows it is free. *)
Lemma gated_bind_opened {A B : Type} (m : M C A) (k : A -> M C B) :
  gated G P m ->
  (forall w, finished (outcome (m w)) = true -> existsb G (log (m w)) = true) ->
  gated G P (bind m k).
Proof.
  intros Hm Ho w. unfold bind. specialize (Hm w). specialize (Ho w).
  destruct (m w) as [l w1 [a|e| |code]]; cbn [log outcome finished] in *; try exact Hm.
  rewrite log_prepend, guarded_app, Hm, (Ho eq_refl). apply guarded_opened.
Qed.

Lemma gated_bind_ret {A B : Type} (a : A) (k : A -> M C B) :
  gated G P (k a) -> gated G P (bind (ret a) k).
Proof. intros Hk w. unfold bind, ret. rewrite prepend_nil. apply Hk. Qed.

(** A computation without any event that satisfies [P] or [G]. *)
Lemma gated_bind_block {A B : Type} (m : M C A) (k : A -> M C B) :
  every (fun e => (negb (P e) && negb (G e))%bool) m ->
  (forall a, gated G P (k a)) -> gated G P (bind m k).
Proof.
  intros Hm Hk. apply gated_bind; [|exact Hk].
  intros w. apply guarded_non. specialize (Hm w).
  induction (log (m w)) as [|e t IH]; [reflexivity|].
  cbn [forallb] in *. apply andb_true_iff in Hm. destruct Hm as [H1 H2].
  apply andb_true_iff in H1. destruct H1 as [H1 _]. unfold non at 1.
  rewrite H1, (IH H2). reflexivity.
Qed.

Lemma gated_bind_exit {A B : Type} (code : Z) (k : A -> M C B) :
  gated G P (bind (sys_exit code) k).
Proof. intros w. reflexivity. Qed.

Lemma gated_bind_raise {A B : Type} (e : exc) (k : A -> M C B) :
  gated G P (bind (raise e) k).
Proof. intros w. reflexivity. Qed.

Lemma gated_bind_assoc {A B D : Type} (m : M C A) (f : A -> M C B) (k : B -> M C D) :
  gated G P (bind m (fun x => bind (f x) k)) -> gated G P (bind (bind m f) k).
Proof. intros H w. rewrite bind_assoc. apply H. Qed.

(** After [input]: either the line read satisfies [G], or what follows is
    gated itself. *)
Lemma gated_bind_input {B : Type} (prompt : string) (k : string -> M C B) :
  (forall x, P (EInput prompt x) = false) ->
  (forall s, G (EInput prompt (Line s)) = false -> gated G P (k s)) ->
  gated G P (bind (input prompt) k).
Proof.
  intros HP Hk w. unfold bind, input.
  destruct (readline C w) as [[s| |] w']; cbn [log guarded]; rewrite ?HP; cbn;
    try reflexivity.
  rewrite log_prepend. cbn [app guarded]. rewrite HP. cbn.
  destruct (G (EInput prompt (Line s))) eqn:E.
  - apply guarded_opened.
  - apply Hk. exact E.
Qed.

(** After [run_cmd]: either the command, with its answer, satisfies [G], or
    what follows is gated itself. *)
Lemma gated_bind_run_cmd {B : Type} (cmd : list string) (check capture : bool)
  (cwd : option string) (k : Z * string * string -> M C B) :
  (forall x, P (ESpawn cmd capture cwd x) = false) ->
  (forall p, G (ESpawn cmd capture cwd (Some p)) = false ->
             gated G P (k (returncode p,
                           if capture then Py.strip (stdout p) else EmptyString,
                           if capture then Py.strip (stderr p) else EmptyString))) ->
  gated G P (bind (run_cmd cmd check capture cwd) k).
Proof.
  intros HP Hk w. unfold bind. rewrite run_cmd_unchecked.
  unfold run_cmd, subprocess_run, subprocess_spawn, call, try_except, bind, ret, raise,
    prepend.
  destruct (spawn C cmd capture cwd w) as [[p|] w']; cbn [andb app log].
  - specialize (Hk p). destruct p as [code so se]. cbn [returncode stdout stderr] in *.
    destruct (k _ w') as [l' w'' o'] eqn:K. cbn [log guarded]. rewrite HP.
    cbn [negb orb andb].
    destruct (G (ESpawn cmd capture cwd (Some (mkProc code so se)))) eqn:E.
    + apply guarded_opened.
    + specialize (Hk eq_refl w'). rewrite K in Hk. exact Hk.
  - cbn. rewrite HP. reflexivity.
Qed.

End Gates.

(** What holds of an event is decided by evaluation, once the answer of the
    call, where it matters, has been split on. *)
Ltac event_split :=
  cbn;
  repeat (match goal with
          | |- context [match ?x with _ => _ end] => is_var x; destruct x
          end; cbn);
  try reflexivity.

Ltac gate_reduce :=
  every_reduce;
  cbv beta iota zeta delta [fst snd].

(** One step.  A block without any event of [G] or [P] is passed as a whole;
    a question or a command whose answer may satisfy [G] is followed with
    that answer.  [leaf] decides what holds of an event, [open H] unfolds
    [G] in the hypothesis [H] on the answer. *)
Ltac gated_step_by leaf open :=
  lazymatch goal with
  | |- gated _ _ (bind (ret _) _) => apply gated_bind_ret
  | |- gated _ _ (bind (bind _ _) _) => apply gated_bind_assoc
  | |- gated _ _ (bind (sys_exit _) _) => apply gated_bind_exit
  | |- gated _ _ (bind (raise _) _) => apply gated_bind_raise
  | |- gated _ _ (bind (input _) _) =>
      apply gated_bind_input;
      [ intros ?; leaf
      | let s := fresh "s" in let H := fresh "H" in
        intros s H; gate_reduce; open H;
        cbn -[ReleaseMain.says_yes Z.eqb] in H; try rewrite H ]
  | |- gated _ _ (bind (run_cmd _ _ _ _) _) =>
      apply gated_bind_run_cmd;
      [ intros ?; leaf
      | let p := fresh "p" in let H := fresh "H" in
        intros p H; destruct p as [? ? ?]; cbn [returncode stdout stderr] in *;
        gate_reduce; open H;
        cbn -[ReleaseMain.says_yes Z.eqb] in H; try rewrite H ]
  | |- gated _ _ (bind ?m _) =>
      first [ apply gated_bind_block; [solve [every_run_by leaf] | intros ?]
            | lazymatch m with
              | (if ?c then _ else _) => split_on c
              | (match ?x with _ => _ end) => destruct x
              | for_each _ _ _ => apply gated_bind; [| intros ?]
              | try_except _ _ => apply gated_bind; [| intros ?]
              | try_except_interrupt (bind (input _) _) _ =>
                  apply gated_bind_opened;
                  [ apply gated_non; every_run_by leaf
                  | let w := fresh "w" in
                    intros w; unfold try_except_interrupt, bind, input, ret;
                    destruct (readline _ w) as [[?| |] ?]; cbn;
                    first [reflexivity | intros; discriminate] ]
              | try_except_interrupt _ _ => apply gated_bind; [| intros ?]
              | call _ _ _ => apply gated_bind; [| intros ?]
              | _ => unfold_head m
              end ]
  | |- gated _ _ (if ?c then _ else _) => split_on c
  | |- gated _ _ (match ?x with _ => _ end) => destruct x
  | |- gated _ _ ?m =>
      first [ solve [apply gated_non; every_run_by leaf] | unfold_head m ]
  end; gate_reduce.

Ltac gated_run_by leaf open := gate_reduce; repeat gated_step_by leaf open.

(** ** Runs that return *)

Section Settled.
Context {C : Collab} (P : Event C -> bool).








End Settled.



(** ** Runs that end after looking only *)

(** A computation that only looks, then one that ends the run. *)
Lemma bind_after_looking (C : Collab) (A B : Type) (m : M C A) (k : A -> M C B)
  (w : World C) (l : list (Event C)) (a : A) (code : Z) (S : list (Event C)) :
  m w = mkRun l w (Return a) ->
  forallb (non acts) l = true ->
  (outcome (k a w) = SystemExit code /\ world (k a w) = w
   /\ forallb (non acts) (log (k a w)) = true /\ incl S (log (k a w))) ->
  outcome (bind m k w) = SystemExit code /\ world (bind m k w) = w
  /\ forallb (non acts) (log (bind m k w)) = true /\ incl S (log (bind m k w)).
Proof.
  intros E H (H1 & H2 & H3 & H4). unfold bind. rewrite E.
  destruct (k a w) as [l' w' o]. cbn [prepend log world outcome] in *.
  rewrite forallb_app, H, H3. repeat split; try assumption.
  apply incl_appr. exact H4.
Qed.

Ltac look := eapply bind_after_looking; [reflexivity | reflexivity | cbv beta].

(** The log of a loop that prints one line for each element. *)
Lemma for_each_print (C : Collab) (A : Type) (line : A -> string) (l : list A)
  (w : World C) :
  for_each l (fun x (_ : unit) => print (line x)) tt w
  = mkRun (map (fun x => EPrint (line x)) l) w (Return tt).
Proof.
  induction l as [|x t IH]; [reflexivity|].
  cbn [for_each map]. unfold bind, print at 1. rewrite IH. reflexivity.
Qed.

Lemma bind_for_each_print (C : Collab) (A B : Type) (line : A -> string) (l : list A)
  (k : unit -> M C B) (w : World C) :
  bind (for_each l (fun x (_ : unit) => print (line x)) tt) k w
  = prepend (map (fun x => EPrint (line x)) l) (k tt w).
Proof. unfold bind. rewrite for_each_print. reflexivity. Qed.

Lemma bind_exits (C : Collab) (A B : Type) (m : M C A) (k : A -> M C B) (w w' : World C)
  (l : list (Event C)) (code : Z) :
  m w = mkRun l w' (SystemExit code) -> bind m k w = mkRun l w' (SystemExit code).
Proof. intros E. unfold bind. rewrite E. reflexivity. Qed.

(** The configuration, once found and decoded. *)
Lemma load_plugins_config_loaded (C : Collab) (config_path : string)
  (all : list PluginConfig) (w : World C) :
  path_exists C config_path w = true ->
  load_plugins C config_path w = inr all ->
  exists l, forallb (non acts) l = true
            /\ ReleasePlugins.load_plugins_config config_path w
               = mkRun l w (match filter p_enabled all with
                            | [] => SystemExit 1
                            | en => Return en
                            end).
Proof.
  intros E L. unfold ReleasePlugins.load_plugins_config, json_load_plugins.
  run_reduce. rewrite E. run_reduce. rewrite L. run_reduce.
  destruct (filter p_enabled all); run_reduce; eexists; (split; [|reflexivity]); reflexivity.
Qed.

(** ** The iteration for a plugin *)

(** Every command of the iteration for a plugin runs in the checkout of
    that plugin. *)
Lemma iteration_runs_in_its_checkout (C : Collab) (root version : string)
  (token : option string) (dry_run : bool) (p : PluginConfig) (st : nat * list string) :
  every (runs_in (plugin_dir_of C root p))
        (ReleasePlugins.main_loop_body (C := C) root version token dry_run p st).
Proof.
  unfold ReleasePlugins.main_loop_body, plugin_dir_of. destruct st as [n f].
  every_run_by ltac:(unfold runs_in; cbn; rewrite ?String.eqb_refl; try reflexivity).
Qed.

(** ** The properties *)


(** ** Regular expressions *)

Lemma append_nil_r (s : string) : s +++ EmptyString = s.
Proof. induction s as [|c t IH]; [reflexivity|]. cbn. rewrite IH. reflexivity. Qed.

Lemma all_in_app (cls : ascii -> bool) (a b : string) :
  all_in cls (a +++ b) = (all_in cls a && all_in cls b)%bool.
Proof.
  induction a as [|c t IH]; [reflexivity|]. cbn. rewrite IH, andb_assoc. reflexivity.
Qed.

(** A greedy star runs through a run of the class when the rest of the
    pattern matches after it. *)
Lemma star_run (cls : ascii -> bool) (k : string -> string -> option Re.found)
  (a : string) :
  forall (got x : string) (r : Re.found),
    all_in cls a = true ->
    Re.star cls k (got +++ a) x = Some r ->
    Re.star cls k got (a +++ x) = Some r.
Proof.
  induction a as [|c t IH]; intros got x r A H.
  - rewrite append_nil_r in H. exact H.
  - cbn in A. apply andb_true_iff in A. destruct A as [Hc Ht].
    cbn [String.append Re.star]. rewrite Hc.
    rewrite (IH (got +++ String c EmptyString) x r Ht); [reflexivity|].
    rewrite append_assoc. exact H.
Qed.

(** A greedy star fails when the rest of the pattern fails wherever the
    star may stop. *)
Lemma star_none (cls : ascii -> bool) (k : string -> string -> option Re.found)
  (Q : string -> Prop) :
  (forall c t, cls c = true -> Q (String c t) -> Q t) ->
  (forall got x, Q x -> k got x = None) ->
  forall x got, Q x -> Re.star cls k got x = None.
Proof.
  intros Hstep Hk. induction x as [|c t IH]; intros got HQ; cbn [Re.star].
  - apply Hk. exact HQ.
  - destruct (cls c) eqn:E; [|apply Hk; exact HQ].
    rewrite (IH _ (Hstep c t E HQ)). apply Hk. exact HQ.
Qed.

(** A lazy star goes on through a run of the class as long as the rest of
    the pattern fails. *)
Lemma lazy_star_run (cls : ascii -> bool) (k : string -> string -> option Re.found)
  (a : string) :
  forall (got x : string),
    all_in cls a = true ->
    (forall a1 a2, a = a1 +++ a2 -> a2 <> EmptyString -> k (got +++ a1) (a2 +++ x) = None) ->
    Re.lazy_star cls k got (a +++ x) = Re.lazy_star cls k (got +++ a) x.
Proof.
  induction a as [|c t IH]; intros got x A H.
  - rewrite append_nil_r. reflexivity.
  - cbn in A. apply andb_true_iff in A. destruct A as [Hc Ht].
    cbn [String.append]. 
    assert (K : k got (String c (t +++ x)) = None).
    { specialize (H EmptyString (String c t) eq_refl). rewrite append_nil_r in H.
      apply H. discriminate. }
    destruct x as [|d x']; cbn [Re.lazy_star]; rewrite K, Hc.
    + rewrite IH; [rewrite append_assoc; reflexivity | exact Ht |].
      intros a1 a2 E N. rewrite append_assoc. apply (H (String c a1) a2); [|exact N].
      cbn. rewrite E. reflexivity.
    + rewrite IH; [rewrite append_assoc; reflexivity | exact Ht |].
      intros a1 a2 E N. rewrite append_assoc. apply (H (String c a1) a2); [|exact N].
      cbn. rewrite E. reflexivity.
Qed.

Lemma lazy_star_now (cls : ascii -> bool) (k : string -> string -> option Re.found)
  (got x : string) (r : Re.found) :
  k got x = Some r -> Re.lazy_star cls k got x = Some r.
Proof. intros H. destruct x; cbn [Re.lazy_star]; rewrite H; reflexivity. Qed.

(** [search] passes a position where the pattern does not match. *)
Lemma search_skip (p : list Re.item) (c : ascii) (t : string) :
  Re.exec p (String c t) = None ->
  Re.search p (String c t)
  = match Re.search p t with
    | Some (before, r) => Some (String c before, r)
    | None => None
    end.
Proof. intros H. cbn [Re.search]. rewrite H. reflexivity. Qed.

Lemma search_here (p : list Re.item) (s : string) (r : Re.found) :
  Re.exec p s = Some r -> Re.search p s = Some (EmptyString, r).
Proof. intros H. destruct s; cbn [Re.search]; rewrite H; reflexivity. Qed.


(** X2 -- The questions of [release_main.py] take exactly the answers "y"
    and "Y" for a yes: anything else (also "yes", or "y" with a blank) is a
    no. *)
Theorem says_yes_exactly (s : string) :
  ReleaseMain.says_yes s = true <-> s = "y" \/ s = "Y".
Proof.
  split; [apply says_yes_cases|]. intros [-> | ->]; reflexivity.
Qed.

(** X3 -- [release_main.py] from the point where the token is known, live
    and without a token: an answer other than "y" or "Y" to the question
    whether to continue without a release ends the run with status 0, and
    but for that question the run has only printed. *)
Theorem declined_prompt_cancels (C : Collab) (version own rp : string)
  (token : option string) (w w' : World C) (s : string) :
  Py.truthy_opt token = false ->
  readline C w = (Line s, w') ->
  s <> "y" -> s <> "Y" ->
  let r := ReleaseMain.main_with_token version own rp token false w in
  outcome r = SystemExit 0
  /\ world r = w'
  /\ forallb only_looks (filter not_input (log r)) = true.
Proof.
  intros T R N1 N2 r. subst r.
  assert (Y : ReleaseMain.says_yes s = false).
  { destruct (ReleaseMain.says_yes s) eqn:E; [|reflexivity].
    apply says_yes_cases in E. destruct E; contradiction. }
  unfold ReleaseMain.main_with_token.
  destruct token as [tok|]; cbn [Py.truthy_opt] in *; rewrite ?T;
    run_reduce; rewrite R; run_reduce; rewrite Y; repeat split.
Qed.

(** The answer "yes" is not "y": the run is cancelled. *)
Lemma declined_prompt_cancels_witness :
  (Py.truthy_opt None = false
   /\ readline Sim.collab (Scenario.no_token [Line "yes"])
      = (Line "yes", Scenario.no_token [])
   /\ "yes" <> "y" /\ "yes" <> "Y")
  /\ outcome (ReleaseMain.main_with_token (C := Sim.collab) "v1.0.0" "go-lynx" "lynx"
                None false (Scenario.no_token [Line "yes"]))
     = SystemExit 0.
Proof.
  assert (H1 : readline Sim.collab (Scenario.no_token [Line "yes"])
               = (Line "yes", Scenario.no_token [])) by (vm_compute; reflexivity).
  assert (H2 : "yes" <> "y") by discriminate.
  assert (H3 : "yes" <> "Y") by discriminate.
  split; [repeat split; assumption|].
  exact (proj1 (declined_prompt_cancels Sim.collab "v1.0.0" "go-lynx" "lynx" None
                  (Scenario.no_token [Line "yes"]) (Scenario.no_token []) "yes"
                  eq_refl H1 H2 H3)).
Defined.


(** X5 -- The iteration of the loop of [release_plugins.py] for a plugin
    stays with that plugin, live or not and whatever the collaborators
    answer: every command is one of the four tag commands on the version,
    run without capture in the checkout of the plugin; every request goes
    to an address below [https://api.github.com/repos/<repo of the plugin>/],
    with [Accept] and the [Authorization] of the token ([Bearer] for a
    [github_pat_] token, [token] otherwise); no file is read or written, no
    directory is changed, and nothing is read from the terminal or the
    environment. *)
Theorem iteration_stays_with_its_plugin (C : Collab) (root version : string)
  (tk : option string) (dry_run : bool) (p : PluginConfig) (st : nat * list string) :
  every (stays_with (plugin_dir_of C root p) version
           ("https://api.github.com/repos/" +++ p_repo p +++ "/")
           (match tk with Some tok => tok | None => EmptyString end))
        (ReleasePlugins.main_loop_body (C := C) root version tk dry_run p st).
Proof.
  unfold ReleasePlugins.main_loop_body, plugin_dir_of. destruct st as [n f].
  apply every_bind;
    [| intros ex; destruct (negb ex);
       [| destruct tk as [tok|];
          [ destruct (Py.nonempty tok);
            [ destruct (split1_cases (p_repo p)) as [[H S] | (o & m & H & S & E & Ho)];
              rewrite S;
              [ eapply every_bind_try_raise; [reflexivity|]
              | rewrite E, !append_assoc; apply every_bind_try_ret ]
            | ]
          | ] ] ].
  all: every_run_by
         ltac:(unfold stays_with, tag_command, authorization, endpoint_url;
               cbn [base_url owner repo headers token GitHubAPI_init];
               rewrite ?prefix_repo_url, ?String.eqb_refl; cbn;
               rewrite ?String.eqb_refl;
               repeat match goal with
                      | |- context [String.eqb ?a ?b] => destruct (String.eqb a b); cbn
                      | |- context [Py.startswith ?a ?b] =>
                          destruct (Py.startswith a b); cbn
                      end;
               rewrite ?String.eqb_refl; try reflexivity).
Qed.

(** X6 -- With [--dry-run], neither script reads anything from the
    terminal: no confirmation, no question. *)
Theorem dry_run_never_asks (C : Collab) :
  (forall (v cfg : string) (t plg : option string),
      every not_input (ReleasePlugins.main (C := C) (ReleasePlugins.mkArgs v t cfg plg true)))
  /\ (forall (v : string) (t : option string),
        every not_input (ReleaseMain.main (C := C) (ReleaseMain.mkArgs v t true))).
Proof. split; intros; every_run. Qed.

(** X7 -- [release_plugins.py], whatever its arguments: it writes no file,
    reads none but its configuration, does not change directory, and runs
    no command in its own directory (every command has a [cwd]). *)
Theorem release_plugins_footprint (C : Collab) (args : ReleasePlugins.Args) :
  every plugins_footprint (ReleasePlugins.main (C := C) args).
Proof. destruct args as [v t cfg plg dry]. every_run. Qed.

(** X8 -- [release_main.py], whatever its arguments: the only file it
    tests, reads or writes is [internal/banner/banner.txt] below the
    directory of the script; it looks for no other path, loads no
    configuration, and runs every command in the current directory (no
    [cwd]). *)
Theorem release_main_footprint (C : Collab) (args : ReleaseMain.Args) :
  every main_footprint (ReleaseMain.main (C := C) args).
Proof.
  destruct args as [v t dry].
  every_run_by
    ltac:(unfold main_footprint, banner_path; cbn; rewrite ?String.eqb_refl; cbn;
            try reflexivity).
Qed.

(** X9 -- Every request of either script is a GET or a DELETE without
    payload, or a POST whose payload is that of a release: [tag_name] and
    [name] are the version with its leading ['v'], the body is not empty,
    [draft] and [prerelease] are false. *)
Theorem releases_are_well_formed (C : Collab) :
  (forall args : ReleasePlugins.Args,
      every (well_formed_request
               (ReleasePlugins.normalize_version (ReleasePlugins.args_version args)))
            (ReleasePlugins.main (C := C) args))
  /\ (forall args : ReleaseMain.Args,
        every (well_formed_request
                 (ReleaseMain.normalize_version (ReleaseMain.args_version args)))
              (ReleaseMain.main (C := C) args)).
Proof.
  split; intros args; destruct args;
    every_run_by
      ltac:(unfold well_formed_request, release_payload; cbn; rewrite ?String.eqb_refl;
            cbn; try reflexivity).
Qed.

(** X10 -- [release_main.py] deletes a tag, local or remote, only after the
    answer "y" (or "Y") to the question whether to delete and recreate
    it. *)
Theorem main_deletes_tags_only_on_request (C : Collab) (args : ReleaseMain.Args) :
  gated agrees_to_delete deletes_tag (ReleaseMain.main (C := C) args).
Proof.
  destruct args as [v t dry].
  gated_run_by ltac:(unfold non, deletes_tag, agrees_to_delete, performs; event_split)
               ltac:(fun H => unfold agrees_to_delete in H).
Qed.

(** X11 -- [release_main.py] changes something (a git command that tags,
    pushes, adds or commits, a request other than a GET, the banner) only
    after [git rev-parse --git-dir] returned 0, and only after
    [git diff-index --quiet HEAD --] returned 0 or the user answered "y" to
    the question whether to continue with uncommitted changes. *)
Theorem main_changes_only_a_checked_tree (C : Collab) (args : ReleaseMain.Args) :
  gated in_repository mutating (ReleaseMain.main (C := C) args)
  /\ gated clean_or_agreed mutating (ReleaseMain.main (C := C) args).
Proof.
  destruct args as [v t dry]. split.
  - gated_run_by ltac:(unfold non, mutating, in_repository; event_split)
                 ltac:(fun H => unfold in_repository in H).
  - gated_run_by ltac:(unfold non, mutating, clean_or_agreed; event_split)
                 ltac:(fun H => unfold clean_or_agreed in H).
Qed.

(** X12 -- In both scripts the release is created only after a push of the
    tag that returned 0, and the tag is pushed only after a command that
    created it returned 0. *)
Theorem release_only_after_push (C : Collab) :
  (forall args : ReleaseMain.Args,
      gated pushed creates_release (ReleaseMain.main (C := C) args)
      /\ gated tagged pushes (ReleaseMain.main (C := C) args))
  /\ (forall (name rp version dir : string) (a : option GitHubAPI) (dry_run : bool),
        gated pushed creates_release
          (ReleasePlugins.process_plugin (C := C) name rp version dir a dry_run)
        /\ gated tagged pushes
             (ReleasePlugins.process_plugin (C := C) name rp version dir a dry_run)).
Proof.
  split.
  - intros [v t dry]. split; destruct dry.
    1, 2: gated_run_by ltac:(unfold non, creates_release, pushed, performs; event_split)
                       ltac:(fun H => unfold pushed in H).
    all: gated_run_by ltac:(unfold non, pushes, tagged, performs; event_split)
                      ltac:(fun H => unfold tagged in H).
  - intros name rp version dir a dry_run. split; destruct dry_run.
    1, 2: gated_run_by ltac:(unfold non, creates_release, pushed, performs; event_split)
                       ltac:(fun H => unfold pushed in H).
    all: gated_run_by ltac:(unfold non, pushes, tagged, performs; event_split)
                      ltac:(fun H => unfold tagged in H).
Qed.

(** X13 -- A live run of [release_plugins.py] runs no command, sends no
    request, writes nothing and changes no directory before the user has
    entered a line at the confirmation: on Ctrl-C or end of input nothing
    has been done. *)
Theorem plugins_act_only_after_enter (C : Collab) (v cfg : string) (t plg : option string) :
  gated line_read acts
    (ReleasePlugins.main (C := C) (ReleasePlugins.mkArgs v t cfg plg false)).
Proof.
  gated_run_by ltac:(unfold non, acts, line_read; event_split)
               ltac:(fun H => unfold line_read in H).
Qed.


(** X15 -- With a token, a plugin whose repository has no ['/'] is not
    processed: its iteration only looks (no command, no request), leaves
    the world as it is, and adds the plugin to the failed ones. *)
Theorem repository_without_slash_is_skipped (C : Collab) (root version tok : string)
  (dry_run : bool) (p : PluginConfig) (n : nat) (f : list string) (w : World C) :
  Py.nonempty tok = true ->
  has_slash (p_repo p) = false ->
  let r := ReleasePlugins.main_loop_body root version (Some tok) dry_run p (n, f) w in
  outcome r = Return (n, f ++ [p_name p])
  /\ world r = w
  /\ forallb only_looks (log r) = true.
Proof.
  intros T H r. subst r. unfold ReleasePlugins.main_loop_body. run_reduce.
  destruct (path_exists C _ w); run_reduce; [|repeat split].
  rewrite T.
  destruct (split1_cases (p_repo p)) as [[_ S] | (o & m & H' & _)];
    [|rewrite H' in H; discriminate H].
  rewrite S. run_reduce. repeat split.
Qed.

(** The repository "lynx-redis" has no owner: the plugin fails, and no
    command has been run. *)
Lemma repository_without_slash_is_skipped_witness :
  (Py.nonempty "ghp_x" = true /\ has_slash (p_repo Cases.unscoped) = false)
  /\ outcome (ReleasePlugins.main_loop_body (C := Sim.collab) "/work/lynx" "v1.0.0"
                (Some "ghp_x") false Cases.unscoped (O, []) Scenario.fresh)
     = Return (O, ["lynx-redis"]).
Proof.
  split; [split; reflexivity|].
  exact (proj1 (repository_without_slash_is_skipped Sim.collab "/work/lynx" "v1.0.0"
                  "ghp_x" false Cases.unscoped O [] Scenario.fresh eq_refl eq_refl)).
Defined.

(** X16 -- [process_plugin] on a directory that does not exist, or has no
    [.git]: it returns [False], has only looked, and the world is as it
    was; so with or without [--dry-run]. *)
Theorem process_plugin_without_checkout (C : Collab) (name rp version dir : string)
  (a : option GitHubAPI) (dry_run : bool) (w : World C) :
  (path_exists C dir w && path_exists C (joinpath C dir ".git") w)%bool = false ->
  let r := ReleasePlugins.process_plugin name rp version dir a dry_run w in
  outcome r = Return false
  /\ world r = w
  /\ forallb only_looks (log r) = true.
Proof.
  intros H r. subst r. unfold ReleasePlugins.process_plugin. run_reduce.
  destruct (path_exists C dir w); cbn [andb] in H; run_reduce.
  - rewrite H. run_reduce. repeat split.
  - repeat split.
Qed.

(** The checkout of lynx-redis is missing. *)
Lemma process_plugin_without_checkout_witness :
  (path_exists Sim.collab Scenario.redis_dir Scenario.missing_checkout
   && path_exists Sim.collab (joinpath Sim.collab Scenario.redis_dir ".git")
        Scenario.missing_checkout)%bool = false
  /\ outcome (Scenario.plugin_run false Scenario.missing_checkout) = Return false.
Proof.
  split; [reflexivity|].
  exact (proj1 (process_plugin_without_checkout Sim.collab "lynx-redis"
                  "go-lynx/lynx-redis" "v1.0.0" Scenario.redis_dir
                  (Some Scenario.redis_api) false Scenario.missing_checkout eq_refl)).
Defined.

(** X17 -- The verdict of a dry run of [process_plugin] on a checkout says
    nothing about the tags: it is [True], unless the lookup of the release
    raises (then that exception escapes). *)
Theorem dry_run_verdict (C : Collab) (name rp version dir : string)
  (a : option GitHubAPI) (w : World C) :
  let r := ReleasePlugins.process_plugin name rp version dir a true w in
  path_exists C dir w = true ->
  path_exists C (joinpath C dir ".git") w = true ->
  outcome r
  = match a with
    | None => Return true
    | Some api =>
        match observe_release C api version w with
        | LookupError e => Raise e
        | _ => Return true
        end
    end.
Proof.
  destruct a as [[tok own rp' burl hdrs]|]; exec_run; intros ->;
    unfold observe_release, endpoint_url; simp; repeat (progress known; simp);
    intros; try discriminate; try reflexivity.
  all: atoms_only; try reflexivity; try discriminate.
Qed.

(** Where [git tag v1.0.0] fails, the dry run still reports success. *)
Lemma dry_run_verdict_witness :
  (path_exists Sim.collab Scenario.redis_dir Scenario.tag_fails = true
   /\ path_exists Sim.collab (joinpath Sim.collab Scenario.redis_dir ".git")
        Scenario.tag_fails = true)
  /\ outcome (Scenario.plugin_run true Scenario.tag_fails) = Return true
  /\ outcome (Scenario.plugin_run false Scenario.tag_fails) = Return false.
Proof.
  split; [split; reflexivity|]. split.
  - refine (eq_trans (dry_run_verdict Sim.collab "lynx-redis" "go-lynx/lynx-redis"
                        "v1.0.0" Scenario.redis_dir (Some Scenario.redis_api)
                        Scenario.tag_fails eq_refl eq_refl) _).
    vm_compute. reflexivity.
  - vm_compute. reflexivity.
Defined.

Lemma no_delete_in_prefix (C : Collab) (api : GitHubAPI) (id : option (Json C))
  (l : list (Event C)) :
  forall plan, is_prefix (performed l) plan = true -> ~ In DeleteRelease plan ->
               forallb (deletes_only C api id) l = true.
Proof.
  unfold performed. induction l as [|e t IH]; intros plan H N; [reflexivity|].
  cbn [pick forallb] in *.
  destruct e as [line|cmd cap cwd res|method url hd data res| | | | | | | |];
    try (cbn in *; exact (IH plan H N)).
  - cbn [performs deletes_only] in *. destruct (git_action cmd).
    + destruct plan as [|b plan']; [discriminate H|]. cbn in H.
      apply andb_true_iff in H. destruct H as [_ H].
      cbn. apply (IH plan' H). intros X. apply N. right. exact X.
    + cbn. exact (IH plan H N).
  - cbn [performs deletes_only] in *. destruct (String.eqb method "DELETE").
    + destruct plan as [|b plan']; [discriminate H|]. cbn in H.
      apply andb_true_iff in H. destruct H as [Hb _].
      destruct b; try discriminate Hb. exfalso. apply N. left. reflexivity.
    + destruct (String.eqb method "POST").
      * destruct plan as [|b plan']; [discriminate H|]. cbn in H.
        apply andb_true_iff in H. destruct H as [_ H].
        cbn. apply (IH plan' H). intros X. apply N. right. exact X.
      * cbn. exact (IH plan H N).
Qed.

(** X18 -- A live [process_plugin] sends a DELETE request only to the
    address of the release its lookup has found, [releases/<id>] of the
    repository of the plugin; when the lookup found no release (or failed),
    it sends none. *)
Theorem deletes_only_the_release_found (C : Collab) (name rp version dir : string)
  (api : GitHubAPI) (w : World C) :
  let r := ReleasePlugins.process_plugin name rp version dir (Some api) false w in
  forallb (deletes_only C api (found_release (observe_release C api version w))) (log r)
  = true.
Proof.
  destruct api as [tok own rp' burl hdrs]; exec_run; intros ->;
    set (P := deletes_only C (mkGitHubAPI tok own rp' burl hdrs)
                (found_release
                   (observe_release C (mkGitHubAPI tok own rp' burl hdrs) version w)));
    try match goal with
        | F : is_prefix (pick performs ?l) ?plan = true |- _ =>
            let H := fresh "ND" in
            assert (H : forallb P l = true)
              by (apply (no_delete_in_prefix C _ _ l plan F); cbn; intuition discriminate);
            cbn [log forallb]; rewrite H
        end;
    subst P;
    unfold observe_release, found_release, deletes_only, endpoint_url;
    simp; repeat (progress known; simp); rewrite ?String.eqb_refl;
    try reflexivity.
  all: atoms_only; rewrite ?String.eqb_refl; try reflexivity.
Qed.

(** X19 -- With [--plugin <name>], every command of [release_plugins.py]
    runs in the directory [<name>] beside the directory of the script: no
    other plugin of the configuration is touched. *)
Theorem single_plugin_runs_in_its_checkout (C : Collab) (args : ReleasePlugins.Args)
  (name : string) :
  ReleasePlugins.args_plugin args = Some name ->
  Py.nonempty name = true ->
  every (runs_in (joinpath C (parent C (script_dir C)) name))
        (ReleasePlugins.main (C := C) args).
Proof.
  destruct args as [v t cfg plg dry]. cbn [ReleasePlugins.args_plugin].
  intros -> N. unfold ReleasePlugins.main. every_reduce.
  cbn [Py.truthy_opt]. rewrite N.
  do 4 (apply every_bind; [every_run_by ltac:(unfold runs_in; cbn; rewrite ?String.eqb_refl; try reflexivity) | intros ?]).
  apply every_bind; [every_run_by ltac:(unfold runs_in; cbn; rewrite ?String.eqb_refl; try reflexivity) | intros cfg0].
  apply (every_bind_post C _ _ _ (Forall (fun p => p_name p = name))).
  - every_run_by ltac:(unfold runs_in; cbn; rewrite ?String.eqb_refl; try reflexivity).
  - intros w l H.
    destruct (filter (fun p => String.eqb (p_name p) name) cfg0) as [|p rest] eqn:F.
    + repeat (apply outcome_bind_return in H; destruct H as (? & ? & _ & H)).
      discriminate H.
    + apply outcome_bind_return in H. destruct H as (? & ? & _ & H).
      injection H as <-. rewrite <- F. apply Forall_forall. intros q Hq.
      apply filter_In in Hq. destruct Hq as [_ Hq]. apply String.eqb_eq. exact Hq.
  - intros l Q.
    do 3 (apply every_bind; [every_run_by ltac:(unfold runs_in; cbn; rewrite ?String.eqb_refl; try reflexivity) | intros ?]).
    apply every_bind.
    + unfold ReleasePlugins.process_plugins. apply every_for_each_in.
      intros q s Hq. rewrite Forall_forall in Q. rewrite <- (Q q Hq).
      apply iteration_runs_in_its_checkout.
    + intros ?. every_run_by ltac:(unfold runs_in; cbn; rewrite ?String.eqb_refl; try reflexivity).
Qed.

(** [--plugin lynx-redis]: every command runs in the checkout of
    lynx-redis. *)
Lemma single_plugin_runs_in_its_checkout_witness :
  (ReleasePlugins.args_plugin (Cases.single "lynx-redis" false) = Some "lynx-redis"
   /\ Py.nonempty "lynx-redis" = true)
  /\ forallb (runs_in "/work/lynx-redis")
       (log (ReleasePlugins.main (C := Sim.collab) (Cases.single "lynx-redis" false)
               Scenario.fresh))
     = true.
Proof.
  split; [split; reflexivity|].
  exact (single_plugin_runs_in_its_checkout Sim.collab (Cases.single "lynx-redis" false)
           "lynx-redis" eq_refl eq_refl Scenario.fresh).
Defined.

(** X20 -- [--plugin <name>] with a name that no enabled entry of the
    configuration has: the run ends with status 1 after printing the name
    of every enabled plugin; it has run no command, sent no request and
    written nothing, and the world is as it was. *)
Theorem unknown_plugin_exits (C : Collab) (args : ReleasePlugins.Args) (name : string)
  (all : list PluginConfig) (w : World C) :
  ReleasePlugins.args_plugin args = Some name ->
  Py.nonempty name = true ->
  path_exists C (joinpath C (script_dir C) (ReleasePlugins.args_config args)) w = true ->
  load_plugins C (joinpath C (script_dir C) (ReleasePlugins.args_config args)) w
  = inr all ->
  (forall p, In p all -> p_enabled p = true -> p_name p <> name) ->
  let r := ReleasePlugins.main args w in
  outcome r = SystemExit 1
  /\ world r = w
  /\ forallb (non acts) (log r) = true
  /\ forall p, In p all -> p_enabled p = true -> In (EPrint ("  - " +++ p_name p)) (log r).
Proof.
  destruct args as [v t cfg plg dry]. cbn [ReleasePlugins.args_plugin ReleasePlugins.args_config].
  intros -> N E L U.
  assert (F : filter (fun p => String.eqb (p_name p) name) (filter p_enabled all) = []).
  { clear - U. induction all as [|x rest IH]; [reflexivity|].
    cbn [filter]. destruct (p_enabled x) eqn:Px.
    - cbn [filter]. destruct (String.eqb (p_name x) name) eqn:Ex.
      + apply String.eqb_eq in Ex. exfalso. apply (U x); [left; reflexivity|exact Px|exact Ex].
      + apply IH. intros p Hp. apply U. right. exact Hp.
    - apply IH. intros p Hp. apply U. right. exact Hp. }
  assert (I : forall p, In p all -> p_enabled p = true -> In p (filter p_enabled all)).
  { intros p Hp Pp. apply filter_In. split; assumption. }
  remember (filter p_enabled all) as en eqn:En.
  cut (let r := ReleasePlugins.main (ReleasePlugins.mkArgs v t cfg (Some name) dry) w in
       outcome r = SystemExit 1 /\ world r = w /\ forallb (non acts) (log r) = true
       /\ incl (map (fun p => EPrint (C := C) ("  - " +++ p_name p)) en) (log r)).
  { intros (H1 & H2 & H3 & H4). repeat split; try assumption.
    intros p Hp Pp. apply H4. apply (in_map (fun p => EPrint ("  - " +++ p_name p))).
    apply I; assumption. }
  unfold ReleasePlugins.main.
  cbn [ReleasePlugins.args_version ReleasePlugins.args_token ReleasePlugins.args_config
       ReleasePlugins.args_plugin ReleasePlugins.args_dry_run].
  cbv zeta.
  destruct (Py.startswith v "v"); cbn [negb]; look.
  all: destruct (Py.truthy_opt t); look.
  all: match goal with |- context [if ?c then _ ;; _ else ret tt] => destruct c end; look.
  all: destruct dry; look.
  all: destruct (load_plugins_config_loaded C _ all w E L) as (l & Hl & LP);
    rewrite <- En in LP.
  all: destruct en as [|q en'];
    [ unfold bind; rewrite LP; cbn [log world outcome]; repeat split;
      [exact Hl | intros x []]
    | eapply bind_after_looking; [exact LP | exact Hl | cbv beta] ].
  all: cbn [Py.truthy_opt]; rewrite N, F.
  all: erewrite bind_exits;
    [| unfold print_error, print_info; rewrite !bind_print, bind_for_each_print;
       unfold sys_exit; cbn [prepend app]; reflexivity].
  all: cbn [log world outcome]; rewrite app_nil_r.
  all: split; [reflexivity|]; split; [reflexivity|]; split.
  all: try (do 2 apply incl_tl; apply incl_refl).
  all: cbn [forallb]; generalize (q :: en'); intros ps;
    induction ps as [|x ps IH]; [reflexivity | exact IH].
Qed.

(** [--plugin lynx-kafka] where the configuration has lynx-redis only. *)
Lemma unknown_plugin_exits_witness :
  (ReleasePlugins.args_plugin (Cases.single "lynx-kafka" false) = Some "lynx-kafka"
   /\ Py.nonempty "lynx-kafka" = true
   /\ path_exists Sim.collab "/work/lynx/plugins.json" Scenario.fresh = true
   /\ load_plugins Sim.collab "/work/lynx/plugins.json" Scenario.fresh
      = inr [Scenario.redis])
  /\ outcome (ReleasePlugins.main (C := Sim.collab) (Cases.single "lynx-kafka" false)
                Scenario.fresh)
     = SystemExit 1
  /\ In (EPrint "  - lynx-redis")
        (log (ReleasePlugins.main (C := Sim.collab) (Cases.single "lynx-kafka" false)
                Scenario.fresh)).
Proof.
  assert (U : forall p, In p [Scenario.redis] -> p_enabled p = true ->
                        p_name p <> "lynx-kafka").
  { intros p [<- | []] _. discriminate. }
  pose proof (unknown_plugin_exits Sim.collab (Cases.single "lynx-kafka" false)
                "lynx-kafka" [Scenario.redis] Scenario.fresh
                eq_refl eq_refl eq_refl eq_refl U) as (H1 & _ & _ & H4).
  split; [repeat split|]. split; [exact H1|].
  apply (H4 Scenario.redis); [left; reflexivity | reflexivity].
Defined.

(** X21 -- [release_main.py] from the point where owner, repository and
    token are known: every request goes to an address below
    [https://api.github.com/repos/<owner>/<repo>/], with [Accept] and the
    [Authorization] of the token. *)
Theorem main_asks_its_repository (C : Collab) (version own rp : string)
  (tk : option string) (dry_run : bool) :
  every (asks_repository own rp
           (match tk with Some tok => tok | None => EmptyString end))
        (ReleaseMain.main_with_token (C := C) version own rp tk dry_run).
Proof.
  unfold ReleaseMain.main_with_token.
  destruct tk as [tok|]; [destruct (Py.nonempty tok)|].
  all: every_run_by
         ltac:(unfold asks_repository, authorization, endpoint_url;
               cbn [base_url owner repo headers token GitHubAPI_init];
               rewrite ?prefix_repo_url, ?String.eqb_refl; cbn;
               rewrite ?String.eqb_refl;
               repeat match goal with
                      | |- context [String.eqb ?a ?b] => destruct (String.eqb a b); cbn
                      | |- context [Py.startswith ?a ?b] =>
                          destruct (Py.startswith a b); cbn
                      end;
               rewrite ?String.eqb_refl; try reflexivity).
Qed.



(** *** The pattern of the repository *)

(** Case analysis on the first characters of a string, as far as the
    pattern looks at them. *)
Ltac crack :=
  repeat (unfold Re.not_slash, Re.not_newline in *;
          cbn [Re.exec Re.drop_prefix Re.at_end String.append all_in andb negb] in *;
          match goal with
          | |- None = None => reflexivity
          | H : false = true |- _ => discriminate H
          | H : ?x <> ?x |- _ => exfalso; apply H; reflexivity
          | H : (_ && _)%bool = true |- _ =>
              apply andb_true_iff in H; destruct H
          | H : negb (Ascii.eqb ?a ?a) = true |- _ => rewrite Ascii.eqb_refl in H
          | |- context [Ascii.eqb ?a ?b] =>
              first [ first [is_var a | is_var b]; destruct (Ascii.eqb_spec a b); subst
                    | let v := eval vm_compute in (Ascii.eqb a b) in
                      change (Ascii.eqb a b) with v ]
          | H : context [Ascii.eqb ?a ?b] |- _ =>
              let v := eval vm_compute in (Ascii.eqb a b) in
              progress change (Ascii.eqb a b) with v in H
          | |- context [match ?s with EmptyString => _ | String _ _ => _ end] =>
              is_var s; destruct s
          | |- context [String.append ?s _] => is_var s; destruct s
          end).

Lemma tail_fails_git (a : string) :
  a <> EmptyString -> all_in Re.not_slash a = true ->
  Re.exec [Re.Opt ".git"; Re.Opt "/"; Re.Eos] (a +++ ".git") = None.
Proof. intros N A. crack. Qed.

Lemma tail_fails_plain (a : string) :
  a <> EmptyString -> a <> ".git" ->
  all_in Re.not_slash a = true -> all_in Re.not_newline a = true ->
  Re.exec [Re.Opt ".git"; Re.Opt "/"; Re.Eos] a = None.
Proof. intros N G A B. crack. Qed.

Lemma is_name_cases (s : string) :
  is_name s = true -> exists c t, s = String c t /\ all_in Re.not_slash s = true.
Proof.
  unfold is_name. intros H. apply andb_true_iff in H. destruct H as [N S].
  destruct s as [|c t]; [discriminate N|]. exists c, t. split; [reflexivity|].
  apply negb_true_iff in S. clear N. revert S. generalize (String c t). intros s.
  induction s as [|d u IH]; [reflexivity|]. cbn. unfold Re.not_slash.
  destruct (Ascii.eqb d "/"); cbn; [discriminate|exact IH].
Qed.

(** The pattern on [github.com], a separator, an owner, a repository and
    what may follow it. *)
Lemma exec_repo_pattern (sep : ascii) (owner repo suffix after : string) :
  Re.colon_or_slash sep = true ->
  is_name owner = true -> is_name repo = true ->
  (forall a1 a2, repo = a1 +++ a2 -> a1 <> EmptyString -> a2 <> EmptyString ->
                 Re.exec [Re.Opt ".git"; Re.Opt "/"; Re.Eos] (a2 +++ suffix) = None) ->
  Re.exec [Re.Opt ".git"; Re.Opt "/"; Re.Eos] suffix = Some ([], after) ->
  Re.exec Re.repo_pattern
    ("github.com" +++ String sep (owner +++ "/" +++ repo +++ suffix))
  = Some ([owner; repo], after).
Proof.
  intros Hsep Ho Hr Hsplit Hend.
  destruct (is_name_cases owner Ho) as (o & owner' & -> & Ao).
  destruct (is_name_cases repo Hr) as (c & repo' & -> & Ar).
  cbn in Ao, Ar. apply andb_true_iff in Ao, Ar. destruct Ao as [Ao Ao'], Ar as [Ar Ar'].
  unfold Re.repo_pattern.
  remember [Re.Opt ".git"; Re.Opt "/"; Re.Eos] as tail eqn:Et.
  cbn [String.append Re.exec Ascii.eqb Bool.eqb]. rewrite Hsep, Ao.
  apply star_run; [exact Ao'|].
  cbn [String.append Re.star]. unfold Re.not_slash at 1. cbn [Ascii.eqb Bool.eqb negb].
  cbn [Re.exec Ascii.eqb Bool.eqb]. rewrite Ar.
  rewrite lazy_star_run; [| exact Ar' |].
  - rewrite (lazy_star_now _ _ _ _ ([String c repo'], after)); [reflexivity|].
    rewrite Hend. reflexivity.
  - intros a1 a2 E N. rewrite (Hsplit (String c a1) a2); [reflexivity | | discriminate | exact N].
    cbn. rewrite E. reflexivity.
Qed.

Lemma endswith_app (a s : string) : endswith (a +++ s) s = true.
Proof.
  induction a as [|c t IH]; cbn [String.append].
  - destruct s; cbn; rewrite ?Ascii.eqb_refl, ?String.eqb_refl; reflexivity.
  - cbn [endswith]. rewrite IH. apply orb_true_r.
Qed.

Lemma search_https (x : string) (r : Re.found) :
  Re.exec Re.repo_pattern ("github.com" +++ x) = Some r ->
  Re.search Re.repo_pattern ("https://" +++ "github.com" +++ x) = Some ("https://", r).
Proof.
  intros H. cbn [String.append].
  do 8 (rewrite search_skip by reflexivity).
  rewrite (search_here _ _ r); [reflexivity | exact H].
Qed.

Lemma search_ssh (x : string) (r : Re.found) :
  Re.exec Re.repo_pattern ("github.com" +++ x) = Some r ->
  Re.search Re.repo_pattern ("git@" +++ "github.com" +++ x) = Some ("git@", r).
Proof.
  intros H. cbn [String.append].
  do 4 (rewrite search_skip by reflexivity).
  rewrite (search_here _ _ r); [reflexivity | exact H].
Qed.

(** X23 -- [parse_github_repo] on the three forms of address the scripts
    name ([https://github.com/owner/repo.git], [git@github.com:owner/repo.git],
    [https://github.com/owner/repo]): for an owner and a repository that are
    not empty and have no ['/'], it gives back that owner and that
    repository; the [.git] at the end is dropped.  Without [.git] in the
    address the repository must not itself end in [.git] (that would be
    dropped) nor hold a newline. *)
Theorem parse_github_repo_formats (C : Collab) (owner repo : string) :
  is_name owner = true -> is_name repo = true ->
  ReleaseMain.parse_github_repo (C := with_re C)
    ("https://github.com/" +++ owner +++ "/" +++ repo +++ ".git")
  = (Some owner, Some repo)
  /\ ReleaseMain.parse_github_repo (C := with_re C)
       ("git@github.com:" +++ owner +++ "/" +++ repo +++ ".git")
     = (Some owner, Some repo)
  /\ (endswith repo ".git" = false -> all_in Re.not_newline repo = true ->
      ReleaseMain.parse_github_repo (C := with_re C)
        ("https://github.com/" +++ owner +++ "/" +++ repo)
      = (Some owner, Some repo)).
Proof.
  intros Ho Hr.
  destruct (is_name_cases repo Hr) as (c & repo' & E & Ar).
  assert (G : forall a1 a2, repo = a1 +++ a2 -> a1 <> EmptyString -> a2 <> EmptyString ->
                Re.exec [Re.Opt ".git"; Re.Opt "/"; Re.Eos] (a2 +++ ".git") = None).
  { intros a1 a2 Ea _ N. apply tail_fails_git; [exact N|].
    rewrite Ea, all_in_app in Ar. apply andb_true_iff in Ar. apply Ar. }
  unfold ReleaseMain.parse_github_repo. cbn [re_search_repo with_re]. unfold Re.search_repo.
  split; [|split].
  - change ("https://github.com/" +++ owner +++ "/" +++ repo +++ ".git")
      with ("https://" +++ "github.com" +++ String "/" (owner +++ "/" +++ repo +++ ".git")).
    rewrite (search_https _ ([owner; repo], EmptyString)); [reflexivity|].
    apply exec_repo_pattern; try assumption; reflexivity.
  - change ("git@github.com:" +++ owner +++ "/" +++ repo +++ ".git")
      with ("git@" +++ "github.com" +++ String ":" (owner +++ "/" +++ repo +++ ".git")).
    rewrite (search_ssh _ ([owner; repo], EmptyString)); [reflexivity|].
    apply exec_repo_pattern; try assumption; reflexivity.
  - intros Hg Hn.
    change ("https://github.com/" +++ owner +++ "/" +++ repo)
      with ("https://" +++ "github.com" +++ String "/" (owner +++ "/" +++ repo)).
    rewrite <- (append_nil_r repo) at 1.
    rewrite (search_https _ ([owner; repo], EmptyString)); [reflexivity|].
    apply exec_repo_pattern; try assumption; try reflexivity.
    intros a1 a2 Ea N1 N2. rewrite append_nil_r.
    rewrite Ea, all_in_app in Ar, Hn. apply andb_true_iff in Ar, Hn.
    apply tail_fails_plain; [exact N2 | | apply Ar | apply Hn].
    intros ->. rewrite Ea, endswith_app in Hg. discriminate Hg.
Qed.

Lemma exec_repo_prefix (s : string) :
  String.prefix "github.com" s = false -> Re.exec Re.repo_pattern s = None.
Proof.
  unfold Re.repo_pattern.
  remember [Re.One Re.colon_or_slash; Re.Plus true Re.not_slash true; Re.Lit "/";
            Re.Plus false Re.not_slash true; Re.Opt ".git"; Re.Opt "/"; Re.Eos] as rest.
  intros H.
  repeat (destruct s as [|? s]; cbn [Re.exec]; [reflexivity|];
          match goal with
          | |- context [Ascii.eqb ?a ?b] =>
              let E := fresh "E" in
              destruct (Ascii.eqb_spec a b) as [E|]; [rewrite <- E in *; clear E|reflexivity]
          end).
  pose proof (eq_trans (prefix_append "github.com" EmptyString s) (prefix_empty s)) as T.
  change (String.prefix "github.com" ("github.com" +++ s) = true) in T.
  change (String.prefix "github.com" ("github.com" +++ s) = false) in H.
  rewrite T in H. discriminate H.
Qed.

Lemma search_mentions (s : string) :
  mentions "github.com" s = false -> Re.search Re.repo_pattern s = None.
Proof.
  induction s as [|c t IH]; intros H.
  - reflexivity.
  - cbn [mentions] in H. apply orb_false_iff in H. destruct H as [H1 H2].
    rewrite search_skip by (apply exec_repo_prefix; exact H1).
    rewrite (IH H2). reflexivity.
Qed.

Lemma parse_needs_github (C : Collab) (url : string) :
  mentions "github.com" url = false ->
  ReleaseMain.parse_github_repo (C := with_re C) url = (None, None).
Proof.
  intros H. unfold ReleaseMain.parse_github_repo. cbn [re_search_repo with_re].
  unfold Re.search_repo. rewrite (search_mentions url H). reflexivity.
Qed.

(** X24 -- Unless [git remote get-url origin] returned 0 and the URL it
    printed mentions [github.com], [release_main.py] does nothing but print,
    run git commands that change nothing and go to the root of the working
    tree: no question, no look at the environment or at a file, no request,
    no command that tags, pushes, adds or commits. *)
Theorem main_needs_a_github_remote (C : Collab) (args : ReleaseMain.Args) :
  gated github_remote needs_repository (ReleaseMain.main (C := with_re C) args).
Proof.
  destruct args as [v t dry]. unfold ReleaseMain.main. gate_reduce.
  do 2 (apply gated_bind_block; [solve [every_run_by ltac:(unfold non, needs_repository, github_remote, git_mutating; cbn; try reflexivity)] | intros ?]; gate_reduce).
  apply gated_bind_run_cmd; [intros ?; unfold non, needs_repository, github_remote, git_mutating; cbn;
     try reflexivity | intros [code out err] _; gate_reduce].
  cbn [returncode stdout stderr].
  do 2 (apply gated_bind_block; [solve [every_run_by ltac:(unfold non, needs_repository, github_remote, git_mutating; cbn; try reflexivity)] | intros ?]; gate_reduce).
  unfold ReleaseMain.get_git_remote_url. apply gated_bind_assoc.
  apply gated_bind_run_cmd; [intros ?; unfold non, needs_repository, github_remote, git_mutating; cbn;
     try reflexivity | intros [code' out' err'] H; gate_reduce].
  cbn [returncode stdout stderr] in *.
  unfold github_remote in H. cbn [same_words String.eqb Ascii.eqb Bool.eqb andb returncode stdout] in H.
  destruct (code' =? 0); cbn [andb] in H; gate_reduce.
  all: apply gated_bind_ret; gate_reduce.
  2: { cbn [Py.nonempty]. apply gated_non. every_run_by ltac:(unfold non, needs_repository, github_remote, git_mutating; cbn; try reflexivity). }
  fold (remote_url_of out'). rewrite (parse_needs_github C _ H).
  destruct (Py.nonempty (remote_url_of out')); gate_reduce;
    apply gated_non; every_run_by ltac:(unfold non, needs_repository, github_remote, git_mutating; cbn; try reflexivity).
Qed.

(** *** The leftmost match *)

Lemma search_some (p : list Re.item) (s : string) :
  forall before r,
    Re.search p s = Some (before, r) ->
    exists m, s = before +++ m /\ Re.exec p m = Some r
              /\ forall u1 u2, before = u1 +++ u2 -> u2 <> EmptyString ->
                               Re.exec p (u2 +++ m) = None.
Proof.
  induction s as [|c t IH]; intros before r H; cbn [Re.search] in H.
  - destruct (Re.exec p EmptyString) as [r'|] eqn:E; [|discriminate H].
    injection H as <- <-. exists EmptyString. repeat split; try assumption.
    intros u1 u2 Eu N. destruct u1; destruct u2; try discriminate Eu. contradiction.
  - destruct (Re.exec p (String c t)) as [r'|] eqn:E.
    + injection H as <- <-. exists (String c t). repeat split; try assumption.
      intros u1 u2 Eu N. destruct u1; destruct u2; try discriminate Eu. contradiction.
    + destruct (Re.search p t) as [[b r']|] eqn:S; [|discriminate H].
      injection H as <- <-. destruct (IH b r' eq_refl) as (m & -> & Em & L).
      exists m. repeat split; try assumption.
      intros u1 u2 Eu N. destruct u1 as [|d u1'].
      * cbn in Eu. subst u2. exact E.
      * cbn in Eu. injection Eu as _ Eu. apply (L u1' u2 Eu N).
Qed.

Lemma search_intro (p : list Re.item) (m : string) (r : Re.found) (before : string) :
  Re.exec p m = Some r ->
  (forall u1 u2, before = u1 +++ u2 -> u2 <> EmptyString ->
                 Re.exec p (u2 +++ m) = None) ->
  Re.search p (before +++ m) = Some (before, r).
Proof.
  intros Em. induction before as [|c t IH]; intros L.
  - apply search_here. exact Em.
  - cbn [String.append]. rewrite search_skip.
    + rewrite IH; [reflexivity|]. intros u1 u2 E N. apply (L (String c u1) u2); [|exact N].
      cbn. rewrite E. reflexivity.
    + apply (L EmptyString (String c t)); [reflexivity | discriminate].
Qed.

(** *** Greedy stars *)

Lemma star_got (cls : ascii -> bool) (k : string -> string -> option Re.found) :
  (forall g g' x, k g x = k g' x) ->
  forall x g g', Re.star cls k g x = Re.star cls k g' x.
Proof.
  intros Hk. induction x as [|c t IH]; intros g g'; cbn [Re.star].
  - apply Hk.
  - rewrite (IH (g +++ String c EmptyString) (g' +++ String c EmptyString)), (Hk g g').
    reflexivity.
Qed.

Lemma star_prefix_some (cls : ascii -> bool) (k : string -> string -> option Re.found)
  (a : string) :
  (forall g g' x, k g x = k g' x) ->
  forall g g' x r,
    all_in cls a = true ->
    Re.star cls k g' x = Some r ->
    Re.star cls k g (a +++ x) = Some r.
Proof.
  intros Hk. induction a as [|c t IH]; intros g g' x r A H.
  - cbn [String.append]. rewrite (star_got cls k Hk x g g'). exact H.
  - cbn in A. apply andb_true_iff in A. destruct A as [Hc Ht].
    cbn [String.append Re.star]. rewrite Hc.
    rewrite (IH _ g' x r Ht H). reflexivity.
Qed.

Lemma star_some_inv (cls : ascii -> bool) (k : string -> string -> option Re.found) :
  forall x g r, Re.star cls k g x = Some r -> exists g' x', k g' x' = Some r.
Proof.
  induction x as [|c t IH]; intros g r H; cbn [Re.star] in H.
  - eauto.
  - destruct (cls c); [|eauto].
    destruct (Re.star cls k (g +++ String c EmptyString) t) as [r'|] eqn:E.
    + injection H as <-. apply (IH _ _ E).
    + eauto.
Qed.

(** *** The pattern of the version *)

Lemma isspace_not_digit (c : ascii) :
  Py.isspace c = true -> Re.digit_or_dot c = false.
Proof.
  destruct c as [[|] [|] [|] [|] [|] [|] [|] [|]]; vm_compute; intros H;
    first [reflexivity | discriminate H].
Qed.

Lemma at_end_isspace (x : string) : Re.at_end x = true -> all_in Py.isspace x = true.
Proof.
  destruct x as [|c [|d t]]; cbn; try discriminate; [reflexivity|].
  intros H. apply Ascii.eqb_eq in H. subst c. reflexivity.
Qed.

(** [\s*$] *)
Lemma exec_end_some (trail : string) :
  all_in Py.isspace trail = true ->
  Re.exec [Re.Star Py.isspace; Re.Eos] trail = Some ([], EmptyString).
Proof.
  intros A. cbn [Re.exec]. rewrite <- (append_nil_r trail).
  apply star_run; [exact A|]. reflexivity.
Qed.

Lemma exec_end_none (x : string) :
  all_in Py.isspace x = false ->
  Re.exec [Re.Star Py.isspace; Re.Eos] x = None.
Proof.
  intros A. cbn [Re.exec].
  apply (star_none Py.isspace _ (fun x => all_in Py.isspace x = false)); [| |exact A].
  - intros c t Hc H. cbn in H. rewrite Hc in H. exact H.
  - intros g y H. destruct (Re.at_end y) eqn:E; [|reflexivity].
    rewrite (at_end_isspace y E) in H. discriminate H.
Qed.

Lemma exec_end_result (x : string) (r : Re.found) :
  Re.exec [Re.Star Py.isspace; Re.Eos] x = Some r -> r = ([], EmptyString).
Proof.
  cbn [Re.exec]. generalize EmptyString at 1. induction x as [|c t IH]; intros g H.
  - cbn in H. injection H as <-. reflexivity.
  - cbn [Re.star] in H. destruct (Py.isspace c) eqn:Hc.
    + destruct (Re.star Py.isspace (fun _ rest => if Re.at_end rest then Some ([], rest) else None)
                  (g +++ String c EmptyString) t) as [r'|] eqn:E.
      * injection H as <-. apply (IH _ E).
      * destruct t as [|d t']; [cbn in E; discriminate E|]. cbn in H. discriminate H.
    + destruct (Re.at_end (String c t)) eqn:E; [|discriminate H].
      apply at_end_isspace in E. cbn in E. rewrite Hc in E. discriminate E.
Qed.

(** [[\d.]+\s*$] on digits and dots, then white space to the end. *)
Lemma exec_digits_some (digits trail : string) :
  Py.nonempty digits = true -> all_in Re.digit_or_dot digits = true ->
  all_in Py.isspace trail = true ->
  Re.exec [Re.Plus true Re.digit_or_dot false; Re.Star Py.isspace; Re.Eos]
    (digits +++ trail)
  = Some ([], EmptyString).
Proof.
  intros N A T. destruct digits as [|d digits']; [discriminate N|].
  cbn in A. apply andb_true_iff in A. destruct A as [Hd A].
  remember [Re.Star Py.isspace; Re.Eos] as tail eqn:Et.
  cbn [String.append Re.exec]. rewrite Hd.
  apply star_run; [exact A|].
  assert (E : Re.exec tail trail = Some ([], EmptyString)) by (subst tail; apply exec_end_some; exact T).
  destruct trail as [|c t]; cbn [Re.star]; [rewrite E; reflexivity|].
  cbn in T. apply andb_true_iff in T. destruct T as [Hc _].
  rewrite (isspace_not_digit c Hc), E. reflexivity.
Qed.


Lemma is_version_text_cases (ws digits trail : string) :
  is_version_text ws digits trail = true ->
  Py.nonempty ws = true /\ all_in Py.isspace ws = true
  /\ Py.nonempty digits = true /\ all_in Re.digit_or_dot digits = true
  /\ all_in Py.isspace trail = true.
Proof.
  unfold is_version_text. intros H.
  repeat (apply andb_true_iff in H; destruct H as [H ?]). repeat split; assumption.
Qed.

(** The pattern matches the text of a version. *)
Lemma exec_version_some (ws digits trail : string) :
  is_version_text ws digits trail = true ->
  Re.exec Re.version_pattern (ws +++ "v" +++ digits +++ trail) = Some ([], EmptyString).
Proof.
  intros H. apply is_version_text_cases in H. destruct H as (Nw & Aw & Nd & Ad & At).
  destruct ws as [|c ws']; [discriminate Nw|].
  cbn in Aw. apply andb_true_iff in Aw. destruct Aw as [Hc Aw].
  unfold Re.version_pattern.
  remember [Re.Plus true Re.digit_or_dot false; Re.Star Py.isspace; Re.Eos] as tail eqn:Et.
  cbn [String.append Re.exec]. rewrite Hc.
  apply star_run; [exact Aw|].
  cbn [String.append Re.star]. 
  replace (Py.isspace "v") with false by reflexivity.
  cbn [Re.exec Ascii.eqb Bool.eqb]. subst tail.
  rewrite (exec_digits_some digits trail Nd Ad At). reflexivity.
Qed.

(** After digits and dots, [\s*$] fails before the text of a version. *)
Lemma exec_digits_none (y ws digits trail : string) :
  is_version_text ws digits trail = true ->
  Re.exec [Re.Plus true Re.digit_or_dot false; Re.Star Py.isspace; Re.Eos]
    (y +++ ws +++ "v" +++ digits +++ trail)
  = None.
Proof.
  intros H. apply is_version_text_cases in H. destruct H as (Nw & Aw & Nd & Ad & At).
  set (W := ws +++ "v" +++ digits +++ trail).
  assert (HW : forall z, all_in Py.isspace (z +++ W) = false).
  { intros z. unfold W. rewrite !all_in_app. cbn [all_in].
    replace (Py.isspace "v") with false by reflexivity.
    rewrite andb_false_l, !andb_false_r. reflexivity. }
  assert (W0 : exists c t, W = String c t /\ Py.isspace c = true).
  { unfold W. destruct ws as [|c ws']; [discriminate Nw|].
    cbn in Aw. apply andb_true_iff in Aw. destruct Aw as [Hc _].
    exists c, (ws' +++ "v" +++ digits +++ trail). split; [reflexivity | exact Hc]. }
  remember [Re.Star Py.isspace; Re.Eos] as tail eqn:Et.
  destruct y as [|d y'].
  - destruct W0 as (c & t & -> & Hc). cbn [String.append Re.exec].
    rewrite (isspace_not_digit c Hc). reflexivity.
  - cbn [String.append Re.exec]. destruct (Re.digit_or_dot d); [|reflexivity].
    apply (star_none Re.digit_or_dot _ (fun x => exists z, x = z +++ W)).
    + intros c t Hc (z & E). destruct z as [|c' z'].
      * destruct W0 as (c0 & t0 & E0 & Hc0). cbn in E. rewrite E0 in E.
        injection E as -> _. rewrite (isspace_not_digit c0 Hc0) in Hc. discriminate Hc.
      * cbn in E. injection E as _ ->. exists z'. reflexivity.
    + intros g x (z & ->). subst tail. rewrite (exec_end_none _ (HW z)). reflexivity.
    + exists y'. reflexivity.
Qed.

(** The pattern does not match where something that is no white space comes
    before the text of a version. *)
Lemma exec_version_none (u ws digits trail : string) :
  all_in Py.isspace u = false ->
  is_version_text ws digits trail = true ->
  Re.exec Re.version_pattern (u +++ ws +++ "v" +++ digits +++ trail) = None.
Proof.
  intros U H. pose proof (exec_digits_none) as D.
  set (W := ws +++ "v" +++ digits +++ trail) in *.
  unfold Re.version_pattern.
  remember [Re.Plus true Re.digit_or_dot false; Re.Star Py.isspace; Re.Eos] as tail eqn:Et.
  assert (K : forall y, all_in Py.isspace y = false ->
                        Re.exec (Re.Lit "v" :: tail) (y +++ W) = None).
  { intros y Hy. destruct y as [|d y']; [discriminate Hy|].
    cbn [String.append Re.exec]. destruct (Ascii.eqb "v" d); [|reflexivity].
    subst tail. apply (D y' ws digits trail H). }
  remember (Re.Lit "v" :: tail) as vtail eqn:Ev.
  destruct u as [|c u']; [discriminate U|].
  cbn [String.append Re.exec]. destruct (Py.isspace c) eqn:Hc; [|reflexivity].
  cbn in U. rewrite Hc in U. cbn in U.
  apply (star_none Py.isspace _
           (fun x => exists y, x = y +++ W /\ all_in Py.isspace y = false)).
  - intros d t Hd (y & E & Hy). destruct y as [|d' y']; [discriminate Hy|].
    cbn in E. injection E as <- ->. cbn in Hy. rewrite Hd in Hy. cbn in Hy.
    exists y'. split; [reflexivity | exact Hy].
  - intros g x (y & -> & Hy). rewrite (K y Hy). reflexivity.
  - exists u'. split; [reflexivity | exact U].
Qed.




(** A match of the pattern goes to the end of the string. *)
Lemma exec_version_result (m : string) (r : Re.found) :
  Re.exec Re.version_pattern m = Some r -> r = ([], EmptyString).
Proof.
  unfold Re.version_pattern.
  remember [Re.Star Py.isspace; Re.Eos] as tail eqn:Et.
  remember (Re.Plus true Re.digit_or_dot false :: tail) as dtail eqn:Ed.
  remember (Re.Lit "v" :: dtail) as vtail eqn:Ev.
  intros H. destruct m as [|c t]; cbn [Re.exec] in H; [discriminate H|].
  destruct (Py.isspace c); [|discriminate H].
  apply star_some_inv in H. destruct H as (g & x & H).
  destruct (Re.exec vtail x) as [[gs after]|] eqn:E1; [|discriminate H].
  injection H as <-. subst vtail.
  destruct x as [|d x']; cbn [Re.exec] in E1; [discriminate E1|].
  destruct (Ascii.eqb "v" d); [|discriminate E1]. subst dtail.
  destruct x' as [|e x'']; cbn [Re.exec] in E1; [discriminate E1|].
  destruct (Re.digit_or_dot e); [|discriminate E1].
  apply star_some_inv in E1. destruct E1 as (g' & y & E1).
  destruct (Re.exec tail y) as [[gs' after']|] eqn:E2; [|discriminate E1].
  injection E1 as <- <-. subst tail. apply exec_end_result in E2. exact E2.
Qed.

(** White space before a match is part of a match. *)
Lemma exec_version_extends (u m : string) (r : Re.found) :
  Py.nonempty u = true -> all_in Py.isspace u = true ->
  Re.exec Re.version_pattern m = Some r ->
  Re.exec Re.version_pattern (u +++ m) = Some r.
Proof.
  unfold Re.version_pattern.
  remember (Re.Lit "v" :: [Re.Plus true Re.digit_or_dot false; Re.Star Py.isspace; Re.Eos])
    as vtail eqn:Ev.
  intros N A H. destruct u as [|d u']; [discriminate N|].
  cbn in A. apply andb_true_iff in A. destruct A as [Hd A].
  destruct m as [|c t]; cbn [Re.exec] in H; [discriminate H|].
  destruct (Py.isspace c) eqn:Hc; [|discriminate H].
  cbn [String.append Re.exec]. rewrite Hd.
  replace (u' +++ String c t) with ((u' +++ String c EmptyString) +++ t)
    by (rewrite append_assoc; reflexivity).
  eapply star_prefix_some; [intros; reflexivity | | exact H].
  rewrite all_in_app, A. cbn. rewrite Hc. reflexivity.
Qed.

(** [re.sub] with the text of a version as the replacement: once is
    enough. *)
Lemma sub_version_idempotent (digits content : string) :
  Py.nonempty digits = true -> all_in Re.digit_or_dot digits = true ->
  let repl := " " +++ "v" +++ digits +++ Py.nl in
  Re.sub_version repl (Re.sub_version repl content) = Re.sub_version repl content.
Proof.
  intros N A repl.
  assert (V : is_version_text " " digits Py.nl = true).
  { unfold is_version_text. rewrite N, A. reflexivity. }
  unfold Re.sub_version.
  destruct (Re.search Re.version_pattern content) as [[before [gs after]]|] eqn:S.
  - destruct (search_some _ _ _ _ S) as (m & -> & Em & L).
    apply exec_version_result in Em as R. injection R as -> ->.
    assert (E1 : Re.sub1 Re.version_pattern repl (before +++ m) = before +++ repl).
    { unfold Re.sub1. rewrite S, append_nil_r. reflexivity. }
    rewrite E1. unfold Re.sub1, repl.
    rewrite search_intro with (r := ([], EmptyString)).
    + rewrite append_nil_r. reflexivity.
    + apply (exec_version_some " " digits Py.nl V).
    + intros u1 u2 E Nu. apply (exec_version_none u2 " " digits Py.nl); [|exact V].
      destruct (all_in Py.isspace u2) eqn:W; [|reflexivity].
      assert (Nu' : Py.nonempty u2 = true) by (destruct u2; [contradiction|reflexivity]).
      specialize (L u1 u2 E Nu).
      rewrite (exec_version_extends u2 m _ Nu' W Em) in L. discriminate L.
  - assert (E1 : Re.sub1 Re.version_pattern repl content = content).
    { unfold Re.sub1. rewrite S. reflexivity. }
    rewrite !E1. reflexivity.
Qed.


(** X26 -- For a version of digits and dots, [sync_banner_version] is
    idempotent: on a banner that a sync to that version has produced
    (whatever the banner was before), it finds nothing to change, returns
    [False] and writes nothing, live or not. *)
Theorem banner_sync_is_idempotent (C : Collab) (digits content : string) (dry_run : bool)
  (w : World C) :
  Py.nonempty digits = true -> all_in Re.digit_or_dot digits = true ->
  path_isfile C (banner_path C) w = true ->
  read_text C (banner_path C) w
  = Some (Re.sub_version (" " +++ ("v" +++ digits) +++ Py.nl) content) ->
  let r := ReleaseMain.sync_banner_version (C := with_re C) ("v" +++ digits) dry_run w in
  outcome r = Return false
  /\ world r = w
  /\ forallb only_looks (log r) = true.
Proof.
  intros N A F R r. subst r.
  unfold ReleaseMain.sync_banner_version, banner_path in *.
  unfold isfile, read_file, query, write_file, call, bind, ret, print_info, print_success,
    print_warning, print.
  cbn [script_dir joinpath path_isfile read_text write_text re_sub_version with_re].
  rewrite F. cbn [negb]. rewrite R. cbn [prepend app].
  change (" " +++ ("v" +++ digits) +++ Py.nl) with (" " +++ "v" +++ digits +++ Py.nl).
  rewrite (sub_version_idempotent digits content N A), String.eqb_refl.
  repeat split.
Qed.

(** The three forms, for go-lynx/lynx. *)
Lemma parse_github_repo_formats_witness :
  (is_name "go-lynx" = true /\ is_name "lynx" = true)
  /\ ReleaseMain.parse_github_repo (C := with_re Sim.collab)
       "https://github.com/go-lynx/lynx.git"
     = (Some "go-lynx", Some "lynx")
  /\ ReleaseMain.parse_github_repo (C := with_re Sim.collab)
       "git@github.com:go-lynx/lynx.git"
     = (Some "go-lynx", Some "lynx")
  /\ ReleaseMain.parse_github_repo (C := with_re Sim.collab)
       "https://github.com/go-lynx/lynx"
     = (Some "go-lynx", Some "lynx").
Proof.
  pose proof (parse_github_repo_formats Sim.collab "go-lynx" "lynx" eq_refl eq_refl)
    as (H1 & H2 & H3).
  split; [split; reflexivity|]. split; [exact H1|]. split; [exact H2|].
  exact (H3 eq_refl eq_refl).
Defined.


(** The banner "lynx v1.0.0" is what a sync to v1.0.0 makes of
    "lynx v0.9.0": the next sync to v1.0.0 leaves it alone. *)
Lemma banner_sync_is_idempotent_witness :
  (Py.nonempty "1.0.0" = true /\ all_in Re.digit_or_dot "1.0.0" = true
   /\ path_isfile Sim.collab (banner_path Sim.collab) Cases.synced_banner = true
   /\ read_text Sim.collab (banner_path Sim.collab) Cases.synced_banner
      = Some (Re.sub_version (" " +++ ("v" +++ "1.0.0") +++ Py.nl) ("lynx v0.9.0" +++ Py.nl)))
  /\ outcome (ReleaseMain.sync_banner_version (C := with_re Sim.collab) "v1.0.0" false
                Cases.synced_banner)
     = Return false.
Proof.
  split; [repeat split|].
  exact (proj1 (banner_sync_is_idempotent Sim.collab "1.0.0" ("lynx v0.9.0" +++ Py.nl) false
                  Cases.synced_banner eq_refl eq_refl eq_refl eq_refl)).
Defined.

(** ** The token *)

Lemma main_loop_body_uses_token (C : Collab) (root version tok : string)
  (dry_run : bool) (p : PluginConfig) (st : nat * list string) :
  Py.nonempty tok = true ->
  every (uses_token tok)
        (ReleasePlugins.main_loop_body (C := C) root version (Some tok) dry_run p st).
Proof.
  intros T. unfold ReleasePlugins.main_loop_body. destruct st as [n f].
  apply every_bind; [every_run_by ltac:(unfold uses_token, authorization, endpoint_url;
               cbn [base_url owner repo headers token GitHubAPI_init]; cbn;
               rewrite ?String.eqb_refl;
               repeat match goal with
                      | |- context [Py.startswith ?a ?b] =>
                          destruct (Py.startswith a b); cbn
                      end;
               rewrite ?String.eqb_refl; try reflexivity)|]. intros ex.
  destruct (negb ex); [every_run_by ltac:(unfold uses_token, authorization, endpoint_url;
               cbn [base_url owner repo headers token GitHubAPI_init]; cbn;
               rewrite ?String.eqb_refl;
               repeat match goal with
                      | |- context [Py.startswith ?a ?b] =>
                          destruct (Py.startswith a b); cbn
                      end;
               rewrite ?String.eqb_refl; try reflexivity)|]. rewrite T.
  destruct (split1_cases (p_repo p)) as [[H S] | (o & m & H & S & E & Ho)]; rewrite S.
  - eapply every_bind_try_raise; [reflexivity|]. every_run_by ltac:(unfold uses_token, authorization, endpoint_url;
               cbn [base_url owner repo headers token GitHubAPI_init]; cbn;
               rewrite ?String.eqb_refl;
               repeat match goal with
                      | |- context [Py.startswith ?a ?b] =>
                          destruct (Py.startswith a b); cbn
                      end;
               rewrite ?String.eqb_refl; try reflexivity).
  - apply every_bind_try_ret. every_run_by ltac:(unfold uses_token, authorization, endpoint_url;
               cbn [base_url owner repo headers token GitHubAPI_init]; cbn;
               rewrite ?String.eqb_refl;
               repeat match goal with
                      | |- context [Py.startswith ?a ?b] =>
                          destruct (Py.startswith a b); cbn
                      end;
               rewrite ?String.eqb_refl; try reflexivity).
Qed.

Lemma main_with_token_uses_token (C : Collab) (version own rp tok : string)
  (dry_run : bool) :
  Py.nonempty tok = true ->
  every (uses_token tok)
        (ReleaseMain.main_with_token (C := C) version own rp (Some tok) dry_run).
Proof.
  intros T. unfold ReleaseMain.main_with_token. rewrite T.
  apply every_bind_ret. every_run_by ltac:(unfold uses_token, authorization, endpoint_url;
               cbn [base_url owner repo headers token GitHubAPI_init]; cbn;
               rewrite ?String.eqb_refl;
               repeat match goal with
                      | |- context [Py.startswith ?a ?b] =>
                          destruct (Py.startswith a b); cbn
                      end;
               rewrite ?String.eqb_refl; try reflexivity).
Qed.

(** X27 -- A token given with [--token] is the one in use, in both
    scripts: every request carries its [Authorization] (and [Accept]), and
    [GITHUB_TOKEN] is not even read from the environment. *)
Theorem token_of_the_command_line (C : Collab) (tok : string) :
  Py.nonempty tok = true ->
  (forall (v cfg : string) (plg : option string) (dry : bool),
      every (uses_token tok)
        (ReleasePlugins.main (C := C) (ReleasePlugins.mkArgs v (Some tok) cfg plg dry)))
  /\ (forall (v : string) (dry : bool),
        every (uses_token tok)
          (ReleaseMain.main (C := C) (ReleaseMain.mkArgs v (Some tok) dry))).
Proof.
  intros T. split.
  - intros v cfg plg dry. unfold ReleasePlugins.main. every_reduce.
    cbn [Py.truthy_opt]. rewrite T.
    apply every_bind; [every_run_by ltac:(unfold uses_token, authorization, endpoint_url;
               cbn [base_url owner repo headers token GitHubAPI_init]; cbn;
               rewrite ?String.eqb_refl;
               repeat match goal with
                      | |- context [Py.startswith ?a ?b] =>
                          destruct (Py.startswith a b); cbn
                      end;
               rewrite ?String.eqb_refl; try reflexivity) | intros ?].
    apply every_bind_ret. every_reduce.
    do 7 (apply every_bind; [every_run_by ltac:(unfold uses_token, authorization, endpoint_url;
               cbn [base_url owner repo headers token GitHubAPI_init]; cbn;
               rewrite ?String.eqb_refl;
               repeat match goal with
                      | |- context [Py.startswith ?a ?b] =>
                          destruct (Py.startswith a b); cbn
                      end;
               rewrite ?String.eqb_refl; try reflexivity) | intros ?]).
    apply every_bind.
    + unfold ReleasePlugins.process_plugins. apply every_for_each.
      intros q s. apply main_loop_body_uses_token. exact T.
    + intros ?. every_run_by ltac:(unfold uses_token, authorization, endpoint_url;
               cbn [base_url owner repo headers token GitHubAPI_init]; cbn;
               rewrite ?String.eqb_refl;
               repeat match goal with
                      | |- context [Py.startswith ?a ?b] =>
                          destruct (Py.startswith a b); cbn
                      end;
               rewrite ?String.eqb_refl; try reflexivity).
  - intros v dry. unfold ReleaseMain.main. every_reduce.
    cbn [Py.truthy_opt]. rewrite T.
    repeat first [ apply main_with_token_uses_token; exact T
                 | every_step_by ltac:(unfold uses_token, authorization, endpoint_url;
               cbn [base_url owner repo headers token GitHubAPI_init]; cbn;
               rewrite ?String.eqb_refl;
               repeat match goal with
                      | |- context [Py.startswith ?a ?b] =>
                          destruct (Py.startswith a b); cbn
                      end;
               rewrite ?String.eqb_refl; try reflexivity) ].
Qed.

(** [--token ghp_cli] where the environment has another token. *)
Lemma token_of_the_command_line_witness :
  Py.nonempty "ghp_cli" = true
  /\ getenv Sim.collab "GITHUB_TOKEN" Scenario.fresh = Some "ghp_x"
  /\ forallb (uses_token "ghp_cli")
       (log (ReleasePlugins.main (C := Sim.collab) (Cases.with_token "ghp_cli" false)
               Scenario.fresh))
     = true.
Proof.
  split; [reflexivity|]. split; [reflexivity|].
  exact (proj1 (token_of_the_command_line Sim.collab "ghp_cli" eq_refl)
           "v1.0.0" "plugins.json" None false Scenario.fresh).
Defined.
